(** * Database-role grants of the Snowflake Terraform provider

    A shallow embedding of [pkg/resources/database_role_grants.go] (the two
    resources [snowflake_database_role_grants] and
    [snowflake_grant_privileges_to_database_role]) and of
    [pkg/snowflake/database_role_grant.go], with the properties of the
    identifier codec, the privilege delta, target resolution, read
    reconciliation and the revoke gateway. *)

From Stdlib Require Import String Ascii List Arith Bool Lia.
From stdpp Require Import base option list strings gmap.

Local Open Scope string_scope.
Local Open Scope list_scope.

(** ** Go strings

    A Go string is a sequence of bytes; [string] (a list of [ascii]) is the
    same data.  Only the two functions of package [strings] the resources
    call are needed, both with a one-byte separator. *)

Module strings.

(** [strings.Count(s, sep)] for a one-byte [sep]. *)
Fixpoint Count (s : string) (sep : ascii) : nat :=
  match s with
  | EmptyString => 0
  | String c rest =>
      if Ascii.eqb c sep then S (Count rest sep) else Count rest sep
  end.

(** [strings.Split(s, sep)] for a one-byte [sep]: the segments between the
    occurrences of [sep]; never empty, [Split("", sep)] is [[""]]. *)
Fixpoint Split (s : string) (sep : ascii) : list string :=
  match s with
  | EmptyString => [EmptyString]
  | String c rest =>
      if Ascii.eqb c sep then EmptyString :: Split rest sep
      else match Split rest sep with
           | [] => [String c EmptyString]
           | seg :: segs => String c seg :: segs
           end
  end.

(** [strings.Join(elems, sep)]. *)
Fixpoint Join (elems : list string) (sep : string) : string :=
  match elems with
  | [] => EmptyString
  | [e] => e
  | e :: rest => e +:+ sep +:+ Join rest sep
  end.

(** [strings.HasPrefix(s, prefix)]. *)
Definition HasPrefix (s prefix : string) : bool := String.prefix prefix s.

End strings.

(** [strconv.FormatBool]. *)
Definition FormatBool (b : bool) : string := if b then "true" else "false".

(** ** The identifier of a privilege grant *)

(** [type GrantPrivilegesToDatabaseRoleID struct]. *)
Record GrantPrivilegesToDatabaseRoleID := {
  RoleName : string;
  DatabaseName : string;
  Privileges : list string;
  AllPrivileges : bool;
  WithGrantOption : bool;
  OnDatabase : bool;
  OnSchema : bool;
  OnSchemaObject : bool;
  All : bool;
  Future : bool;
  ObjectType : string;
  ObjectName : string;
  ObjectTypePlural : string;
  InSchema : bool;
  SchemaName : string;
  InDatabase : bool
}.

(** The zero value [GrantPrivilegesToDatabaseRoleID{}]. *)
Definition zeroID : GrantPrivilegesToDatabaseRoleID :=
  {| RoleName := ""; DatabaseName := ""; Privileges := [];
     AllPrivileges := false; WithGrantOption := false; OnDatabase := false;
     OnSchema := false; OnSchemaObject := false; All := false;
     Future := false; ObjectType := ""; ObjectName := "";
     ObjectTypePlural := ""; InSchema := false; SchemaName := "";
     InDatabase := false |}.

Module helpers.

(** The variadic [...interface{}] arguments of [EncodeSnowflakeID], by the
    dynamic types the resources pass. *)
Inductive attribute :=
| AString (s : string)
| ABool (b : bool)
| AStrings (l : list string).

Definition IDDelimiter : string := "|".

Definition render (a : attribute) : string :=
  match a with
  | AString s => s
  | ABool b => FormatBool b
  | AStrings l => strings.Join l ","
  end.

(** Modelled from the spec: [helpers.EncodeSnowflakeID] is not among the
    sources.  The identifier is "pipe-delimited fields in fixed order", the
    privileges "comma-joined", "each boolean rendered as literal
    true/false". *)
Definition EncodeSnowflakeID (attributes : list attribute) : string :=
  strings.Join (map render attributes) IDDelimiter.

End helpers.

Section Codec.

(** The encoder is a parameter of [String]: what the decoder does with the
    [InDatabase] field does not depend on it. *)
Variable Encode : list helpers.attribute -> string.

(** [func (v GrantPrivilegesToDatabaseRoleID) String() string], over an
    arbitrary encoder. *)
Definition String_with (v : GrantPrivilegesToDatabaseRoleID) : string :=
  Encode [helpers.AString (RoleName v); helpers.AString (DatabaseName v);
          helpers.AStrings (Privileges v); helpers.ABool (AllPrivileges v);
          helpers.ABool (WithGrantOption v); helpers.ABool (OnDatabase v);
          helpers.ABool (OnSchema v); helpers.ABool (OnSchemaObject v);
          helpers.ABool (All v); helpers.ABool (Future v);
          helpers.AString (ObjectType v); helpers.AString (ObjectName v);
          helpers.AString (ObjectTypePlural v); helpers.ABool (InSchema v);
          helpers.AString (SchemaName v)].

End Codec.

(** [String()] with the repository's encoder. *)
Definition ID_String (v : GrantPrivilegesToDatabaseRoleID) : string :=
  String_with helpers.EncodeSnowflakeID v.

(** [func NewGrantPrivilegesToDatabaseRoleID(id string)].  An index
    expression [parts[i]] beyond the slice panics; [None] is that panic.
    [InDatabase] is not among the fields of the composite literal and keeps
    its zero value. *)
Definition NewGrantPrivilegesToDatabaseRoleID (id : string)
  : option GrantPrivilegesToDatabaseRoleID :=
  let parts := strings.Split id "|" in
  p2 ← parts !! 2;
  let privileges := strings.Split p2 "," in
  let privileges :=
    if bool_decide (length privileges = 1) &&
       bool_decide (privileges !! 0 = Some "")
    then [] else privileges in
  p0 ← parts !! 0;
  p1 ← parts !! 1;
  p3 ← parts !! 3;
  p4 ← parts !! 4;
  p5 ← parts !! 5;
  p6 ← parts !! 6;
  p7 ← parts !! 7;
  p8 ← parts !! 8;
  p9 ← parts !! 9;
  p10 ← parts !! 10;
  p11 ← parts !! 11;
  p12 ← parts !! 12;
  p13 ← parts !! 13;
  p14 ← parts !! 14;
  Some {| RoleName := p0;
          DatabaseName := p1;
          Privileges := privileges;
          AllPrivileges := String.eqb p3 "true";
          WithGrantOption := String.eqb p4 "true";
          OnDatabase := String.eqb p5 "true";
          OnSchema := String.eqb p6 "true";
          OnSchemaObject := String.eqb p7 "true";
          All := String.eqb p8 "true";
          Future := String.eqb p9 "true";
          ObjectType := p10;
          ObjectName := p11;
          ObjectTypePlural := p12;
          InSchema := String.eqb p13 "true";
          SchemaName := p14;
          InDatabase := false |}.

(** Assignments [resourceID.F = x] through the pointer, one per field. *)

Definition set_RoleName (v : GrantPrivilegesToDatabaseRoleID) (x : string)
  : GrantPrivilegesToDatabaseRoleID :=
  {| RoleName := x; DatabaseName := DatabaseName v;
     Privileges := Privileges v; AllPrivileges := AllPrivileges v;
     WithGrantOption := WithGrantOption v; OnDatabase := OnDatabase v;
     OnSchema := OnSchema v; OnSchemaObject := OnSchemaObject v;
     All := All v; Future := Future v; ObjectType := ObjectType v;
     ObjectName := ObjectName v; ObjectTypePlural := ObjectTypePlural v;
     InSchema := InSchema v; SchemaName := SchemaName v;
     InDatabase := InDatabase v |}.

Definition set_DatabaseName (v : GrantPrivilegesToDatabaseRoleID) (x : string)
  : GrantPrivilegesToDatabaseRoleID :=
  {| RoleName := RoleName v; DatabaseName := x; Privileges := Privileges v;
     AllPrivileges := AllPrivileges v; WithGrantOption := WithGrantOption v;
     OnDatabase := OnDatabase v; OnSchema := OnSchema v;
     OnSchemaObject := OnSchemaObject v; All := All v; Future := Future v;
     ObjectType := ObjectType v; ObjectName := ObjectName v;
     ObjectTypePlural := ObjectTypePlural v; InSchema := InSchema v;
     SchemaName := SchemaName v; InDatabase := InDatabase v |}.

Definition set_Privileges (v : GrantPrivilegesToDatabaseRoleID) (x : list string)
  : GrantPrivilegesToDatabaseRoleID :=
  {| RoleName := RoleName v; DatabaseName := DatabaseName v; Privileges := x;
     AllPrivileges := AllPrivileges v; WithGrantOption := WithGrantOption v;
     OnDatabase := OnDatabase v; OnSchema := OnSchema v;
     OnSchemaObject := OnSchemaObject v; All := All v; Future := Future v;
     ObjectType := ObjectType v; ObjectName := ObjectName v;
     ObjectTypePlural := ObjectTypePlural v; InSchema := InSchema v;
     SchemaName := SchemaName v; InDatabase := InDatabase v |}.

Definition set_AllPrivileges (v : GrantPrivilegesToDatabaseRoleID) (x : bool)
  : GrantPrivilegesToDatabaseRoleID :=
  {| RoleName := RoleName v; DatabaseName := DatabaseName v;
     Privileges := Privileges v; AllPrivileges := x;
     WithGrantOption := WithGrantOption v; OnDatabase := OnDatabase v;
     OnSchema := OnSchema v; OnSchemaObject := OnSchemaObject v;
     All := All v; Future := Future v; ObjectType := ObjectType v;
     ObjectName := ObjectName v; ObjectTypePlural := ObjectTypePlural v;
     InSchema := InSchema v; SchemaName := SchemaName v;
     InDatabase := InDatabase v |}.

Definition set_WithGrantOption (v : GrantPrivilegesToDatabaseRoleID) (x : bool)
  : GrantPrivilegesToDatabaseRoleID :=
  {| RoleName := RoleName v; DatabaseName := DatabaseName v;
     Privileges := Privileges v; AllPrivileges := AllPrivileges v;
     WithGrantOption := x; OnDatabase := OnDatabase v;
     OnSchema := OnSchema v; OnSchemaObject := OnSchemaObject v;
     All := All v; Future := Future v; ObjectType := ObjectType v;
     ObjectName := ObjectName v; ObjectTypePlural := ObjectTypePlural v;
     InSchema := InSchema v; SchemaName := SchemaName v;
     InDatabase := InDatabase v |}.

Definition set_OnDatabase (v : GrantPrivilegesToDatabaseRoleID) (x : bool)
  : GrantPrivilegesToDatabaseRoleID :=
  {| RoleName := RoleName v; DatabaseName := DatabaseName v;
     Privileges := Privileges v; AllPrivileges := AllPrivileges v;
     WithGrantOption := WithGrantOption v; OnDatabase := x;
     OnSchema := OnSchema v; OnSchemaObject := OnSchemaObject v;
     All := All v; Future := Future v; ObjectType := ObjectType v;
     ObjectName := ObjectName v; ObjectTypePlural := ObjectTypePlural v;
     InSchema := InSchema v; SchemaName := SchemaName v;
     InDatabase := InDatabase v |}.

Definition set_OnSchema (v : GrantPrivilegesToDatabaseRoleID) (x : bool)
  : GrantPrivilegesToDatabaseRoleID :=
  {| RoleName := RoleName v; DatabaseName := DatabaseName v;
     Privileges := Privileges v; AllPrivileges := AllPrivileges v;
     WithGrantOption := WithGrantOption v; OnDatabase := OnDatabase v;
     OnSchema := x; OnSchemaObject := OnSchemaObject v; All := All v;
     Future := Future v; ObjectType := ObjectType v;
     ObjectName := ObjectName v; ObjectTypePlural := ObjectTypePlural v;
     InSchema := InSchema v; SchemaName := SchemaName v;
     InDatabase := InDatabase v |}.

Definition set_OnSchemaObject (v : GrantPrivilegesToDatabaseRoleID) (x : bool)
  : GrantPrivilegesToDatabaseRoleID :=
  {| RoleName := RoleName v; DatabaseName := DatabaseName v;
     Privileges := Privileges v; AllPrivileges := AllPrivileges v;
     WithGrantOption := WithGrantOption v; OnDatabase := OnDatabase v;
     OnSchema := OnSchema v; OnSchemaObject := x; All := All v;
     Future := Future v; ObjectType := ObjectType v;
     ObjectName := ObjectName v; ObjectTypePlural := ObjectTypePlural v;
     InSchema := InSchema v; SchemaName := SchemaName v;
     InDatabase := InDatabase v |}.

Definition set_All (v : GrantPrivilegesToDatabaseRoleID) (x : bool)
  : GrantPrivilegesToDatabaseRoleID :=
  {| RoleName := RoleName v; DatabaseName := DatabaseName v;
     Privileges := Privileges v; AllPrivileges := AllPrivileges v;
     WithGrantOption := WithGrantOption v; OnDatabase := OnDatabase v;
     OnSchema := OnSchema v; OnSchemaObject := OnSchemaObject v; All := x;
     Future := Future v; ObjectType := ObjectType v;
     ObjectName := ObjectName v; ObjectTypePlural := ObjectTypePlural v;
     InSchema := InSchema v; SchemaName := SchemaName v;
     InDatabase := InDatabase v |}.

Definition set_Future (v : GrantPrivilegesToDatabaseRoleID) (x : bool)
  : GrantPrivilegesToDatabaseRoleID :=
  {| RoleName := RoleName v; DatabaseName := DatabaseName v;
     Privileges := Privileges v; AllPrivileges := AllPrivileges v;
     WithGrantOption := WithGrantOption v; OnDatabase := OnDatabase v;
     OnSchema := OnSchema v; OnSchemaObject := OnSchemaObject v;
     All := All v; Future := x; ObjectType := ObjectType v;
     ObjectName := ObjectName v; ObjectTypePlural := ObjectTypePlural v;
     InSchema := InSchema v; SchemaName := SchemaName v;
     InDatabase := InDatabase v |}.

Definition set_ObjectType (v : GrantPrivilegesToDatabaseRoleID) (x : string)
  : GrantPrivilegesToDatabaseRoleID :=
  {| RoleName := RoleName v; DatabaseName := DatabaseName v;
     Privileges := Privileges v; AllPrivileges := AllPrivileges v;
     WithGrantOption := WithGrantOption v; OnDatabase := OnDatabase v;
     OnSchema := OnSchema v; OnSchemaObject := OnSchemaObject v;
     All := All v; Future := Future v; ObjectType := x;
     ObjectName := ObjectName v; ObjectTypePlural := ObjectTypePlural v;
     InSchema := InSchema v; SchemaName := SchemaName v;
     InDatabase := InDatabase v |}.

Definition set_ObjectName (v : GrantPrivilegesToDatabaseRoleID) (x : string)
  : GrantPrivilegesToDatabaseRoleID :=
  {| RoleName := RoleName v; DatabaseName := DatabaseName v;
     Privileges := Privileges v; AllPrivileges := AllPrivileges v;
     WithGrantOption := WithGrantOption v; OnDatabase := OnDatabase v;
     OnSchema := OnSchema v; OnSchemaObject := OnSchemaObject v;
     All := All v; Future := Future v; ObjectType := ObjectType v;
     ObjectName := x; ObjectTypePlural := ObjectTypePlural v;
     InSchema := InSchema v; SchemaName := SchemaName v;
     InDatabase := InDatabase v |}.

Definition set_ObjectTypePlural (v : GrantPrivilegesToDatabaseRoleID) (x : string)
  : GrantPrivilegesToDatabaseRoleID :=
  {| RoleName := RoleName v; DatabaseName := DatabaseName v;
     Privileges := Privileges v; AllPrivileges := AllPrivileges v;
     WithGrantOption := WithGrantOption v; OnDatabase := OnDatabase v;
     OnSchema := OnSchema v; OnSchemaObject := OnSchemaObject v;
     All := All v; Future := Future v; ObjectType := ObjectType v;
     ObjectName := ObjectName v; ObjectTypePlural := x;
     InSchema := InSchema v; SchemaName := SchemaName v;
     InDatabase := InDatabase v |}.

Definition set_InSchema (v : GrantPrivilegesToDatabaseRoleID) (x : bool)
  : GrantPrivilegesToDatabaseRoleID :=
  {| RoleName := RoleName v; DatabaseName := DatabaseName v;
     Privileges := Privileges v; AllPrivileges := AllPrivileges v;
     WithGrantOption := WithGrantOption v; OnDatabase := OnDatabase v;
     OnSchema := OnSchema v; OnSchemaObject := OnSchemaObject v;
     All := All v; Future := Future v; ObjectType := ObjectType v;
     ObjectName := ObjectName v; ObjectTypePlural := ObjectTypePlural v;
     InSchema := x; SchemaName := SchemaName v;
     InDatabase := InDatabase v |}.

Definition set_SchemaName (v : GrantPrivilegesToDatabaseRoleID) (x : string)
  : GrantPrivilegesToDatabaseRoleID :=
  {| RoleName := RoleName v; DatabaseName := DatabaseName v;
     Privileges := Privileges v; AllPrivileges := AllPrivileges v;
     WithGrantOption := WithGrantOption v; OnDatabase := OnDatabase v;
     OnSchema := OnSchema v; OnSchemaObject := OnSchemaObject v;
     All := All v; Future := Future v; ObjectType := ObjectType v;
     ObjectName := ObjectName v; ObjectTypePlural := ObjectTypePlural v;
     InSchema := InSchema v; SchemaName := x; InDatabase := InDatabase v |}.

Definition set_InDatabase (v : GrantPrivilegesToDatabaseRoleID) (x : bool)
  : GrantPrivilegesToDatabaseRoleID :=
  {| RoleName := RoleName v; DatabaseName := DatabaseName v;
     Privileges := Privileges v; AllPrivileges := AllPrivileges v;
     WithGrantOption := WithGrantOption v; OnDatabase := OnDatabase v;
     OnSchema := OnSchema v; OnSchemaObject := OnSchemaObject v;
     All := All v; Future := Future v; ObjectType := ObjectType v;
     ObjectName := ObjectName v; ObjectTypePlural := ObjectTypePlural v;
     InSchema := InSchema v; SchemaName := SchemaName v; InDatabase := x |}.

(** ** Errors, outcomes and the remote system *)

(** The error values the resources tell apart: [*gosnowflake.SnowflakeError]
    by its [Number], [sql.ErrNoRows], an error wrapped by
    [fmt.Errorf("...: %w", err)], and any other error. *)
Inductive error :=
| SnowflakeError (Number : Z)
| ErrNoRows
| Wrapped (msg : string) (cause : error)
| OtherError (msg : string).

(** [errors.Is(err, sql.ErrNoRows)]. *)
Fixpoint Is_ErrNoRows (e : error) : bool :=
  match e with
  | ErrNoRows => true
  | Wrapped _ cause => Is_ErrNoRows cause
  | _ => false
  end.

(** How a call ends: it returns a value ([error] nil), returns an error, or
    panics (index out of range, nil dereference, failed type assertion). *)
Inductive result (A : Type) :=
| Ok (a : A)
| Err (e : error)
| Panic.
Arguments Ok {A} a.
Arguments Err {A} e.
Arguments Panic {A}.

Module slices.

(** [slices.Contains] on [[]string]. *)
Fixpoint Contains (s : list string) (e : string) : bool :=
  match s with
  | [] => false
  | a :: rest => if String.eqb a e then true else Contains rest e
  end.

End slices.

Module sdk.

Definition ObjectType := string.

(** Object identifiers, by the constructor that builds them. *)
Inductive ObjectIdentifier :=
| NewAccountObjectIdentifierFromFullyQualifiedName (fqn : string)
| NewDatabaseObjectIdentifier (database name : string)
| NewSchemaObjectIdentifierFromFullyQualifiedName (fqn : string).

Record Object := {
  Object_ObjectType : ObjectType;
  Object_Name : option ObjectIdentifier
}.

Record GrantOnSchema := {
  Schema : option ObjectIdentifier;
  AllSchemasInDatabase : option ObjectIdentifier;
  FutureSchemasInDatabase : option ObjectIdentifier
}.

Record GrantOnSchemaObjectIn := {
  PluralObjectType : string;
  InDatabase : option ObjectIdentifier;
  InSchema : option ObjectIdentifier
}.

Record GrantOnSchemaObject := {
  SchemaObject : option Object;
  All : option GrantOnSchemaObjectIn;
  Future : option GrantOnSchemaObjectIn
}.

(** [sdk.DatabaseRoleGrantOn]: a pointer per top-level target. *)
Record DatabaseRoleGrantOn := {
  On_Database : option ObjectIdentifier;
  On_Schema : option GrantOnSchema;
  On_SchemaObject : option GrantOnSchemaObject
}.

(** [sdk.DatabaseRoleGrantPrivileges]; a nil slice and an empty one are both
    [[]]. *)
Record DatabaseRoleGrantPrivileges := {
  DatabasePrivileges : list string;
  SchemaPrivileges : list string;
  SchemaObjectPrivileges : list string;
  AllPrivileges : option bool
}.

Record GrantPrivilegesToDatabaseRoleOptions := {
  WithGrantOption : option bool
}.

Record ShowGrantsOn := { SGO_Object : option Object }.

Record ShowGrantsIn := {
  In_Schema : option ObjectIdentifier;
  In_Database : option ObjectIdentifier
}.

Record ShowGrantOptions := {
  SG_Future : option bool;
  SG_On : option ShowGrantsOn;
  SG_In : option ShowGrantsIn
}.

(** A row of [client.Grants.Show]; the two identifier fields hold what their
    [Name()] returns. *)
Record Grant := {
  Privilege : string;
  GrantedOn : ObjectType;
  GrantOn : ObjectType;
  GranteeName : string;
  GrantOption : bool;
  GrantedBy : string
}.

End sdk.

(** A row of [SHOW GRANTS OF DATABASE ROLE], [type databaseRoleGrant]; a
    [sql.NullString] is its [String] and [Valid]. *)
Record NullString := { NS_String : string; NS_Valid : bool }.

Record databaseRoleGrant := {
  Role : NullString;
  GrantedTo : NullString;
  DRG_GranteeName : NullString;
  Grantedby : NullString
}.

(** [snowflake.DatabaseRole], a row of [SHOW DATABASE ROLES]. *)
Record DatabaseRole := { DR_Name : NullString }.

(** What reaches the remote system, in the order it is sent. *)
Inductive request :=
| Exec (stmt : string)
| Query (stmt : string)
| ListRoles (pattern : string)
| ListUsers (pattern : string)
| GrantPrivilegesToDatabaseRole
    (privileges : option sdk.DatabaseRoleGrantPrivileges)
    (on : sdk.DatabaseRoleGrantOn) (role : sdk.ObjectIdentifier)
    (opts : option sdk.GrantPrivilegesToDatabaseRoleOptions)
| RevokePrivilegesFromDatabaseRole
    (privileges : option sdk.DatabaseRoleGrantPrivileges)
    (on : sdk.DatabaseRoleGrantOn) (role : sdk.ObjectIdentifier)
| ShowGrants (opts : sdk.ShowGrantOptions).

(** What [sqlx.StructScan] over the rows of a [Query] yields: the scan fails,
    or it gives rows, next to the error of the query itself. *)
Inductive scan (A : Type) :=
| ScanFailed (e : error)
| Scanned (rows : list A) (queryErr : option error).
Arguments ScanFailed {A} e.
Arguments Scanned {A} rows queryErr.

(** The remote system: the answer to a request may depend on every request
    sent before it. *)
Record Remote := {
  exec_error : list request -> request -> option error;
  listed_names : list request -> request -> list string;
  shown_grants : list request -> request -> error + list sdk.Grant;
  shown_roles : list request -> request -> scan DatabaseRole;
  shown_role_grants : list request -> request -> error + list databaseRoleGrant
}.

(** ** Lifecycle callbacks as state transformers

    A callback mutates its [*schema.ResourceData] and talks to the remote
    system; [M D A] threads the data [D] and the log of requests sent. *)
Definition M (D A : Type) : Type :=
  D -> list request -> result A * D * list request.

Definition ret {D A} (a : A) : M D A := fun d log => (Ok a, d, log).
Definition fail {D A} (e : error) : M D A := fun d log => (Err e, d, log).
Definition panic {D A} : M D A := fun d log => (Panic, d, log).

Definition bind {D A B} (m : M D A) (k : A -> M D B) : M D B :=
  fun d log =>
    match m d log with
    | (Ok a, d', log') => k a d' log'
    | (Err e, d', log') => (Err e, d', log')
    | (Panic, d', log') => (Panic, d', log')
    end.

Notation "'let*' x ':=' m 'in' k" := (bind m (fun x => k))
  (at level 10, x pattern, m at level 100, k at level 200).
Notation "m ';;' k" := (bind m (fun _ => k))
  (at level 100, k at level 200, right associativity).

Definition get {D} : M D D := fun d log => (Ok d, d, log).
Definition modify {D} (f : D -> D) : M D unit := fun d log => (Ok tt, f d, log).

(** Send a request and append it to the log. *)
Definition send {D A} (answer : list request -> request -> A) (r : request)
  : M D A :=
  fun d log => (Ok (answer log r), d, log ++ [r]).

(** [if err != nil { return err }] after a call that returns only an
    error. *)
Definition check {D} (o : option error) : M D unit :=
  match o with
  | None => ret tt
  | Some e => fail e
  end.

(** [if err != nil { return fmt.Errorf(msg + ": %w", err) }]. *)
Definition check_wrap {D} (msg : string) (o : option error) : M D unit :=
  match o with
  | None => ret tt
  | Some e => fail (Wrapped msg e)
  end.

(** [for _, x := range xs { if err := f(x); err != nil { return err } }]. *)
Fixpoint for_each {D A} (xs : list A) (f : A -> M D unit) : M D unit :=
  match xs with
  | [] => ret tt
  | x :: rest => f x ;; for_each rest f
  end.

(** ** The resource [snowflake_grant_privileges_to_database_role] *)

(** The nested blocks as the [map[string]interface{}] values the code
    indexes; a key the map does not hold is [None]. *)
Record on_schema_map := {
  schema_name : option string;
  all_schemas : option bool;
  future_schemas : option bool
}.

Record in_map := {
  object_type_plural : option string;
  in_database : option bool;
  in_schema : option string
}.

Record on_schema_object_map := {
  object_type : option string;
  object_name : option string;
  all : option (list in_map);
  future : option (list in_map)
}.

(** [*schema.ResourceData] of the resource: the identifier, the attributes
    [d.Get] reads, and for [privileges] also the prior state, the old value
    of [d.GetChange].  A [schema.Set] of strings is the list its [List()]
    returns, free of duplicates. *)
Record ResourceData := {
  Id : string;
  role_name : string;
  database_name : string;
  privileges_state : list string;
  privileges : list string;
  all_privileges : bool;
  with_grant_option : bool;
  on_database : bool;
  on_schema : list on_schema_map;
  on_schema_object : list on_schema_object_map
}.

(** [d.SetId(id)]. *)
Definition SetId (id : string) (d : ResourceData) : ResourceData :=
  {| Id := id; role_name := role_name d; database_name := database_name d;
     privileges_state := privileges_state d; privileges := privileges d;
     all_privileges := all_privileges d;
     with_grant_option := with_grant_option d; on_database := on_database d;
     on_schema := on_schema d; on_schema_object := on_schema_object d |}.

(** [d.Set("privileges", ps)]. *)
Definition Set_privileges (ps : list string) (d : ResourceData)
  : ResourceData :=
  {| Id := Id d; role_name := role_name d; database_name := database_name d;
     privileges_state := privileges_state d; privileges := ps;
     all_privileges := all_privileges d;
     with_grant_option := with_grant_option d; on_database := on_database d;
     on_schema := on_schema d; on_schema_object := on_schema_object d |}.

(** [v, ok := m[key]; ok && len(v.(string)) > 0]. *)
Definition nonempty (o : option string) : option string :=
  match o with
  | Some v => if Nat.ltb 0 (String.length v) then Some v else None
  | None => None
  end.

(** [v, ok := m[key]; ok && v.(bool)]. *)
Definition is_set (o : option bool) : bool :=
  match o with
  | Some v => v
  | None => false
  end.

(** [v, ok := m[key]; ok && len(v.([]interface{})) > 0], then [v[0]]. *)
Definition first_block {A} (o : option (list A)) : option A :=
  match o with
  | Some (b :: _) => Some b
  | _ => None
  end.

(** [func setDatabaseRolePrivilegeOptions]; [None] is the nil pointer.  Each
    loop appends the privileges, converted to the privilege type of the
    target, one by one. *)
Definition setDatabaseRolePrivilegeOptions (privileges : list string)
    (allPrivileges onDatabase onSchema onSchemaObject : bool)
  : option sdk.DatabaseRoleGrantPrivileges :=
  let converted := fold_left (fun acc privilege => acc ++ [privilege])
                     privileges [] in
  if allPrivileges then
    Some {| sdk.DatabasePrivileges := []; sdk.SchemaPrivileges := [];
            sdk.SchemaObjectPrivileges := [];
            sdk.AllPrivileges := Some true |}
  else if onDatabase then
    Some {| sdk.DatabasePrivileges := converted; sdk.SchemaPrivileges := [];
            sdk.SchemaObjectPrivileges := []; sdk.AllPrivileges := None |}
  else if onSchema then
    Some {| sdk.DatabasePrivileges := []; sdk.SchemaPrivileges := converted;
            sdk.SchemaObjectPrivileges := []; sdk.AllPrivileges := None |}
  else if onSchemaObject then
    Some {| sdk.DatabasePrivileges := []; sdk.SchemaPrivileges := [];
            sdk.SchemaObjectPrivileges := converted;
            sdk.AllPrivileges := None |}
  else None.

(** The [all] and [future] sub-blocks of [on_schema_object] are read the
    same way: the plural type by a type assertion that panics when the key
    is missing, then [in_database], then [in_schema]. *)
Definition configure_in (b : in_map) (rid : GrantPrivilegesToDatabaseRoleID)
  : result (sdk.GrantOnSchemaObjectIn * GrantPrivilegesToDatabaseRoleID) :=
  match object_type_plural b with
  | None => Panic
  | Some pluralObjectType =>
      let rid := set_ObjectTypePlural rid pluralObjectType in
      let inDatabase :=
        if is_set (in_database b)
        then Some (sdk.NewAccountObjectIdentifierFromFullyQualifiedName
                     (DatabaseName rid))
        else None in
      let rid := if is_set (in_database b) then set_InDatabase rid true
                 else rid in
      let inSchema :=
        match nonempty (in_schema b) with
        | Some v => Some (sdk.NewDatabaseObjectIdentifier (DatabaseName rid) v)
        | None => None
        end in
      let rid :=
        match nonempty (in_schema b) with
        | Some v => set_SchemaName (set_InSchema rid true) v
        | None => rid
        end in
      Ok ({| sdk.PluralObjectType := pluralObjectType;
             sdk.InDatabase := inDatabase;
             sdk.InSchema := inSchema |}, rid)
  end.

(** Sequencing of steps that may panic. *)
Definition and_then {A B} (r : result A) (k : A -> result B) : result B :=
  match r with
  | Ok a => k a
  | Err e => Err e
  | Panic => Panic
  end.

(** The [object_type] and [object_name] keys of an [on_schema_object]
    block.  [on.SchemaObject.SchemaObject] is a pointer that is nil unless
    [object_type] was given, and the assignment of the name through it then
    panics. *)
Definition configure_object (onSchemaObject : on_schema_object_map)
    (resourceID : GrantPrivilegesToDatabaseRoleID)
  : result (option sdk.Object * GrantPrivilegesToDatabaseRoleID) :=
  let object :=
    match nonempty (object_type onSchemaObject) with
    | Some v => Some {| sdk.Object_ObjectType := v; sdk.Object_Name := None |}
    | None => None
    end in
  let resourceID :=
    match nonempty (object_type onSchemaObject) with
    | Some v => set_ObjectType resourceID v
    | None => resourceID
    end in
  match nonempty (object_name onSchemaObject) with
  | Some v =>
      let resourceID := set_ObjectName resourceID v in
      match object with
      | Some o =>
          Ok (Some {| sdk.Object_ObjectType := sdk.Object_ObjectType o;
                      sdk.Object_Name :=
                        Some (sdk.NewSchemaObjectIdentifierFromFullyQualifiedName
                                (DatabaseName resourceID +:+ "." +:+ v)) |},
              resourceID)
      | None => Panic
      end
  | None => Ok (object, resourceID)
  end.

(** The [all] (or [future]) key of an [on_schema_object] block: when it
    holds a block, [resourceID.All] (or [Future]) is set by [mark] and the
    block is read. *)
Definition configure_in_block (block : option (list in_map))
    (mark : GrantPrivilegesToDatabaseRoleID -> GrantPrivilegesToDatabaseRoleID)
    (resourceID : GrantPrivilegesToDatabaseRoleID)
  : result (option sdk.GrantOnSchemaObjectIn
            * GrantPrivilegesToDatabaseRoleID) :=
  match first_block block with
  | Some b =>
      and_then (configure_in b (mark resourceID))
        (fun '(i, resourceID) => Ok (Some i, resourceID))
  | None => Ok (None, resourceID)
  end.

(** [func configureDatabaseRoleGrantPrivilegeOptions].  The identifier
    behind the pointer [resourceID] is returned next to the two results. *)
Definition configureDatabaseRoleGrantPrivilegeOptions (d : ResourceData)
    (privileges : list string) (allPrivileges : bool)
    (resourceID : GrantPrivilegesToDatabaseRoleID)
  : result (option sdk.DatabaseRoleGrantPrivileges * sdk.DatabaseRoleGrantOn
            * GrantPrivilegesToDatabaseRoleID) :=
  if on_database d then
    let on := {| sdk.On_Database :=
                   Some (sdk.NewAccountObjectIdentifierFromFullyQualifiedName
                           (DatabaseName resourceID));
                 sdk.On_Schema := None; sdk.On_SchemaObject := None |} in
    let resourceID := set_OnDatabase resourceID true in
    Ok (setDatabaseRolePrivilegeOptions privileges allPrivileges
          true false false, on, resourceID)
  else
  match on_schema d with
  | onSchema :: _ =>
      let resourceID := set_OnSchema resourceID true in
      let schema :=
        match nonempty (schema_name onSchema) with
        | Some v =>
            Some (sdk.NewDatabaseObjectIdentifier (DatabaseName resourceID) v)
        | None => None
        end in
      let resourceID :=
        match nonempty (schema_name onSchema) with
        | Some v => set_SchemaName resourceID v
        | None => resourceID
        end in
      let allSchemas :=
        if is_set (all_schemas onSchema)
        then Some (sdk.NewAccountObjectIdentifierFromFullyQualifiedName
                     (DatabaseName resourceID))
        else None in
      let resourceID :=
        if is_set (all_schemas onSchema)
        then set_InDatabase (set_All resourceID true) true
        else resourceID in
      let futureSchemas :=
        if is_set (future_schemas onSchema)
        then Some (sdk.NewAccountObjectIdentifierFromFullyQualifiedName
                     (DatabaseName resourceID))
        else None in
      let resourceID :=
        if is_set (future_schemas onSchema)
        then set_InDatabase (set_Future resourceID true) true
        else resourceID in
      let on := {| sdk.On_Database := None;
                   sdk.On_Schema :=
                     Some {| sdk.Schema := schema;
                             sdk.AllSchemasInDatabase := allSchemas;
                             sdk.FutureSchemasInDatabase := futureSchemas |};
                   sdk.On_SchemaObject := None |} in
      Ok (setDatabaseRolePrivilegeOptions privileges allPrivileges
            false true false, on, resourceID)
  | [] =>
  match on_schema_object d with
  | onSchemaObject :: _ =>
      let resourceID := set_OnSchemaObject resourceID true in
      and_then (configure_object onSchemaObject resourceID)
        (fun '(object, resourceID) =>
      and_then (configure_in_block (all onSchemaObject)
                  (fun rid => set_All rid true) resourceID)
        (fun '(onAll, resourceID) =>
      and_then (configure_in_block (future onSchemaObject)
                  (fun rid => set_Future rid true) resourceID)
        (fun '(onFuture, resourceID) =>
          let on := {| sdk.On_Database := None; sdk.On_Schema := None;
                       sdk.On_SchemaObject :=
                         Some {| sdk.SchemaObject := object;
                                 sdk.All := onAll;
                                 sdk.Future := onFuture |} |} in
          Ok (setDatabaseRolePrivilegeOptions privileges allPrivileges
                false false true, on, resourceID))))
  | [] => Err (OtherError "invalid grant options")
  end end.

(** [Equal] of [schema.Set], the test behind [d.HasChange] for a set
    attribute: the same elements, in any order. *)
Definition Set_Equal (old new : list string) : bool :=
  forallb (slices.Contains new) old && forallb (slices.Contains old) new.

(** The two loops of [UpdateGrantPrivilegesToDatabaseRole] that fill
    [removePrivileges] and [addPrivileges]. *)
Definition removePrivileges_of (oldPrivileges newPrivileges : list string)
  : list string :=
  fold_left
    (fun removePrivileges oldPrivilege =>
       if negb (slices.Contains newPrivileges oldPrivilege)
       then removePrivileges ++ [oldPrivilege]
       else removePrivileges)
    oldPrivileges [].

Definition addPrivileges_of (oldPrivileges newPrivileges : list string)
  : list string :=
  fold_left
    (fun addPrivileges newPrivilege =>
       if negb (slices.Contains oldPrivileges newPrivilege)
       then addPrivileges ++ [newPrivilege]
       else addPrivileges)
    newPrivileges [].

(** The body of the loop of [readDatabaseRoleGrantPrivileges] over the
    observed rows: [privileges] after one more [grant]. *)
Definition read_row (id : GrantPrivilegesToDatabaseRoleID)
    (grantedOn : sdk.ObjectType) (withGrantOption : bool) (roleName : string)
    (privileges : list string) (grant : sdk.Grant) : list string :=
  if negb (slices.Contains (Privileges id) (sdk.Privilege grant))
  then privileges
  else if Bool.eqb (sdk.GrantOption grant) withGrantOption
          && String.eqb (sdk.GranteeName grant) roleName
  then
    if negb (Future id) && String.eqb (sdk.GrantedBy grant) ""
    then privileges
    else if String.eqb grantedOn (sdk.GrantedOn grant)
            || String.eqb grantedOn (sdk.GrantOn grant)
    then privileges ++ [sdk.Privilege grant]
    else privileges
  else privileges.

Definition zeroShowGrantOptions : sdk.ShowGrantOptions :=
  {| sdk.SG_Future := None; sdk.SG_On := None; sdk.SG_In := None |}.

Section PrivilegeGrants.

(** The remote system, and what package [sdk] supplies: the object types of
    databases and schemas and the singular of a plural object type. *)
Variable R : Remote.
Variable ObjectTypeDatabase ObjectTypeSchema : sdk.ObjectType.
Variable Singular : string -> sdk.ObjectType.

(** [func readDatabaseRoleGrantPrivileges]. *)
Definition readDatabaseRoleGrantPrivileges (grantedOn : sdk.ObjectType)
    (id : GrantPrivilegesToDatabaseRoleID) (opts : sdk.ShowGrantOptions)
  : M ResourceData unit :=
  let* shown := send (shown_grants R) (ShowGrants opts) in
  match shown with
  | inl err =>
      fail (Wrapped "error retrieving grants for database role" err)
  | inr grants =>
      let* d := get in
      let withGrantOption := with_grant_option d in
      let roleName := role_name d in
      let privileges :=
        fold_left (read_row id grantedOn withGrantOption roleName)
          grants [] in
      modify (Set_privileges privileges)
  end.

(** The three target blocks of [ReadGrantPrivilegesToDatabaseRole]; each
    takes [grantOn] and [opts] as the blocks before left them, and [None] is
    its [return nil]. *)
Definition read_on_database (resourceID : GrantPrivilegesToDatabaseRoleID)
    (st : sdk.ObjectType * sdk.ShowGrantOptions)
  : option (sdk.ObjectType * sdk.ShowGrantOptions) :=
  if OnDatabase resourceID then
    Some (ObjectTypeDatabase,
          {| sdk.SG_Future := None;
             sdk.SG_On :=
               Some {| sdk.SGO_Object :=
                         Some {| sdk.Object_ObjectType := ObjectTypeDatabase;
                                 sdk.Object_Name :=
                                   Some (sdk.NewAccountObjectIdentifierFromFullyQualifiedName
                                           (DatabaseName resourceID)) |} |};
             sdk.SG_In := None |})
  else Some st.

Definition show_future_in_database
    (resourceID : GrantPrivilegesToDatabaseRoleID) : sdk.ShowGrantOptions :=
  {| sdk.SG_Future := Some true;
     sdk.SG_On := None;
     sdk.SG_In :=
       Some {| sdk.In_Schema := None;
               sdk.In_Database :=
                 Some (sdk.NewAccountObjectIdentifierFromFullyQualifiedName
                         (DatabaseName resourceID)) |} |}.

Definition read_on_schema (resourceID : GrantPrivilegesToDatabaseRoleID)
    (st : sdk.ObjectType * sdk.ShowGrantOptions)
  : option (sdk.ObjectType * sdk.ShowGrantOptions) :=
  if OnSchema resourceID then
    let grantOn := ObjectTypeSchema in
    let opts :=
      if negb (String.eqb (SchemaName resourceID) "") then
        {| sdk.SG_Future := None;
           sdk.SG_On :=
             Some {| sdk.SGO_Object :=
                       Some {| sdk.Object_ObjectType := ObjectTypeSchema;
                               sdk.Object_Name :=
                                 Some (sdk.NewDatabaseObjectIdentifier
                                         (DatabaseName resourceID)
                                         (SchemaName resourceID)) |} |};
           sdk.SG_In := None |}
      else snd st in
    if All resourceID then None
    else
      let opts := if Future resourceID
                  then show_future_in_database resourceID else opts in
      Some (grantOn, opts)
  else Some st.

Definition read_on_schema_object
    (resourceID : GrantPrivilegesToDatabaseRoleID)
    (st : sdk.ObjectType * sdk.ShowGrantOptions)
  : option (sdk.ObjectType * sdk.ShowGrantOptions) :=
  if OnSchemaObject resourceID then
    let st :=
      if negb (String.eqb (ObjectName resourceID) "") then
        let objectType := ObjectType resourceID in
        (objectType,
         {| sdk.SG_Future := None;
            sdk.SG_On :=
              Some {| sdk.SGO_Object :=
                        Some {| sdk.Object_ObjectType := objectType;
                                sdk.Object_Name :=
                                  Some (sdk.NewSchemaObjectIdentifierFromFullyQualifiedName
                                          (DatabaseName resourceID +:+ "."
                                           +:+ ObjectName resourceID)) |} |};
            sdk.SG_In := None |})
      else st in
    if All resourceID then None
    else if Future resourceID then
      (* the options built under [if resourceID.InSchema] are overwritten by
         the assignment that follows the [if] *)
      Some (Singular (ObjectTypePlural resourceID),
            show_future_in_database resourceID)
    else Some st
  else Some st.

(** [func ReadGrantPrivilegesToDatabaseRole]. *)
Definition ReadGrantPrivilegesToDatabaseRole : M ResourceData unit :=
  let* d := get in
  match NewGrantPrivilegesToDatabaseRoleID (Id d) with
  | None => panic
  | Some resourceID =>
      let allPrivileges := AllPrivileges resourceID in
      if allPrivileges then ret tt
      else
        match
          st ← read_on_database resourceID ("", zeroShowGrantOptions);
          st ← read_on_schema resourceID st;
          read_on_schema_object resourceID st
        with
        | None => ret tt
        | Some (grantOn, opts) =>
            readDatabaseRoleGrantPrivileges grantOn resourceID opts
        end
  end.

Definition configure_error : string :=
  "error configuring database role grant privilege options".

(** [configureDatabaseRoleGrantPrivilegeOptions] as called by the callbacks:
    its error is wrapped, and the identifier it filled in is kept only by
    [Create]. *)
Definition configure (d : ResourceData) (privileges : list string)
    (allPrivileges : bool) (resourceID : GrantPrivilegesToDatabaseRoleID)
  : M ResourceData (option sdk.DatabaseRoleGrantPrivileges
                    * sdk.DatabaseRoleGrantOn
                    * GrantPrivilegesToDatabaseRoleID) :=
  match configureDatabaseRoleGrantPrivilegeOptions d privileges allPrivileges
          resourceID with
  | Ok r => ret r
  | Err e => fail (Wrapped configure_error e)
  | Panic => panic
  end.

(** [func CreateGrantPrivilegesToDatabaseRole]. *)
Definition CreateGrantPrivilegesToDatabaseRole : M ResourceData unit :=
  let* d := get in
  let resourceID := zeroID in
  let privileges := privileges d in
  let resourceID := set_Privileges resourceID privileges in
  let allPrivileges := all_privileges d in
  let resourceID := set_AllPrivileges resourceID allPrivileges in
  let databaseName := database_name d in
  let resourceID := set_DatabaseName resourceID databaseName in
  let* (privilegesToGrant, on, resourceID) :=
    configure d privileges allPrivileges resourceID in
  let withGrantOption := with_grant_option d in
  let resourceID := set_WithGrantOption resourceID withGrantOption in
  let opts := {| sdk.WithGrantOption := Some withGrantOption |} in
  let roleName := role_name d in
  let resourceID := set_RoleName resourceID roleName in
  let roleID := sdk.NewDatabaseObjectIdentifier databaseName roleName in
  let* err := send (exec_error R)
                (GrantPrivilegesToDatabaseRole privilegesToGrant on roleID
                   (Some opts)) in
  check_wrap "error granting privileges to database role" err;;
  modify (SetId (ID_String resourceID));;
  ReadGrantPrivilegesToDatabaseRole.

(** [func UpdateGrantPrivilegesToDatabaseRole]. *)
Definition UpdateGrantPrivilegesToDatabaseRole : M ResourceData unit :=
  let* d := get in
  let roleName := role_name d in
  let databaseName := database_name d in
  let roleID := sdk.NewDatabaseObjectIdentifier databaseName roleName in
  (if negb (Set_Equal (privileges_state d) (privileges d)) then
     let oldPrivileges := privileges_state d in
     let newPrivileges := privileges d in
     let removePrivileges := removePrivileges_of oldPrivileges newPrivileges in
     let addPrivileges := addPrivileges_of oldPrivileges newPrivileges in
     (* first add new privileges *)
     (if Nat.ltb 0 (length addPrivileges) then
        let* (privilegesToGrant, on, _) :=
          configure d addPrivileges false zeroID in
        let* err := send (exec_error R)
                      (GrantPrivilegesToDatabaseRole privilegesToGrant on
                         roleID None) in
        check_wrap "error granting privileges to database role" err
      else ret tt);;
     (* then remove old privileges *)
     (if Nat.ltb 0 (length removePrivileges) then
        let* (privilegesToRevoke, on, _) :=
          configure d removePrivileges false zeroID in
        let* err := send (exec_error R)
                      (RevokePrivilegesFromDatabaseRole privilegesToRevoke on
                         roleID) in
        check_wrap "error revoking privileges from database role" err
      else ret tt);;
     match NewGrantPrivilegesToDatabaseRoleID (Id d) with
     | None => panic
     | Some resourceID =>
         let resourceID := set_Privileges resourceID newPrivileges in
         modify (SetId (ID_String resourceID))
     end
   else ret tt);;
  ReadGrantPrivilegesToDatabaseRole.

(** [func DeleteGrantPrivilegesToDatabaseRole]. *)
Definition DeleteGrantPrivilegesToDatabaseRole : M ResourceData unit :=
  let* d := get in
  let roleName := role_name d in
  let databaseName := database_name d in
  let roleID := sdk.NewDatabaseObjectIdentifier databaseName roleName in
  let privileges := privileges d in
  let allPrivileges := all_privileges d in
  let* (privilegesToRevoke, on, _) :=
    configure d privileges allPrivileges zeroID in
  let* err := send (exec_error R)
                (RevokePrivilegesFromDatabaseRole privilegesToRevoke on
                   roleID) in
  check_wrap "error revoking privileges from database role" err;;
  modify (SetId "").

End PrivilegeGrants.

(** ** Package [snowflake]: the statements that grant a database role *)

Module snowflake.

(** The double quote of the statements. *)
Definition quote : string := String (Ascii.ascii_of_nat 34) EmptyString.

(** [granteeType] and its two constants, as [TestDatabaseRoleGrant] prints
    them. *)
Inductive granteeType := userType | roleType.

Definition granteeType_String (t : granteeType) : string :=
  match t with
  | userType => "USER"
  | roleType => "ROLE"
  end.

Record DatabaseRoleGrantBuilder := {
  gb_databaseName : string;
  gb_roleName : string
}.

Record DatabaseRoleGrantExecutable := {
  databaseName : string;
  roleName : string;
  grantee_type : granteeType;
  grantee : string
}.

Definition DatabaseRoleGrant (databaseName roleName : string)
  : DatabaseRoleGrantBuilder :=
  {| gb_databaseName := databaseName; gb_roleName := roleName |}.

Definition User (gb : DatabaseRoleGrantBuilder) (user : string)
  : DatabaseRoleGrantExecutable :=
  {| databaseName := gb_databaseName gb; roleName := gb_roleName gb;
     grantee_type := userType; grantee := user |}.

Definition Role (gb : DatabaseRoleGrantBuilder) (role : string)
  : DatabaseRoleGrantExecutable :=
  {| databaseName := gb_databaseName gb; roleName := gb_roleName gb;
     grantee_type := roleType; grantee := role |}.

(** [func (gr *DatabaseRoleGrantExecutable) Grant() string]. *)
Definition Grant (gr : DatabaseRoleGrantExecutable) : string :=
  "GRANT DATABASE ROLE " +:+ quote +:+ databaseName gr +:+ "." +:+ roleName gr
  +:+ quote +:+ " TO " +:+ granteeType_String (grantee_type gr) +:+ " "
  +:+ quote +:+ grantee gr +:+ quote.

(** [func (gr *DatabaseRoleGrantExecutable) Revoke() string]. *)
Definition Revoke (gr : DatabaseRoleGrantExecutable) : string :=
  "REVOKE DATABASE ROLE " +:+ quote +:+ databaseName gr +:+ "." +:+ roleName gr
  +:+ quote +:+ " FROM " +:+ granteeType_String (grantee_type gr) +:+ " "
  +:+ quote +:+ grantee gr +:+ quote.

(** Modelled from the spec: [snowflake.Contains] is not among the sources.
    The revoke is a success "only after confirming via a secondary existence
    lookup that the grantee is indeed absent": the test is membership of the
    grantee among the names looked up. *)
Definition Contains (s : list string) (e : string) : bool :=
  slices.Contains s e.

End snowflake.

(** [strings.TrimPrefix] and [strings.TrimSuffix] with a one-byte affix. *)
Definition TrimPrefix (s : string) (c : ascii) : string :=
  match s with
  | String a rest => if Ascii.eqb a c then rest else s
  | EmptyString => s
  end.

Fixpoint TrimSuffix (s : string) (c : ascii) : string :=
  match s with
  | EmptyString => EmptyString
  | String a EmptyString => if Ascii.eqb a c then EmptyString else s
  | String a rest => String a (TrimSuffix rest c)
  end.

(** ** The resource [snowflake_database_role_grants] *)

Module RoleGrants.

(** [*schema.ResourceData] of the resource; [roles] and [users] with their
    prior state, the old value of [d.GetChange]. *)
Record ResourceData := {
  Id : string;
  database_name : string;
  role_name : string;
  roles_state : list string;
  roles : list string;
  users_state : list string;
  users : list string;
  enable_multiple_grants : bool
}.

Definition SetId (id : string) (d : ResourceData) : ResourceData :=
  {| Id := id; database_name := database_name d; role_name := role_name d;
     roles_state := roles_state d; roles := roles d;
     users_state := users_state d; users := users d;
     enable_multiple_grants := enable_multiple_grants d |}.

Definition Set_roles (l : list string) (d : ResourceData) : ResourceData :=
  {| Id := Id d; database_name := database_name d; role_name := role_name d;
     roles_state := roles_state d; roles := l;
     users_state := users_state d; users := users d;
     enable_multiple_grants := enable_multiple_grants d |}.

Definition Set_users (l : list string) (d : ResourceData) : ResourceData :=
  {| Id := Id d; database_name := database_name d; role_name := role_name d;
     roles_state := roles_state d; roles := roles d;
     users_state := users_state d; users := l;
     enable_multiple_grants := enable_multiple_grants d |}.

(** The attribute that [d.GetChange(resource)] reads. *)
Inductive resource := res_users | res_roles.

Definition GetChange (d : ResourceData) (r : resource)
  : list string * list string :=
  match r with
  | res_users => (users_state d, users d)
  | res_roles => (roles_state d, roles d)
  end.

(** [Difference] of [schema.Set] followed by [List()]: the elements of [s]
    that are not in [other]. *)
Definition Difference (s other : list string) : list string :=
  List.filter (fun e => negb (slices.Contains other e)) s.

Section Gateway.

Variable R : Remote.
Context {D : Type}.

(** [func grantDatabaseRoleToRole]. *)
Definition grantDatabaseRoleToRole (database role1 role2 : string)
  : M D unit :=
  let g := snowflake.DatabaseRoleGrant database role1 in
  let* err := send (exec_error R)
                (Exec (snowflake.Grant (snowflake.Role g role2))) in
  check err.

(** [func grantDatabaseRoleToUser]. *)
Definition grantDatabaseRoleToUser (database role1 user : string)
  : M D unit :=
  let g := snowflake.DatabaseRoleGrant database role1 in
  let* err := send (exec_error R)
                (Exec (snowflake.Grant (snowflake.User g user))) in
  check err.

(** [func revokeDatabaseRoleFromRole]; the error of [ListRoles] is
    dropped, the names are those of the rows it returned. *)
Definition revokeDatabaseRoleFromRole (database role1 role2 : string)
  : M D unit :=
  let rg := snowflake.Role (snowflake.DatabaseRoleGrant database role1)
              role2 in
  let* err := send (exec_error R) (Exec (snowflake.Revoke rg)) in
  match err with
  | Some (SnowflakeError Number) =>
      if Z.eqb Number 2003 then
        let* roleNames := send (listed_names R) (ListRoles role2) in
        if negb (slices.Contains roleNames role2) then ret tt
        else check err
      else check err
  | _ => check err
  end.

(** [func revokeDatabaseRoleFromUser]; the names are the login names of the
    rows [ListUsers] returned. *)
Definition revokeDatabaseRoleFromUser (database role1 user : string)
  : M D unit :=
  let rg := snowflake.User (snowflake.DatabaseRoleGrant database role1)
              user in
  let* err := send (exec_error R) (Exec (snowflake.Revoke rg)) in
  match err with
  | Some (SnowflakeError Number) =>
      if Z.eqb Number 2003 then
        let* logins := send (listed_names R) (ListUsers user) in
        if negb (snowflake.Contains logins user) then ret tt
        else check err
      else check err
  | _ => check err
  end.

End Gateway.

Section Callbacks.

Variable R : Remote.

(** [func (b *DatabaseRoleBuilder) Show()]. *)
Definition Show (databaseName roleName : string)
  : M ResourceData (option DatabaseRole * option error) :=
  let stmt := "SHOW DATABASE ROLES IN DATABASE " +:+ snowflake.quote
              +:+ databaseName +:+ snowflake.quote in
  let* scanned := send (shown_roles R) (Query stmt) in
  match scanned with
  | ScanFailed err =>
      if Is_ErrNoRows err then ret (None, None)
      else ret (None, Some (Wrapped ("failed to scan stmt = " +:+ stmt) err))
  | Scanned databaseRoles err =>
      match find (fun r => String.eqb (NS_String (DR_Name r))
                             (databaseName +:+ "." +:+ roleName))
              databaseRoles with
      | Some r => ret (Some r, err)
      | None => ret (None, None)
      end
  end.

(** [func readGrantsForDatabaseRole]. *)
Definition readGrantsForDatabaseRole (databaseName roleName : string)
  : M ResourceData (list databaseRoleGrant) :=
  let stmt := "SHOW GRANTS OF DATABASE ROLE " +:+ snowflake.quote
              +:+ databaseName +:+ "." +:+ roleName +:+ snowflake.quote in
  let* rows := send (shown_role_grants R) (Query stmt) in
  match rows with
  | inl err => fail err
  | inr grants =>
      ret (map (fun g =>
                  if NS_Valid (DRG_GranteeName g) then
                    let s := NS_String (DRG_GranteeName g) in
                    let s := TrimPrefix s (Ascii.ascii_of_nat 34) in
                    let s := TrimSuffix s (Ascii.ascii_of_nat 34) in
                    {| Role := Role g; GrantedTo := GrantedTo g;
                       DRG_GranteeName :=
                         {| NS_String := s; NS_Valid := false |};
                       Grantedby := Grantedby g |}
                  else g)
             grants)
  end.

(** [func ReadDatabaseRoleGrants]. *)
Definition ReadDatabaseRoleGrants : M ResourceData unit :=
  let* d := get in
  let databaseName := database_name d in
  let roleName := role_name d in
  let* (_, err) := Show databaseName roleName in
  if match err with Some e => Is_ErrNoRows e | None => false end then
    modify (SetId "")
  else
    let* grants := readGrantsForDatabaseRole databaseName roleName in
    let '(roles, users) :=
      fold_left
        (fun '(roles, users) grant =>
           let granteeName := NS_String (DRG_GranteeName grant) in
           if String.eqb (NS_String (GrantedTo grant)) "ROLE" then
             (fold_left (fun roles tfRole =>
                           if String.eqb tfRole granteeName
                           then roles ++ [granteeName] else roles)
                (RoleGrants.roles d) roles, users)
           else if String.eqb (NS_String (GrantedTo grant)) "USER" then
             (roles,
              fold_left (fun users tfUser =>
                           if String.eqb tfUser granteeName
                           then users ++ [granteeName] else users)
                (RoleGrants.users d) users)
           else (roles, users))
        grants ([], []) in
    modify (Set_roles roles);;
    modify (Set_users users);;
    let grantID := helpers.EncodeSnowflakeID
                     [helpers.AString databaseName; helpers.AString roleName;
                      helpers.AStrings roles; helpers.AStrings users] in
    let* d := get in
    if negb (String.eqb grantID (Id d)) then modify (SetId grantID)
    else ret tt.

(** The closure [x] of [UpdateDatabaseRoleGrants]: revoke what [resource]
    lost, then grant what it gained. *)
Definition x (databaseName roleName : string) (d : ResourceData)
    (resource : resource)
    (grant revoke : string -> string -> string -> M ResourceData unit)
  : M ResourceData unit :=
  let '(os, ns) := GetChange d resource in
  let remove := Difference os ns in
  let add := Difference ns os in
  for_each remove (fun user => revoke databaseName roleName user);;
  for_each add (fun user => grant databaseName roleName user).

(** [func UpdateDatabaseRoleGrants]. *)
Definition UpdateDatabaseRoleGrants : M ResourceData unit :=
  let* d := get in
  let databaseName := database_name d in
  let roleName := role_name d in
  x databaseName roleName d res_users
    (grantDatabaseRoleToUser R) (revokeDatabaseRoleFromUser R);;
  x databaseName roleName d res_roles
    (grantDatabaseRoleToRole R) (revokeDatabaseRoleFromRole R);;
  ReadDatabaseRoleGrants.

(** [func DeleteDatabaseRoleGrants]. *)
Definition DeleteDatabaseRoleGrants : M ResourceData unit :=
  let* d := get in
  let databaseName := database_name d in
  let roleName := role_name d in
  for_each (roles d)
    (fun role => revokeDatabaseRoleFromRole R databaseName roleName role);;
  for_each (users d)
    (fun user => revokeDatabaseRoleFromUser R databaseName roleName user);;
  modify (SetId "").

End Callbacks.

End RoleGrants.

(** ** The importers and [CreateDatabaseRoleGrants] *)

(** [d.Set(key, value)] for the other attributes of the privilege grant. *)
Definition Set_role_name (v : string) (d : ResourceData) : ResourceData :=
  {| Id := Id d; role_name := v; database_name := database_name d;
     privileges_state := privileges_state d; privileges := privileges d;
     all_privileges := all_privileges d;
     with_grant_option := with_grant_option d; on_database := on_database d;
     on_schema := on_schema d; on_schema_object := on_schema_object d |}.

Definition Set_database_name (v : string) (d : ResourceData) : ResourceData :=
  {| Id := Id d; role_name := role_name d; database_name := v;
     privileges_state := privileges_state d; privileges := privileges d;
     all_privileges := all_privileges d;
     with_grant_option := with_grant_option d; on_database := on_database d;
     on_schema := on_schema d; on_schema_object := on_schema_object d |}.

Definition Set_all_privileges (v : bool) (d : ResourceData) : ResourceData :=
  {| Id := Id d; role_name := role_name d; database_name := database_name d;
     privileges_state := privileges_state d; privileges := privileges d;
     all_privileges := v;
     with_grant_option := with_grant_option d; on_database := on_database d;
     on_schema := on_schema d; on_schema_object := on_schema_object d |}.

Definition Set_with_grant_option (v : bool) (d : ResourceData)
  : ResourceData :=
  {| Id := Id d; role_name := role_name d; database_name := database_name d;
     privileges_state := privileges_state d; privileges := privileges d;
     all_privileges := all_privileges d;
     with_grant_option := v; on_database := on_database d;
     on_schema := on_schema d; on_schema_object := on_schema_object d |}.

Definition Set_on_database (v : bool) (d : ResourceData) : ResourceData :=
  {| Id := Id d; role_name := role_name d; database_name := database_name d;
     privileges_state := privileges_state d; privileges := privileges d;
     all_privileges := all_privileges d;
     with_grant_option := with_grant_option d; on_database := v;
     on_schema := on_schema d; on_schema_object := on_schema_object d |}.

Definition Set_on_schema (v : list on_schema_map) (d : ResourceData)
  : ResourceData :=
  {| Id := Id d; role_name := role_name d; database_name := database_name d;
     privileges_state := privileges_state d; privileges := privileges d;
     all_privileges := all_privileges d;
     with_grant_option := with_grant_option d; on_database := on_database d;
     on_schema := v; on_schema_object := on_schema_object d |}.

Definition Set_on_schema_object (v : list on_schema_object_map)
    (d : ResourceData) : ResourceData :=
  {| Id := Id d; role_name := role_name d; database_name := database_name d;
     privileges_state := privileges_state d; privileges := privileges d;
     all_privileges := all_privileges d;
     with_grant_option := with_grant_option d; on_database := on_database d;
     on_schema := on_schema d; on_schema_object := v |}.

(** The map [m] the importer builds for an [all] and for a [future]
    sub-block alike: [object_type_plural], [in_schema] when [InSchema] is
    set, and [m["in_database"] = resourceID.InDatabase] in both. *)
Definition imported_in (resourceID : GrantPrivilegesToDatabaseRoleID)
  : in_map :=
  {| object_type_plural := Some (ObjectTypePlural resourceID);
     in_schema := if InSchema resourceID then Some (SchemaName resourceID)
                  else None;
     in_database := Some (InDatabase resourceID) |}.

(** The list the importer builds for [on_schema]: a map per sub-variant the
    identifier holds. *)
Definition imported_on_schema (resourceID : GrantPrivilegesToDatabaseRoleID)
  : list on_schema_map :=
  let onSchema := [] in
  let onSchema :=
    if negb (String.eqb (SchemaName resourceID) "")
    then onSchema ++ [{| schema_name := Some (SchemaName resourceID);
                         all_schemas := None; future_schemas := None |}]
    else onSchema in
  let onSchema :=
    if All resourceID
    then onSchema ++ [{| schema_name := None; all_schemas := Some true;
                         future_schemas := None |}]
    else onSchema in
  if Future resourceID
  then onSchema ++ [{| schema_name := None; all_schemas := None;
                       future_schemas := Some true |}]
  else onSchema.

(** The list the importer builds for [on_schema_object]. *)
Definition imported_on_schema_object
    (resourceID : GrantPrivilegesToDatabaseRoleID)
  : list on_schema_object_map :=
  let onSchemaObject := [] in
  let onSchemaObject :=
    if negb (String.eqb (ObjectName resourceID) "")
    then onSchemaObject
         ++ [{| object_name := Some (ObjectName resourceID);
                object_type := Some (ObjectType resourceID);
                all := None; future := None |}]
    else onSchemaObject in
  let onSchemaObject :=
    if All resourceID
    then onSchemaObject
         ++ [{| object_name := None; object_type := None;
                all := Some [imported_in resourceID]; future := None |}]
    else onSchemaObject in
  if Future resourceID
  then onSchemaObject
       ++ [{| object_name := None; object_type := None; all := None;
              future := Some [imported_in resourceID] |}]
  else onSchemaObject.

(** A call [d.Set(key, value)] of the importer: the attribute and the value
    handed over. *)
Inductive assignment :=
| to_role_name (v : string)
| to_database_name (v : string)
| to_privileges (v : list string)
| to_all_privileges (v : bool)
| to_with_grant_option (v : bool)
| to_on_database (v : bool)
| to_on_schema (v : list on_schema_map)
| to_on_schema_object (v : list on_schema_object_map).

(** The data after a [d.Set] that returned no error. *)
Definition assign (a : assignment) : ResourceData -> ResourceData :=
  match a with
  | to_role_name v => Set_role_name v
  | to_database_name v => Set_database_name v
  | to_privileges v => Set_privileges v
  | to_all_privileges v => Set_all_privileges v
  | to_with_grant_option v => Set_with_grant_option v
  | to_on_database v => Set_on_database v
  | to_on_schema v => Set_on_schema v
  | to_on_schema_object v => Set_on_schema_object v
  end.

Section PrivilegeGrantImport.

(** Whether [d.Set] accepts a value is decided by the schema package, which
    checks it against the schema of the attribute: [Set_error] is the error
    it returns, if any. *)
Variable Set_error : assignment -> option error.

(** [if err := d.Set(key, value); err != nil { return nil, err }].  The
    importer returns no data after an error, so what a refused [d.Set]
    leaves in [d] is read by nobody; the data is kept as it was. *)
Definition d_Set (a : assignment) : M ResourceData unit :=
  match Set_error a with
  | Some err => fail err
  | None => modify (assign a)
  end.

(** The [StateContext] importer of [GrantPrivilegesToDatabaseRole]; when it
    returns no error, the data it leaves is the one element of the slice it
    returns. *)
Definition ImportGrantPrivilegesToDatabaseRole : M ResourceData unit :=
  let* d := get in
  match NewGrantPrivilegesToDatabaseRoleID (Id d) with
  | None => panic
  | Some resourceID =>
      d_Set (to_role_name (RoleName resourceID));;
      d_Set (to_database_name (DatabaseName resourceID));;
      d_Set (to_privileges (Privileges resourceID));;
      d_Set (to_all_privileges (AllPrivileges resourceID));;
      d_Set (to_with_grant_option (WithGrantOption resourceID));;
      d_Set (to_on_database (OnDatabase resourceID));;
      (if OnSchema resourceID
       then d_Set (to_on_schema (imported_on_schema resourceID))
       else ret tt);;
      (if OnSchemaObject resourceID
       then d_Set (to_on_schema_object
                     (imported_on_schema_object resourceID))
       else ret tt)
  end.

End PrivilegeGrantImport.

Definition Set_RG_database_name (v : string) (d : RoleGrants.ResourceData)
  : RoleGrants.ResourceData :=
  {| RoleGrants.Id := RoleGrants.Id d; RoleGrants.database_name := v;
     RoleGrants.role_name := RoleGrants.role_name d;
     RoleGrants.roles_state := RoleGrants.roles_state d;
     RoleGrants.roles := RoleGrants.roles d;
     RoleGrants.users_state := RoleGrants.users_state d;
     RoleGrants.users := RoleGrants.users d;
     RoleGrants.enable_multiple_grants := RoleGrants.enable_multiple_grants d |}.

Definition Set_RG_role_name (v : string) (d : RoleGrants.ResourceData)
  : RoleGrants.ResourceData :=
  {| RoleGrants.Id := RoleGrants.Id d;
     RoleGrants.database_name := RoleGrants.database_name d;
     RoleGrants.role_name := v;
     RoleGrants.roles_state := RoleGrants.roles_state d;
     RoleGrants.roles := RoleGrants.roles d;
     RoleGrants.users_state := RoleGrants.users_state d;
     RoleGrants.users := RoleGrants.users d;
     RoleGrants.enable_multiple_grants := RoleGrants.enable_multiple_grants d |}.

Section RoleGrantsLifecycle.

Variable R : Remote.

(** [helpers.StringListToList], which is not among the sources, is a
    parameter of the importer. *)
Variable StringListToList : string -> list string.

(** The [StateContext] importer of [DatabaseRoleGrants]: an identifier of
    other than three segments is refused; [role_name] is set from the first
    segment, as [database_name] is. *)
Definition ImportDatabaseRoleGrants : M RoleGrants.ResourceData unit :=
  let* d := get in
  let parts := strings.Split (RoleGrants.Id d) "|" in
  if negb (Nat.eqb (length parts) 3) then
    fail (OtherError
            ("invalid ID specified for role grants, expected "
             +:+ "{database_name}|{role_name}|{roles}|{users}, got "
             +:+ RoleGrants.Id d))
  else
    match parts !! 0, parts !! 1, parts !! 2 with
    | Some p0, Some p1, Some p2 =>
        modify (Set_RG_database_name p0);;
        modify (Set_RG_role_name p0);;
        modify (RoleGrants.Set_roles (StringListToList p1));;
        modify (RoleGrants.Set_users (StringListToList p2))
    | _, _, _ => panic
    end.

(** [func CreateDatabaseRoleGrants]. *)
Definition CreateDatabaseRoleGrants : M RoleGrants.ResourceData unit :=
  let* d := get in
  let databaseName := RoleGrants.database_name d in
  let roleName := RoleGrants.role_name d in
  let roles := RoleGrants.roles d in
  let users := RoleGrants.users d in
  if Nat.eqb (length roles) 0 && Nat.eqb (length users) 0 then
    fail (OtherError "no users or roles specified for database role grants")
  else
    let grantID := helpers.EncodeSnowflakeID
                     [helpers.AString databaseName; helpers.AString roleName;
                      helpers.AStrings roles; helpers.AStrings users] in
    modify (RoleGrants.SetId grantID);;
    for_each roles
      (fun role =>
         RoleGrants.grantDatabaseRoleToRole R databaseName roleName role);;
    for_each users
      (fun user =>
         RoleGrants.grantDatabaseRoleToUser R databaseName roleName user);;
    RoleGrants.ReadDatabaseRoleGrants R.

End RoleGrantsLifecycle.

(** ** Vocabulary of the properties *)

(** A string that holds no field delimiter. *)
Definition pipe_free (s : string) : Prop := strings.Count s "|" = 0.

(** The privileges as the decoder reads them from their segment. *)
Definition decoded_privileges (segment : string) : list string :=
  if String.eqb segment "" then [] else strings.Split segment ",".

(** An identifier the codec is meant for: no name holds the field
    delimiter, no privilege holds either delimiter, and the privilege list
    is not the single empty privilege. *)
Record valid_id (x : GrantPrivilegesToDatabaseRoleID) : Prop := {
  valid_RoleName : pipe_free (RoleName x);
  valid_DatabaseName : pipe_free (DatabaseName x);
  valid_Privileges :
    Forall (fun p => pipe_free p /\ strings.Count p "," = 0) (Privileges x);
  valid_not_blank : Privileges x <> [EmptyString];
  valid_ObjectType : pipe_free (ObjectType x);
  valid_ObjectName : pipe_free (ObjectName x);
  valid_ObjectTypePlural : pipe_free (ObjectTypePlural x);
  valid_SchemaName : pipe_free (SchemaName x)
}.

(** The identifier [CreateGrantPrivilegesToDatabaseRole] builds for role
    [R1] of database [DB1] granted [USAGE] on all schemas:
    [on_schema { all_schemas = true }] sets [All] and [InDatabase]. *)
Definition all_schemas_id : GrantPrivilegesToDatabaseRoleID :=
  {| RoleName := "R1"; DatabaseName := "DB1"; Privileges := ["USAGE"];
     AllPrivileges := false; WithGrantOption := false; OnDatabase := false;
     OnSchema := true; OnSchemaObject := false; All := true;
     Future := false; ObjectType := ""; ObjectName := "";
     ObjectTypePlural := ""; InSchema := false; SchemaName := "";
     InDatabase := true |}.

(** The configuration that yields it. *)
Definition all_schemas_config : ResourceData :=
  {| Id := ""; role_name := "R1"; database_name := "DB1";
     privileges_state := []; privileges := ["USAGE"];
     all_privileges := false; with_grant_option := false;
     on_database := false;
     on_schema := [{| schema_name := Some ""; all_schemas := Some true;
                      future_schemas := Some false |}];
     on_schema_object := [] |}.

(** The conditions under which an observed row belongs to the identity:
    its privilege is stored in the identity, its grant option is the
    configured one, its grantee is the role, a row of an identity that is
    not a future grant names who granted it, and its [granted_on] or
    [grant_on] object type is the resolved one. *)
Definition attributed (id : GrantPrivilegesToDatabaseRoleID)
    (grantedOn : sdk.ObjectType) (withGrantOption : bool) (roleName : string)
    (grant : sdk.Grant) : Prop :=
  sdk.Privilege grant ∈ Privileges id /\
  sdk.GrantOption grant = withGrantOption /\
  sdk.GranteeName grant = roleName /\
  (Future id = false -> sdk.GrantedBy grant <> "") /\
  (grantedOn = sdk.GrantedOn grant \/ grantedOn = sdk.GrantOn grant).

(** The same five conditions as a test. *)
Definition attributedb (id : GrantPrivilegesToDatabaseRoleID)
    (grantedOn : sdk.ObjectType) (withGrantOption : bool) (roleName : string)
    (grant : sdk.Grant) : bool :=
  slices.Contains (Privileges id) (sdk.Privilege grant)
  && Bool.eqb (sdk.GrantOption grant) withGrantOption
  && String.eqb (sdk.GranteeName grant) roleName
  && (Future id || negb (String.eqb (sdk.GrantedBy grant) ""))
  && (String.eqb grantedOn (sdk.GrantedOn grant)
      || String.eqb grantedOn (sdk.GrantOn grant)).

(** The data and the log a callback leaves behind. *)
Definition data_of {D A} (r : result A * D * list request) : D := snd (fst r).
Definition log_of {D A} (r : result A * D * list request) : list request :=
  snd r.
Definition result_of {D A} (r : result A * D * list request) : result A :=
  fst (fst r).

(** A remote system that accepts every statement and shows no rows. *)
Definition quiet_remote : Remote :=
  {| exec_error := fun _ _ => None;
     listed_names := fun _ _ => [];
     shown_grants := fun _ _ => inr [];
     shown_roles := fun _ _ => Scanned [] None;
     shown_role_grants := fun _ _ => inr [] |}.

(** A remote system that accepts every statement and shows the given
    grants. *)
Definition remote_showing (grants : list sdk.Grant) : Remote :=
  {| exec_error := fun _ _ => None;
     listed_names := fun _ _ => [];
     shown_grants := fun _ _ => inr grants;
     shown_roles := fun _ _ => Scanned [] None;
     shown_role_grants := fun _ _ => inr [] |}.

(** A resource of the on-database grant of [MONITOR USAGE] to role [R1] of
    database [DB1], with the given identifier. *)
Definition on_database_data (id : string) : ResourceData :=
  {| Id := id; role_name := "R1"; database_name := "DB1";
     privileges_state := ["MONITOR USAGE"]; privileges := ["MONITOR USAGE"];
     all_privileges := false; with_grant_option := false;
     on_database := true; on_schema := []; on_schema_object := [] |}.

(** The identity stored in
    [R1|DB1|MONITOR USAGE|false|false|true|false|false|false|false||||false|]. *)
Definition on_database_id : GrantPrivilegesToDatabaseRoleID :=
  {| RoleName := "R1"; DatabaseName := "DB1";
     Privileges := ["MONITOR USAGE"]; AllPrivileges := false;
     WithGrantOption := false; OnDatabase := true; OnSchema := false;
     OnSchemaObject := false; All := false; Future := false;
     ObjectType := ""; ObjectName := ""; ObjectTypePlural := "";
     InSchema := false; SchemaName := ""; InDatabase := false |}.

(** An observed row on the database [DB1] for role [R1], granted by
    [SYSADMIN] without grant option. *)
Definition database_row (privilege : string) : sdk.Grant :=
  {| sdk.Privilege := privilege; sdk.GrantedOn := "DATABASE";
     sdk.GrantOn := ""; sdk.GranteeName := "R1"; sdk.GrantOption := false;
     sdk.GrantedBy := "SYSADMIN" |}.


(** The remote error of a grantee that does not exist: a
    [*gosnowflake.SnowflakeError] whose number is 2003. *)
Definition grantee_not_found (e : error) : bool :=
  match e with
  | SnowflakeError Number => Z.eqb Number 2003
  | _ => false
  end.

(** Requests that grant and requests that revoke: the two calls of the
    grants client, and the statements [GRANT ...] and [REVOKE ...]. *)
Definition is_grant (r : request) : bool :=
  match r with
  | GrantPrivilegesToDatabaseRole _ _ _ _ => true
  | Exec stmt => strings.HasPrefix stmt "GRANT "
  | _ => false
  end.

Definition is_revoke (r : request) : bool :=
  match r with
  | RevokePrivilegesFromDatabaseRole _ _ _ => true
  | Exec stmt => strings.HasPrefix stmt "REVOKE "
  | _ => false
  end.

(** In the sequence [l], every request of kind [A] is sent before any
    request of kind [B]. *)
Definition issued_before (A B : request -> bool) (l : list request) : Prop :=
  forall i j a b,
    l !! i = Some a -> l !! j = Some b -> A a = true -> B b = true -> i < j.

(** Every request a computation sends satisfies [P]. *)
Definition emits {D A} (P : request -> Prop) (m : M D A) : Prop :=
  forall d log, exists ext,
    log_of (m d log) = log ++ ext /\ Forall P ext.

(** The requests a computation sends fall into a first run that satisfies
    [P] and a second that satisfies [Q]. *)
Definition two_phase {D A} (P Q : request -> Prop) (m : M D A) : Prop :=
  forall d log, exists e1 e2,
    log_of (m d log) = log ++ e1 ++ e2 /\ Forall P e1 /\ Forall Q e2.

(** The number of top-level target branches the configuration populates,
    as [d.GetOk] sees them. *)
Definition populated_branches (d : ResourceData) : nat :=
  (if on_database d then 1 else 0)
  + (match on_schema d with [] => 0 | _ :: _ => 1 end)
  + (match on_schema_object d with [] => 0 | _ :: _ => 1 end).

(** The number of targets a [DatabaseRoleGrantOn] points to. *)
Definition targets (on : sdk.DatabaseRoleGrantOn) : nat :=
  (match sdk.On_Database on with Some _ => 1 | None => 0 end)
  + (match sdk.On_Schema on with Some _ => 1 | None => 0 end)
  + (match sdk.On_SchemaObject on with Some _ => 1 | None => 0 end).

(** What the schema requires of an [on_schema_object] block: [object_name]
    comes with [object_type] ([RequiredWith]), and an [all] or [future]
    sub-block holds [object_type_plural] ([Required]). *)
Definition object_block_ok (m : on_schema_object_map) : bool :=
  (match nonempty (object_name m), nonempty (object_type m) with
   | Some _, None => false
   | _, _ => true
   end)
  && (match first_block (all m) with
      | Some b => match object_type_plural b with Some _ => true
                                             | None => false end
      | None => true
      end)
  && (match first_block (future m) with
      | Some b => match object_type_plural b with Some _ => true
                                             | None => false end
      | None => true
      end).

(** A configuration that populates two top-level branches: [on_database]
    and an [on_schema] block naming schema [S1]. *)
Definition two_branches_config : ResourceData :=
  {| Id := ""; role_name := "R1"; database_name := "DB1";
     privileges_state := []; privileges := ["USAGE"];
     all_privileges := false; with_grant_option := false;
     on_database := true;
     on_schema := [{| schema_name := Some "S1"; all_schemas := Some false;
                      future_schemas := Some false |}];
     on_schema_object := [] |}.

(** An update of the on-database grant of role [R1] that replaces privilege
    [MONITOR] by [USAGE]. *)
Definition replace_privilege_data : ResourceData :=
  {| Id := "R1|DB1|MONITOR|false|false|true|false|false|false|false||||false|";
     role_name := "R1"; database_name := "DB1";
     privileges_state := ["MONITOR"]; privileges := ["USAGE"];
     all_privileges := false; with_grant_option := false;
     on_database := true; on_schema := []; on_schema_object := [] |}.

(** A configuration that populates no top-level branch. *)
Definition no_branch_config : ResourceData :=
  {| Id := ""; role_name := "R1"; database_name := "DB1";
     privileges_state := []; privileges := ["USAGE"];
     all_privileges := false; with_grant_option := false;
     on_database := false; on_schema := []; on_schema_object := [] |}.

(** An update of the role grants of database role [DB1.R1] that takes the
    role away from user [U1] and gives it to user [U2]. *)
Definition replace_user_data : RoleGrants.ResourceData :=
  {| RoleGrants.Id := "DB1|R1||U1";
     RoleGrants.database_name := "DB1"; RoleGrants.role_name := "R1";
     RoleGrants.roles_state := []; RoleGrants.roles := [];
     RoleGrants.users_state := ["U1"]; RoleGrants.users := ["U2"];
     RoleGrants.enable_multiple_grants := false |}.

(** The fields of the identifier that target resolution leaves alone. *)
Definition same_grant (a b : GrantPrivilegesToDatabaseRoleID) : Prop :=
  RoleName a = RoleName b /\ DatabaseName a = DatabaseName b /\
  Privileges a = Privileges b /\ AllPrivileges a = AllPrivileges b /\
  WithGrantOption a = WithGrantOption b.

(** The three top-level flags of the identifier. *)
Definition same_flags (a b : GrantPrivilegesToDatabaseRoleID) : Prop :=
  OnDatabase a = OnDatabase b /\ OnSchema a = OnSchema b /\
  OnSchemaObject a = OnSchemaObject b.

(** Whether a pointer is set. *)
Definition is_some {A} (o : option A) : bool :=
  match o with Some _ => true | None => false end.

(** A remote system that refuses every request of the grants client with
    the given error and shows no rows. *)
Definition refusing_remote (e : error) : Remote :=
  {| exec_error := fun _ _ => Some e;
     listed_names := fun _ _ => [];
     shown_grants := fun _ _ => inr [];
     shown_roles := fun _ _ => Scanned [] None;
     shown_role_grants := fun _ _ => inr [] |}.

(** The configuration of a grant of [USAGE] on schema [S1] of database
    [DB1] to role [R1]. *)
Definition on_schema_config : ResourceData :=
  {| Id := ""; role_name := "R1"; database_name := "DB1";
     privileges_state := []; privileges := ["USAGE"];
     all_privileges := false; with_grant_option := false;
     on_database := false;
     on_schema := [{| schema_name := Some "S1"; all_schemas := Some false;
                      future_schemas := Some false |}];
     on_schema_object := [] |}.

(** A resource whose identifier is that of a future grant on the tables of
    schema [S1]. *)
Definition future_tables_data : ResourceData :=
  {| Id := "R1|DB1|SELECT|false|false|false|false|true|false|true|||TABLES|true|S1";
     role_name := "R1"; database_name := "DB1";
     privileges_state := ["SELECT"]; privileges := ["SELECT"];
     all_privileges := false; with_grant_option := false;
     on_database := false; on_schema := [];
     on_schema_object :=
       [{| object_type := Some ""; object_name := Some ""; all := Some [];
           future := Some [{| object_type_plural := Some "TABLES";
                              in_database := None;
                              in_schema := Some "S1" |}] |}] |}.

(** The identity its identifier stores. *)
Definition future_tables_id : GrantPrivilegesToDatabaseRoleID :=
  {| RoleName := "R1"; DatabaseName := "DB1"; Privileges := ["SELECT"];
     AllPrivileges := false; WithGrantOption := false; OnDatabase := false;
     OnSchema := false; OnSchemaObject := true; All := false;
     Future := true; ObjectType := ""; ObjectName := "";
     ObjectTypePlural := "TABLES"; InSchema := true; SchemaName := "S1";
     InDatabase := false |}.

(** A computation that leaves the resource data as they were, however it
    ends. *)
Definition keeps_data {D A} (m : M D A) : Prop :=
  forall d log, data_of (m d log) = d.

(** The statements that revoke, and that grant, database role [role] of
    [database] from and to a role and a user. *)
Definition revoke_from_role (database role grantee : string) : request :=
  Exec (snowflake.Revoke
          (snowflake.Role (snowflake.DatabaseRoleGrant database role)
             grantee)).

Definition revoke_from_user (database role grantee : string) : request :=
  Exec (snowflake.Revoke
          (snowflake.User (snowflake.DatabaseRoleGrant database role)
             grantee)).

Definition grant_to_role (database role grantee : string) : request :=
  Exec (snowflake.Grant
          (snowflake.Role (snowflake.DatabaseRoleGrant database role)
             grantee)).

Definition grant_to_user (database role grantee : string) : request :=
  Exec (snowflake.Grant
          (snowflake.User (snowflake.DatabaseRoleGrant database role)
             grantee)).

(** Role grants of database role [DB1.R1] held by roles [A] and [B] and by
    user [U1]. *)
Definition role_grants_data : RoleGrants.ResourceData :=
  {| RoleGrants.Id := "DB1|R1|A,B|U1";
     RoleGrants.database_name := "DB1"; RoleGrants.role_name := "R1";
     RoleGrants.roles_state := ["A"; "B"]; RoleGrants.roles := ["A"; "B"];
     RoleGrants.users_state := ["U1"]; RoleGrants.users := ["U1"];
     RoleGrants.enable_multiple_grants := false |}.

(** The rows of [expectReadUnhandledDatabaseRoleGrants]: grants of
    [db_name.good_name] to two roles, two grantees of an unknown kind and
    two users. *)
Definition unhandled_rows : list databaseRoleGrant :=
  map (fun '(kind, name) =>
         {| Role := {| NS_String := "db_name.good_name"; NS_Valid := true |};
            GrantedTo := {| NS_String := kind; NS_Valid := true |};
            DRG_GranteeName := {| NS_String := name; NS_Valid := true |};
            Grantedby := {| NS_String := ""; NS_Valid := true |} |})
    [("ROLE", "role1"); ("ROLE", "role2"); ("OTHER", "other1");
     ("OTHER", "other2"); ("USER", "user1"); ("USER", "user2")].

(** The resource of [TestIgnoreUnknownDatabaseRoleGrants]. *)
Definition good_name_data : RoleGrants.ResourceData :=
  {| RoleGrants.Id := "db_name|good_name||||role1,role2|false";
     RoleGrants.database_name := "db_name";
     RoleGrants.role_name := "good_name";
     RoleGrants.roles_state := ["role1"; "role2"];
     RoleGrants.roles := ["role1"; "role2"];
     RoleGrants.users_state := ["user1"; "user2"];
     RoleGrants.users := ["user1"; "user2"];
     RoleGrants.enable_multiple_grants := false |}.

(** A remote system that accepts every statement and shows the given rows
    of role grants. *)
Definition remote_showing_role_grants (rows : list databaseRoleGrant)
  : Remote :=
  {| exec_error := fun _ _ => None;
     listed_names := fun _ _ => [];
     shown_grants := fun _ _ => inr [];
     shown_roles := fun _ _ => Scanned [] None;
     shown_role_grants := fun _ _ => inr rows |}.

(** The identifier [ReadDatabaseRoleGrants] and [CreateDatabaseRoleGrants]
    write. *)
Definition role_grants_id (d : RoleGrants.ResourceData)
    (roles users : list string) : string :=
  helpers.EncodeSnowflakeID
    [helpers.AString (RoleGrants.database_name d);
     helpers.AString (RoleGrants.role_name d);
     helpers.AStrings roles; helpers.AStrings users].

(** A name between double quotes. *)
Definition quoted (name : string) : string :=
  snowflake.quote +:+ name +:+ snowflake.quote.



(** An update of the role grants of [DB1.R1]: user [U1] stays, [U2] goes,
    [U3] comes; role [A] goes, role [B] stays. *)
Definition mixed_update_data : RoleGrants.ResourceData :=
  {| RoleGrants.Id := "DB1|R1|A,B|U1,U2";
     RoleGrants.database_name := "DB1"; RoleGrants.role_name := "R1";
     RoleGrants.roles_state := ["A"; "B"]; RoleGrants.roles := ["B"];
     RoleGrants.users_state := ["U1"; "U2"];
     RoleGrants.users := ["U1"; "U3"];
     RoleGrants.enable_multiple_grants := false |}.



(** The conditions with the object type compared field by kind: against
    [granted_on] for an identity that is not a future grant, against
    [grant_on] for one that is. *)
Definition attributed_by_kind (id : GrantPrivilegesToDatabaseRoleID)
    (grantedOn : sdk.ObjectType) (withGrantOption : bool) (roleName : string)
    (grant : sdk.Grant) : Prop :=
  sdk.Privilege grant ∈ Privileges id /\
  sdk.GrantOption grant = withGrantOption /\
  sdk.GranteeName grant = roleName /\
  (Future id = false -> sdk.GrantedBy grant <> "") /\
  (if Future id then grantedOn = sdk.GrantOn grant
   else grantedOn = sdk.GrantedOn grant).

(** An identity of role [R1] with privilege [USAGE] and no target flag, the
    one stored in
    [R1|DB1|USAGE|false|false|false|false|false|false|false||||false|];
    [Read] resolves its object type to the empty string. *)
Definition unflagged_id : GrantPrivilegesToDatabaseRoleID :=
  {| RoleName := "R1"; DatabaseName := "DB1"; Privileges := ["USAGE"];
     AllPrivileges := false; WithGrantOption := false; OnDatabase := false;
     OnSchema := false; OnSchemaObject := false; All := false;
     Future := false; ObjectType := ""; ObjectName := "";
     ObjectTypePlural := ""; InSchema := false; SchemaName := "";
     InDatabase := false |}.

(** A resource with that identifier. *)
Definition unflagged_data : ResourceData :=
  {| Id := "R1|DB1|USAGE|false|false|false|false|false|false|false||||false|";
     role_name := "R1"; database_name := "DB1";
     privileges_state := ["USAGE"]; privileges := ["USAGE"];
     all_privileges := false; with_grant_option := false;
     on_database := false; on_schema := []; on_schema_object := [] |}.

(** A current grant of [USAGE] on a table to role [R1]: [granted_on] is
    [TABLE], [grant_on] is empty. *)
Definition table_row : sdk.Grant :=
  {| sdk.Privilege := "USAGE"; sdk.GrantedOn := "TABLE"; sdk.GrantOn := "";
     sdk.GranteeName := "R1"; sdk.GrantOption := false;
     sdk.GrantedBy := "SYSADMIN" |}.

(** A row of [MONITOR USAGE] to role [R1] that carries the object type
    [DATABASE] in [grant_on] alone. *)
Definition grant_on_row : sdk.Grant :=
  {| sdk.Privilege := "MONITOR USAGE"; sdk.GrantedOn := "";
     sdk.GrantOn := "DATABASE"; sdk.GranteeName := "R1";
     sdk.GrantOption := false; sdk.GrantedBy := "SYSADMIN" |}.

(** The [d.Set] calls the importer reaches for an identity, in the order of
    the code, when none is refused. *)
Definition imported_assignments (id : GrantPrivilegesToDatabaseRoleID)
  : list assignment :=
  [to_role_name (RoleName id); to_database_name (DatabaseName id);
   to_privileges (Privileges id); to_all_privileges (AllPrivileges id);
   to_with_grant_option (WithGrantOption id);
   to_on_database (OnDatabase id)]
  ++ (if OnSchema id then [to_on_schema (imported_on_schema id)] else [])
  ++ (if OnSchemaObject id
      then [to_on_schema_object (imported_on_schema_object id)] else []).

(** The error of the first refused call of a list, if one is refused. *)
Fixpoint first_error (Set_error : assignment -> option error)
    (l : list assignment) : option error :=
  match l with
  | [] => None
  | a :: rest =>
      match Set_error a with
      | Some err => Some err
      | None => first_error Set_error rest
      end
  end.

(** The calls of a list before the first refused one. *)
Fixpoint take_while_accepted (Set_error : assignment -> option error)
    (l : list assignment) : list assignment :=
  match l with
  | [] => []
  | a :: rest =>
      match Set_error a with
      | Some _ => []
      | None => a :: take_while_accepted Set_error rest
      end
  end.

(** A schema package that accepts every value. *)
Definition accepting : assignment -> option error := fun _ => None.

(** A schema package that refuses an [in_database] key in a [future] block
    of [on_schema_object], a key the schema of that block does not
    declare. *)
Definition strict_future : assignment -> option error := fun a =>
  match a with
  | to_on_schema_object v =>
      if existsb (fun m => match future m with
                           | Some (b :: _) => is_some (in_database b)
                           | _ => false
                           end) v
      then Some (OtherError "in_database is not an attribute of future")
      else None
  | _ => None
  end.

(** * Properties *)

(** ** Facts about [Split], [Join] and [Count] *)

Lemma Split_nonempty s sep : strings.Split s sep <> [].
Proof.
  destruct s as [|c rest]; simpl; [discriminate|].
  destruct (Ascii.eqb c sep); [discriminate|].
  destruct (strings.Split rest sep); discriminate.
Qed.

Lemma Split_length s sep :
  length (strings.Split s sep) = S (strings.Count s sep).
Proof.
  induction s as [|c rest IH]; simpl; [reflexivity|].
  destruct (Ascii.eqb c sep); simpl; [now rewrite IH|].
  pose proof (Split_nonempty rest sep) as Hne.
  destruct (strings.Split rest sep) as [|seg segs]; [contradiction|].
  simpl in *. exact IH.
Qed.

Lemma Split_free s sep :
  strings.Count s sep = 0 -> strings.Split s sep = [s].
Proof.
  induction s as [|c rest IH]; simpl; [reflexivity|].
  destruct (Ascii.eqb c sep); [discriminate|].
  intros H. now rewrite (IH H).
Qed.

Lemma Split_app_free s t sep :
  strings.Count s sep = 0 ->
  strings.Split (s ++ String sep t) sep = s :: strings.Split t sep.
Proof.
  induction s as [|c rest IH]; simpl.
  - intros _. now rewrite Ascii.eqb_refl.
  - destruct (Ascii.eqb c sep); [discriminate|].
    intros H. now rewrite (IH H).
Qed.

(** Joining segments free of the separator and splitting again gives the
    segments back, for every list but the empty one, whose join [""] splits
    into the single empty segment. *)
Lemma Split_Join (elems : list string) sep :
  elems <> [] ->
  Forall (fun e => strings.Count e sep = 0) elems ->
  strings.Split (strings.Join elems (String sep "")) sep = elems.
Proof.
  induction elems as [|e rest IH]; [congruence|].
  intros _ Hfree. inversion Hfree as [|? ? He Hrest]; subst.
  destruct rest as [|e' rest'].
  - simpl. now apply Split_free.
  - change (strings.Join (e :: e' :: rest') (String sep ""))
      with (e ++ String sep (strings.Join (e' :: rest') (String sep "")))%string.
    rewrite Split_app_free by exact He.
    f_equal. apply IH; [discriminate|exact Hrest].
Qed.

Lemma Split_single_empty s sep :
  strings.Split s sep = [EmptyString] <-> s = EmptyString.
Proof.
  split; [|intros ->; reflexivity].
  destruct s as [|c rest]; [reflexivity|]. simpl.
  destruct (Ascii.eqb c sep).
  - intros H. injection H as H. now apply Split_nonempty in H.
  - destruct (strings.Split rest sep); discriminate.
Qed.

Lemma Count_app s t sep :
  strings.Count (s +:+ t) sep = strings.Count s sep + strings.Count t sep.
Proof.
  induction s as [|c rest IH]; simpl; [reflexivity|].
  destruct (Ascii.eqb c sep); simpl; now rewrite IH.
Qed.

Lemma Count_Join (elems : list string) (glue : string) sep :
  strings.Count glue sep = 0 ->
  Forall (fun e => strings.Count e sep = 0) elems ->
  strings.Count (strings.Join elems glue) sep = 0.
Proof.
  intros Hglue. induction 1 as [|e rest He Hrest IH]; [reflexivity|].
  destruct rest as [|e' rest']; [exact He|].
  change (strings.Join (e :: e' :: rest') glue)
    with (e +:+ glue +:+ strings.Join (e' :: rest') glue).
  now rewrite !Count_app, He, Hglue, IH.
Qed.

Lemma Count_FormatBool b : strings.Count (FormatBool b) "|" = 0.
Proof. now destruct b. Qed.

Lemma FormatBool_true b : String.eqb (FormatBool b) "true" = b.
Proof. now destruct b. Qed.

(** ** The identifier codec *)

Lemma decode_privileges_segment segment :
  (let privileges := strings.Split segment "," in
   if bool_decide (length privileges = 1) &&
      bool_decide (privileges !! 0 = Some "")
   then [] else privileges) = decoded_privileges segment.
Proof.
  unfold decoded_privileges. cbv zeta.
  destruct (String.eqb_spec segment "") as [->|Hne]; [reflexivity|].
  destruct (strings.Split segment ",") as [|p [|q rest]] eqn:Hs;
    [reflexivity| |reflexivity].
  simpl. case_bool_decide as Hp; [|reflexivity].
  injection Hp as ->. now apply Split_single_empty in Hs.
Qed.

(** Fifteen segments free of the delimiter, joined by it, decode to those
    segments field by field. *)
Lemma decode_segments s0 s1 s2 s3 s4 s5 s6 s7 s8 s9 s10 s11 s12 s13 s14 :
  Forall pipe_free [s0; s1; s2; s3; s4; s5; s6; s7; s8; s9; s10; s11; s12;
                    s13; s14] ->
  NewGrantPrivilegesToDatabaseRoleID
    (strings.Join [s0; s1; s2; s3; s4; s5; s6; s7; s8; s9; s10; s11; s12;
                   s13; s14] "|")
  = Some {| RoleName := s0; DatabaseName := s1;
            Privileges := decoded_privileges s2;
            AllPrivileges := String.eqb s3 "true";
            WithGrantOption := String.eqb s4 "true";
            OnDatabase := String.eqb s5 "true";
            OnSchema := String.eqb s6 "true";
            OnSchemaObject := String.eqb s7 "true";
            All := String.eqb s8 "true";
            Future := String.eqb s9 "true";
            ObjectType := s10; ObjectName := s11; ObjectTypePlural := s12;
            InSchema := String.eqb s13 "true"; SchemaName := s14;
            InDatabase := false |}.
Proof.
  intros Hfree. unfold NewGrantPrivilegesToDatabaseRoleID.
  rewrite (Split_Join _ "|"%char) by (discriminate || exact Hfree).
  cbn [lookup list_lookup mbind option_bind].
  now rewrite decode_privileges_segment.
Qed.

(** [String()] writes the fifteen segments in the order of the struct. *)
Lemma ID_String_segments v :
  ID_String v =
  strings.Join
    [RoleName v; DatabaseName v; strings.Join (Privileges v) ",";
     FormatBool (AllPrivileges v); FormatBool (WithGrantOption v);
     FormatBool (OnDatabase v); FormatBool (OnSchema v);
     FormatBool (OnSchemaObject v); FormatBool (All v);
     FormatBool (Future v); ObjectType v; ObjectName v; ObjectTypePlural v;
     FormatBool (InSchema v); SchemaName v] "|".
Proof. reflexivity. Qed.

Lemma decoded_privileges_Join (ps : list string) :
  Forall (fun p => pipe_free p /\ strings.Count p "," = 0) ps ->
  ps <> [EmptyString] ->
  decoded_privileges (strings.Join ps ",") = ps.
Proof.
  intros Hfree Hblank. unfold decoded_privileges.
  destruct ps as [|p rest]; [reflexivity|].
  assert (Hsplit : strings.Split (strings.Join (p :: rest) ",") ","
                   = p :: rest).
  { apply (Split_Join _ ","%char); [discriminate|].
    eapply Forall_impl; [exact Hfree|]. now intros a [_ Ha]. }
  rewrite Hsplit.
  destruct (String.eqb_spec (strings.Join (p :: rest) ",") "") as [E|_];
    [|reflexivity].
  rewrite E in Hsplit. simpl in Hsplit. congruence.
Qed.

(** Every field but [InDatabase] survives the round trip: a valid
    identifier decodes to itself with [InDatabase] cleared. *)
Lemma decode_encode x :
  valid_id x ->
  NewGrantPrivilegesToDatabaseRoleID (ID_String x)
  = Some (set_InDatabase x false).
Proof.
  intros [H0 H1 Hp Hb H10 H11 H12 H14].
  rewrite ID_String_segments, decode_segments.
  - rewrite decoded_privileges_Join by assumption.
    now rewrite !FormatBool_true.
  - repeat constructor; try assumption; try apply Count_FormatBool.
    apply Count_Join; [reflexivity|].
    eapply Forall_impl; [exact Hp|]. now intros a [Ha _].
Qed.

(** The round trip holds for the valid identifiers whose [InDatabase] is
    false. *)
Lemma decode_encode_without_InDatabase x :
  valid_id x -> InDatabase x = false ->
  NewGrantPrivilegesToDatabaseRoleID (ID_String x) = Some x.
Proof.
  intros Hv Hd. rewrite decode_encode by exact Hv.
  destruct x; simpl in *; now subst.
Qed.

(** Whatever the encoder, the decoder never sets [InDatabase]. *)
Lemma decoded_InDatabase id v :
  NewGrantPrivilegesToDatabaseRoleID id = Some v -> InDatabase v = false.
Proof.
  unfold NewGrantPrivilegesToDatabaseRoleID. intros H.
  repeat match type of H with
         | mbind _ ?o = Some _ =>
             destruct o; cbn [mbind option_bind] in H; [|discriminate]
         end.
  now injection H as <-.
Qed.

Lemma all_schemas_id_valid : valid_id all_schemas_id.
Proof.
  split; try reflexivity; try discriminate.
  repeat constructor.
Qed.

(** The failing identifier is the one [configureDatabaseRoleGrantPrivilegeOptions]
    fills in for [on_schema { all_schemas = true }]. *)
Lemma all_schemas_id_configured :
  exists privilegesToGrant on resourceID,
    configureDatabaseRoleGrantPrivilegeOptions all_schemas_config ["USAGE"]
      false
      (set_DatabaseName (set_AllPrivileges (set_Privileges zeroID ["USAGE"])
                           false) "DB1")
    = Ok (privilegesToGrant, on, resourceID)
    /\ set_RoleName (set_WithGrantOption resourceID false) "R1"
       = all_schemas_id.
Proof. do 3 eexists. split; reflexivity. Qed.

(** C1 (the code departs from the claim): the identifier built for a grant
    on all schemas of a database has [InDatabase] set, is valid, and does
    not survive the round trip: whatever encoder [String()] uses, decoding
    does not give it back, and with the repository's encoder it comes back
    with [InDatabase] cleared and every other field intact. *)
Theorem C1_round_trip_loses_InDatabase :
  valid_id all_schemas_id /\
  (forall Encode,
     NewGrantPrivilegesToDatabaseRoleID (String_with Encode all_schemas_id)
     <> Some all_schemas_id) /\
  ID_String all_schemas_id
  = "R1|DB1|USAGE|false|false|false|true|false|true|false||||false|" /\
  NewGrantPrivilegesToDatabaseRoleID (ID_String all_schemas_id)
  = Some (set_InDatabase all_schemas_id false) /\
  set_InDatabase all_schemas_id false <> all_schemas_id.
Proof.
  split; [exact all_schemas_id_valid|].
  split.
  { intros Encode H. apply decoded_InDatabase in H. discriminate. }
  split; [reflexivity|].
  split; [apply decode_encode, all_schemas_id_valid|discriminate].
Qed.

(** The decoder returns exactly when its input splits into at least fifteen
    segments. *)
Lemma decoder_returns_iff_15_segments id :
  is_Some (NewGrantPrivilegesToDatabaseRoleID id)
  <-> 15 <= length (strings.Split id "|").
Proof.
  unfold NewGrantPrivilegesToDatabaseRoleID.
  destruct (strings.Split id "|")
    as [|p0 [|p1 [|p2 [|p3 [|p4 [|p5 [|p6 [|p7 [|p8 [|p9 [|p10 [|p11 [|p12
        [|p13 [|p14 rest]]]]]]]]]]]]]]];
    cbn [lookup list_lookup mbind option_bind length];
    (split; [intros [v Hv]; try discriminate Hv; lia
            |intros Hlen; try lia; eexists; reflexivity]).
Qed.

(** C6: the identifier string is the fifteen fields joined by the pipe in
    the order role name, database name, comma-joined privileges,
    all-privileges, with-grant-option, on-database, on-schema,
    on-schema-object, all, future, object type, object name, plural object
    type, in-schema, schema name, each boolean written [true] or [false];
    and the decoder reads fifteen pipe-free segments back into the fields in
    that same order. *)
Theorem C6_identifier_field_order :
  (forall v : GrantPrivilegesToDatabaseRoleID,
     let flag (b : bool) := if b then "true" else "false" in
     ID_String v =
     RoleName v +:+ "|" +:+ DatabaseName v +:+ "|"
     +:+ strings.Join (Privileges v) "," +:+ "|"
     +:+ flag (AllPrivileges v) +:+ "|" +:+ flag (WithGrantOption v) +:+ "|"
     +:+ flag (OnDatabase v) +:+ "|" +:+ flag (OnSchema v) +:+ "|"
     +:+ flag (OnSchemaObject v) +:+ "|" +:+ flag (All v) +:+ "|"
     +:+ flag (Future v) +:+ "|" +:+ ObjectType v +:+ "|"
     +:+ ObjectName v +:+ "|" +:+ ObjectTypePlural v +:+ "|"
     +:+ flag (InSchema v) +:+ "|" +:+ SchemaName v) /\
  (forall s0 s1 s2 s3 s4 s5 s6 s7 s8 s9 s10 s11 s12 s13 s14 : string,
     Forall pipe_free [s0; s1; s2; s3; s4; s5; s6; s7; s8; s9; s10; s11;
                       s12; s13; s14] ->
     exists v,
       NewGrantPrivilegesToDatabaseRoleID
         (s0 +:+ "|" +:+ s1 +:+ "|" +:+ s2 +:+ "|" +:+ s3 +:+ "|" +:+ s4
          +:+ "|" +:+ s5 +:+ "|" +:+ s6 +:+ "|" +:+ s7 +:+ "|" +:+ s8
          +:+ "|" +:+ s9 +:+ "|" +:+ s10 +:+ "|" +:+ s11 +:+ "|" +:+ s12
          +:+ "|" +:+ s13 +:+ "|" +:+ s14) = Some v /\
       RoleName v = s0 /\ DatabaseName v = s1 /\
       Privileges v = (if String.eqb s2 "" then []
                       else strings.Split s2 ",") /\
       AllPrivileges v = String.eqb s3 "true" /\
       WithGrantOption v = String.eqb s4 "true" /\
       OnDatabase v = String.eqb s5 "true" /\
       OnSchema v = String.eqb s6 "true" /\
       OnSchemaObject v = String.eqb s7 "true" /\
       All v = String.eqb s8 "true" /\
       Future v = String.eqb s9 "true" /\
       ObjectType v = s10 /\ ObjectName v = s11 /\
       ObjectTypePlural v = s12 /\
       InSchema v = String.eqb s13 "true" /\ SchemaName v = s14).
Proof.
  split; [reflexivity|].
  intros s0 s1 s2 s3 s4 s5 s6 s7 s8 s9 s10 s11 s12 s13 s14 Hfree.
  eexists. split; [exact (decode_segments _ _ _ _ _ _ _ _ _ _ _ _ _ _ _ Hfree)|].
  repeat split.
Qed.

(** A concrete identifier: on-database grant of [MONITOR USAGE] to [R1]. *)
Lemma C6_identifier_field_order_witness :
  exists v,
    NewGrantPrivilegesToDatabaseRoleID
      "R1|DB1|MONITOR USAGE|false|false|true|false|false|false|false||||false|"
    = Some v /\ OnDatabase v = true /\ Privileges v = ["MONITOR USAGE"].
Proof.
  destruct (proj2 C6_identifier_field_order
              "R1" "DB1" "MONITOR USAGE" "false" "false" "true" "false"
              "false" "false" "false" "" "" "" "false" "")
    as (v & Hv & H).
  - repeat constructor.
  - exists v. split; [exact Hv|]. split; [apply H|apply H].
Defined.

(** C10: the decoder indexes segments 0 to 14 of the split identifier
    without looking at their number, so it returns a value exactly for the
    inputs that hold at least fourteen pipes and panics (index out of range)
    on every other input; it is not total. *)
Theorem C10_decoder_needs_14_pipes :
  (forall id, is_Some (NewGrantPrivilegesToDatabaseRoleID id)
              <-> 14 <= strings.Count id "|") /\
  (forall id, strings.Count id "|" < 14
              -> NewGrantPrivilegesToDatabaseRoleID id = None) /\
  NewGrantPrivilegesToDatabaseRoleID "db_name|good_name|role1,role2" = None.
Proof.
  assert (H : forall id, is_Some (NewGrantPrivilegesToDatabaseRoleID id)
                         <-> 14 <= strings.Count id "|").
  { intros id. rewrite decoder_returns_iff_15_segments, Split_length. lia. }
  split; [exact H|]. split; [|reflexivity].
  intros id Hlt.
  destruct (NewGrantPrivilegesToDatabaseRoleID id) as [v|] eqn:E;
    [|reflexivity].
  assert (Hs : is_Some (NewGrantPrivilegesToDatabaseRoleID id))
    by (rewrite E; eauto).
  apply H in Hs. lia.
Qed.

Lemma C10_decoder_needs_14_pipes_witness :
  strings.Count "a|b|c|true" "|" < 14 /\
  NewGrantPrivilegesToDatabaseRoleID "a|b|c|true" = None.
Proof.
  split; [vm_compute; lia|].
  apply (proj1 (proj2 C10_decoder_needs_14_pipes)). vm_compute. lia.
Defined.

(** ** The privilege delta *)

Lemma Contains_elem_of (s : list string) (e : string) :
  slices.Contains s e = true <-> e ∈ s.
Proof.
  induction s as [|a rest IH]; simpl.
  - split; [discriminate|]. intros H. inversion H.
  - destruct (String.eqb_spec a e) as [->|Hne].
    + split; [intros _; constructor|reflexivity].
    + rewrite IH. split; [now constructor|].
      intros H. inversion H; subst; [congruence|assumption].
Qed.

Lemma Contains_false (s : list string) (e : string) :
  slices.Contains s e = false <-> e ∉ s.
Proof.
  rewrite <- Contains_elem_of. destruct (slices.Contains s e); split;
    congruence.
Qed.

(** A loop that appends the elements passing a test is a filter. *)
Lemma fold_append_filter {A} (keep : A -> bool) (l acc : list A) :
  fold_left (fun acc a => if keep a then acc ++ [a] else acc) l acc
  = acc ++ List.filter keep l.
Proof.
  revert acc. induction l as [|a rest IH]; intros acc; simpl.
  - now rewrite app_nil_r.
  - rewrite IH. destruct (keep a); [|reflexivity].
    now rewrite <- app_assoc.
Qed.

Lemma addPrivileges_filter old new :
  addPrivileges_of old new
  = List.filter (fun p => negb (slices.Contains old p)) new.
Proof. unfold addPrivileges_of. now rewrite fold_append_filter. Qed.

Lemma removePrivileges_filter old new :
  removePrivileges_of old new
  = List.filter (fun p => negb (slices.Contains new p)) old.
Proof. unfold removePrivileges_of. now rewrite fold_append_filter. Qed.

Lemma elem_of_List_filter {A} (keep : A -> bool) (l : list A) (a : A) :
  a ∈ List.filter keep l <-> a ∈ l /\ keep a = true.
Proof. rewrite !list_elem_of_In. apply filter_In. Qed.

Lemma elem_of_addPrivileges old new p :
  p ∈ addPrivileges_of old new <-> p ∈ new /\ p ∉ old.
Proof.
  rewrite addPrivileges_filter, elem_of_List_filter, negb_true_iff.
  now rewrite Contains_false.
Qed.

Lemma elem_of_removePrivileges old new p :
  p ∈ removePrivileges_of old new <-> p ∈ old /\ p ∉ new.
Proof.
  rewrite removePrivileges_filter, elem_of_List_filter, negb_true_iff.
  now rewrite Contains_false.
Qed.

Lemma List_filter_Permutation {A} (keep keep' : A -> bool) (l l' : list A) :
  (forall a, keep a = keep' a) -> l ≡ₚ l' ->
  List.filter keep l ≡ₚ List.filter keep' l'.
Proof.
  intros Hext Hperm. induction Hperm as [|a l l' _ IH|a b l|l l' l'' _ IH1 _ IH2].
  - constructor.
  - simpl. rewrite <- Hext. destruct (keep a); [now constructor|exact IH].
  - simpl. rewrite <- !Hext.
    assert (Hl : List.filter keep l = List.filter keep' l)
      by (apply List.filter_ext; exact Hext).
    rewrite <- Hl.
    destruct (keep a), (keep b); try reflexivity. apply perm_swap.
  - etransitivity; [exact IH1|].
    etransitivity; [|exact IH2].
    assert (Hl : List.filter keep' l' = List.filter keep l')
      by (apply List.filter_ext; intros; now rewrite Hext).
    now rewrite Hl.
Qed.

Lemma Contains_Permutation (s s' : list string) (e : string) :
  s ≡ₚ s' -> slices.Contains s e = slices.Contains s' e.
Proof.
  intros Hperm.
  destruct (slices.Contains s' e) eqn:E.
  - apply Contains_elem_of. rewrite Hperm. now apply Contains_elem_of.
  - apply Contains_false. rewrite Hperm. now apply Contains_false.
Qed.

(** C2: for every two privilege lists the add list holds exactly the
    privileges of new that are not in old and the remove list exactly those
    of old that are not in new; the two are disjoint; removing the one from
    old and adding the other gives new; and reordering the inputs only
    reorders the results. *)
Theorem C2_privilege_delta (old new : list string) :
  let add : gset string := list_to_set (addPrivileges_of old new) in
  let remove : gset string := list_to_set (removePrivileges_of old new) in
  let O : gset string := list_to_set old in
  let N : gset string := list_to_set new in
  add = N ∖ O /\
  remove = O ∖ N /\
  add ## remove /\
  (O ∖ remove) ∪ add = N /\
  (forall old' new',
     old' ≡ₚ old -> new' ≡ₚ new ->
     addPrivileges_of old' new' ≡ₚ addPrivileges_of old new /\
     removePrivileges_of old' new' ≡ₚ removePrivileges_of old new).
Proof.
  intros add remove O N.
  assert (Hadd : add = N ∖ O).
  { apply set_eq. intros p. unfold add, N, O.
    rewrite elem_of_difference, !elem_of_list_to_set.
    apply elem_of_addPrivileges. }
  assert (Hremove : remove = O ∖ N).
  { apply set_eq. intros p. unfold remove, N, O.
    rewrite elem_of_difference, !elem_of_list_to_set.
    apply elem_of_removePrivileges. }
  split; [exact Hadd|]. split; [exact Hremove|].
  split.
  { rewrite Hadd, Hremove.
    intros p [Hp _]%elem_of_difference [_ Hq]%elem_of_difference.
    contradiction. }
  split.
  { rewrite Hadd, Hremove. apply set_eq. intros p.
    rewrite elem_of_union, !elem_of_difference.
    destruct (decide (p ∈ O)), (decide (p ∈ N)); tauto. }
  intros old' new' Hold Hnew.
  rewrite !addPrivileges_filter, !removePrivileges_filter.
  split; apply List_filter_Permutation; try assumption;
    intros p; f_equal; now apply Contains_Permutation.
Qed.

(** The scenario of the specification, and a reordering of its inputs. *)
Lemma C2_privilege_delta_witness :
  addPrivileges_of ["MONITOR USAGE"] ["MONITOR USAGE"; "MANAGE GRANTS"]
  = ["MANAGE GRANTS"] /\
  removePrivileges_of ["MONITOR USAGE"] ["MONITOR USAGE"; "MANAGE GRANTS"]
  = [] /\
  addPrivileges_of ["B"; "A"] ["C"; "B"] ≡ₚ addPrivileges_of ["A"; "B"] ["B"; "C"].
Proof.
  split; [reflexivity|]. split; [reflexivity|].
  apply (proj2 (proj2 (proj2 (proj2 (C2_privilege_delta ["A"; "B"] ["B"; "C"]))))
           ["B"; "A"] ["C"; "B"]); apply perm_swap.
Defined.

(** ** Read reconciliation *)

Lemma attributedb_spec id grantedOn withGrantOption roleName grant :
  attributedb id grantedOn withGrantOption roleName grant = true
  <-> attributed id grantedOn withGrantOption roleName grant.
Proof.
  unfold attributedb, attributed.
  rewrite !andb_true_iff, !orb_true_iff, negb_true_iff, Contains_elem_of,
    Bool.eqb_true_iff, !String.eqb_eq, String.eqb_neq.
  destruct (Future id); intuition congruence.
Qed.

(** The object-type test on the two kinds of row: a current grant carries
    [granted_on] and an empty [grant_on], a future grant the reverse; against
    a resolved type that is not empty the test compares the field the row
    carries. *)
Lemma row_type_current (grantedOn : sdk.ObjectType) (grant : sdk.Grant) :
  sdk.GrantOn grant = "" -> grantedOn <> "" ->
  (grantedOn = sdk.GrantedOn grant \/ grantedOn = sdk.GrantOn grant)
  <-> grantedOn = sdk.GrantedOn grant.
Proof. intros Hon Hne. rewrite Hon. tauto. Qed.

Lemma row_type_future (grantedOn : sdk.ObjectType) (grant : sdk.Grant) :
  sdk.GrantedOn grant = "" -> grantedOn <> "" ->
  (grantedOn = sdk.GrantedOn grant \/ grantedOn = sdk.GrantOn grant)
  <-> grantedOn = sdk.GrantOn grant.
Proof. intros Hon Hne. rewrite Hon. tauto. Qed.

Lemma read_row_attributedb id grantedOn withGrantOption roleName privileges
    grant :
  read_row id grantedOn withGrantOption roleName privileges grant
  = if attributedb id grantedOn withGrantOption roleName grant
    then privileges ++ [sdk.Privilege grant] else privileges.
Proof.
  unfold read_row, attributedb.
  destruct (slices.Contains (Privileges id) (sdk.Privilege grant));
    [|reflexivity].
  destruct (Bool.eqb (sdk.GrantOption grant) withGrantOption);
    [|reflexivity].
  destruct (String.eqb (sdk.GranteeName grant) roleName); [|reflexivity].
  destruct (Future id), (String.eqb (sdk.GrantedBy grant) ""); reflexivity.
Qed.

(** The loop over the observed rows keeps the privileges of the attributed
    rows, in the order of the rows. *)
Lemma read_rows_filter id grantedOn withGrantOption roleName grants acc :
  fold_left (read_row id grantedOn withGrantOption roleName) grants acc
  = acc ++ map sdk.Privilege
             (List.filter (attributedb id grantedOn withGrantOption roleName)
                grants).
Proof.
  revert acc. induction grants as [|grant rest IH]; intros acc; simpl.
  - now rewrite app_nil_r.
  - rewrite IH, read_row_attributedb.
    destruct (attributedb id grantedOn withGrantOption roleName grant);
      [|reflexivity].
    simpl. now rewrite <- app_assoc.
Qed.

Lemma read_rows_stored id grantedOn withGrantOption roleName grants :
  fold_left (read_row id grantedOn withGrantOption roleName) grants []
  ⊆ Privileges id.
Proof.
  rewrite read_rows_filter. simpl. intros p Hp.
  apply list_elem_of_fmap in Hp as (grant & -> & Hgrant).
  apply elem_of_List_filter in Hgrant as [_ Hgrant].
  now apply attributedb_spec in Hgrant as [Hin _].
Qed.

Section ReadProperties.

Variable R : Remote.
Variable ObjectTypeDatabase ObjectTypeSchema : sdk.ObjectType.
Variable Singular : string -> sdk.ObjectType.

(** What [readDatabaseRoleGrantPrivileges] does: one [Show] request, then
    either its error wrapped, or the privileges of the loop written to
    [privileges]. *)
Lemma readDatabaseRoleGrantPrivileges_run grantedOn id opts d log :
  readDatabaseRoleGrantPrivileges R grantedOn id opts d log
  = match shown_grants R log (ShowGrants opts) with
    | inl err =>
        (Err (Wrapped "error retrieving grants for database role" err), d,
         log ++ [ShowGrants opts])
    | inr grants =>
        (Ok tt,
         Set_privileges
           (fold_left
              (read_row id grantedOn (with_grant_option d) (role_name d))
              grants []) d,
         log ++ [ShowGrants opts])
    end.
Proof.
  unfold readDatabaseRoleGrantPrivileges, bind, send.
  destruct (shown_grants R log (ShowGrants opts)); reflexivity.
Qed.

(** [Read] leaves the data as it is or writes [privileges] alone, with
    privileges stored in the identifier. *)
Lemma Read_writes_stored d log :
  let d' := data_of (ReadGrantPrivilegesToDatabaseRole R ObjectTypeDatabase
                       ObjectTypeSchema Singular d log) in
  d' = d \/
  exists id ps,
    NewGrantPrivilegesToDatabaseRoleID (Id d) = Some id /\
    d' = Set_privileges ps d /\ ps ⊆ Privileges id.
Proof.
  unfold ReadGrantPrivilegesToDatabaseRole, bind, get, data_of. simpl.
  destruct (NewGrantPrivilegesToDatabaseRoleID (Id d)) as [id|];
    [|left; reflexivity].
  destruct (AllPrivileges id); [left; reflexivity|].
  match goal with
  | |- context [match ?t with Some _ => _ | None => _ end] =>
      destruct t as [[grantOn opts]|]
  end; [|left; reflexivity].
  rewrite readDatabaseRoleGrantPrivileges_run.
  destruct (shown_grants R log (ShowGrants opts)) as [err|grants];
    [left; reflexivity|].
  right. exists id. eexists. split; [reflexivity|]. split; [reflexivity|].
  apply read_rows_stored.
Qed.

End ReadProperties.

(** C4: whatever identity is stored and whatever rows the remote system
    shows, the privileges the read loop collects are privileges stored in
    the identity; and [Read] as a whole either leaves the resource data
    untouched or writes to [privileges] only privileges stored in the
    identifier. *)
Theorem C4_read_reports_only_stored_privileges :
  (forall id grantedOn withGrantOption roleName (grants : list sdk.Grant),
     fold_left (read_row id grantedOn withGrantOption roleName) grants []
     ⊆ Privileges id) /\
  (forall R ObjectTypeDatabase ObjectTypeSchema Singular d log,
     let d' := data_of (ReadGrantPrivilegesToDatabaseRole R
                          ObjectTypeDatabase ObjectTypeSchema Singular
                          d log) in
     d' = d \/
     exists id ps,
       NewGrantPrivilegesToDatabaseRoleID (Id d) = Some id /\
       d' = Set_privileges ps d /\ ps ⊆ Privileges id).
Proof.
  split.
  - intros. apply read_rows_stored.
  - intros. apply Read_writes_stored.
Qed.

(** A privilege granted out of band, [MANAGE GRANTS], is shown next to the
    stored [MONITOR USAGE] and is not reported. *)
Lemma C4_read_reports_only_stored_privileges_witness :
  privileges
    (data_of (ReadGrantPrivilegesToDatabaseRole
                (remote_showing [database_row "MANAGE GRANTS";
                                 database_row "MONITOR USAGE"])
                "DATABASE" "SCHEMA" (fun plural => plural)
                (on_database_data (ID_String on_database_id)) []))
  = ["MONITOR USAGE"] /\
  "MANAGE GRANTS" ∉
    fold_left (read_row on_database_id "DATABASE" false "R1")
      [database_row "MANAGE GRANTS"; database_row "MONITOR USAGE"] [].
Proof.
  split; [reflexivity|].
  intros Hin.
  apply (proj1 C4_read_reports_only_stored_privileges on_database_id
           "DATABASE" false "R1" _ _) in Hin.
  apply list_elem_of_In in Hin. simpl in Hin.
  destruct Hin as [Hin|[]]. discriminate Hin.
Defined.

(** C5 (as the claim has it, refuted): the object type of a row is not
    compared field by kind.  The identity without a target flag resolves to
    the empty object type, which equals the empty [grant_on] of a current
    grant on a table: the row is attributed, and [Read] reports its
    privilege, though its [granted_on] is [TABLE].  Likewise the on-database
    identity, not a future grant, is attributed a row that carries
    [DATABASE] in [grant_on] alone. *)
Lemma C5_either_field_attributes :
  read_row unflagged_id "" false "R1" [] table_row = ["USAGE"] /\
  ~ attributed_by_kind unflagged_id "" false "R1" table_row /\
  privileges
    (data_of (ReadGrantPrivilegesToDatabaseRole (remote_showing [table_row])
                "DATABASE" "SCHEMA" (fun plural => plural) unflagged_data
                []))
  = ["USAGE"] /\
  read_row on_database_id "DATABASE" false "R1" [] grant_on_row
  = ["MONITOR USAGE"] /\
  ~ attributed_by_kind on_database_id "DATABASE" false "R1" grant_on_row /\
  ~ (forall id grantedOn withGrantOption roleName privileges grant,
       read_row id grantedOn withGrantOption roleName privileges grant
       = privileges ++ [sdk.Privilege grant]
       <-> attributed_by_kind id grantedOn withGrantOption roleName grant).
Proof.
  assert (H1 : ~ attributed_by_kind unflagged_id "" false "R1" table_row).
  { unfold attributed_by_kind. simpl. intros (_ & _ & _ & _ & H).
    discriminate H. }
  split; [reflexivity|]. split; [exact H1|]. split; [reflexivity|].
  split; [reflexivity|]. split.
  - unfold attributed_by_kind. simpl. intros (_ & _ & _ & _ & H).
    discriminate H.
  - intros H. apply H1. apply (H unflagged_id "" false "R1" [] table_row).
    reflexivity.
Qed.

(** C5 (amended): the read loop appends the privilege of an observed row
    exactly when the row is attributed to the identity, that is when its
    privilege is stored in the identity, its grant option equals the
    configured one, its grantee is the role, an identity that is not a
    future grant finds the row's granted-by non-empty, and the resolved
    object type equals the row's [granted_on] or its [grant_on], either of
    the two whatever the identity; every other row leaves the list as it
    was, so that the privileges written are those of the attributed rows.
    When the resolved type is not empty and the row carries only the field
    of the identity's kind (an empty [grant_on] for an identity that is not
    a future grant, an empty [granted_on] for one that is), this is the
    comparison with [granted_on] for the former and with [grant_on] for the
    latter. *)
Theorem C5_row_attribution :
  (forall id grantedOn withGrantOption roleName privileges grant,
     (attributed id grantedOn withGrantOption roleName grant ->
      read_row id grantedOn withGrantOption roleName privileges grant
      = privileges ++ [sdk.Privilege grant]) /\
     (~ attributed id grantedOn withGrantOption roleName grant ->
      read_row id grantedOn withGrantOption roleName privileges grant
      = privileges)) /\
  (forall R grantedOn id opts d log grants,
     shown_grants R log (ShowGrants opts) = inr grants ->
     readDatabaseRoleGrantPrivileges R grantedOn id opts d log
     = (Ok tt,
        Set_privileges
          (map sdk.Privilege
             (List.filter
                (attributedb id grantedOn (with_grant_option d) (role_name d))
                grants)) d,
        log ++ [ShowGrants opts])) /\
  (forall id grantedOn withGrantOption roleName grant,
     attributedb id grantedOn withGrantOption roleName grant = true
     <-> attributed id grantedOn withGrantOption roleName grant) /\
  (forall id grantedOn withGrantOption roleName grant,
     grantedOn <> "" ->
     (if Future id then sdk.GrantedOn grant = ""
      else sdk.GrantOn grant = "") ->
     attributed id grantedOn withGrantOption roleName grant
     <-> attributed_by_kind id grantedOn withGrantOption roleName grant).
Proof.
  split; [|split; [|split]].
  - intros. rewrite read_row_attributedb. split.
    + intros H. apply attributedb_spec in H. now rewrite H.
    + intros H.
      destruct (attributedb id grantedOn withGrantOption roleName grant)
        eqn:E; [|reflexivity].
      apply attributedb_spec in E. contradiction.
  - intros R grantedOn id opts d log grants Hshown.
    rewrite readDatabaseRoleGrantPrivileges_run, Hshown.
    now rewrite read_rows_filter.
  - intros. apply attributedb_spec.
  - intros id grantedOn withGrantOption roleName grant Hne Hfield.
    unfold attributed, attributed_by_kind.
    destruct (Future id).
    + rewrite (row_type_future grantedOn grant Hfield Hne). tauto.
    + rewrite (row_type_current grantedOn grant Hfield Hne). tauto.
Qed.

(** An attributed row, one that is not for lack of a granted-by, and a
    current row on the database, for which the test is the comparison with
    [granted_on]. *)
Lemma C5_row_attribution_witness :
  read_row on_database_id "DATABASE" false "R1" []
    (database_row "MONITOR USAGE") = ["MONITOR USAGE"] /\
  read_row on_database_id "DATABASE" false "R1" ["MONITOR USAGE"]
    {| sdk.Privilege := "MONITOR USAGE"; sdk.GrantedOn := "DATABASE";
       sdk.GrantOn := ""; sdk.GranteeName := "R1";
       sdk.GrantOption := false; sdk.GrantedBy := "" |}
  = ["MONITOR USAGE"] /\
  (attributed on_database_id "DATABASE" false "R1"
     (database_row "MONITOR USAGE")
   <-> attributed_by_kind on_database_id "DATABASE" false "R1"
         (database_row "MONITOR USAGE")).
Proof.
  split; [|split].
  - apply (proj1 (proj1 C5_row_attribution on_database_id "DATABASE" false
                    "R1" [] (database_row "MONITOR USAGE"))).
    unfold attributed. simpl. repeat split.
    + apply list_elem_of_In. simpl. now left.
    + discriminate.
    + now left.
  - apply (proj2 (proj1 C5_row_attribution on_database_id "DATABASE" false
                    "R1" ["MONITOR USAGE"] _)).
    unfold attributed. simpl. intros (_ & _ & _ & H & _).
    now apply H.
  - apply (proj2 (proj2 (proj2 C5_row_attribution)) on_database_id
             "DATABASE" false "R1" (database_row "MONITOR USAGE")).
    + discriminate.
    + reflexivity.
Defined.

(** C7: when the stored identifier decodes with the all-privileges flag
    set, [Read] returns nil at once: the resource data, identifier
    included, and the log of requests are as before. *)
Theorem C7_read_all_privileges_is_noop
    R ObjectTypeDatabase ObjectTypeSchema Singular d log id :
  NewGrantPrivilegesToDatabaseRoleID (Id d) = Some id ->
  AllPrivileges id = true ->
  ReadGrantPrivilegesToDatabaseRole R ObjectTypeDatabase ObjectTypeSchema
    Singular d log
  = (Ok tt, d, log).
Proof.
  intros Hid Hall.
  unfold ReadGrantPrivilegesToDatabaseRole, bind, get. simpl.
  now rewrite Hid, Hall.
Qed.

Lemma C7_read_all_privileges_is_noop_witness :
  let d := on_database_data
             "R1|DB1||true|false|false|true|false|false|false||||false|S1" in
  ReadGrantPrivilegesToDatabaseRole
    (remote_showing [database_row "USAGE"]) "DATABASE" "SCHEMA"
    (fun plural => plural) d []
  = (Ok tt, d, []).
Proof.
  intros d.
  eapply C7_read_all_privileges_is_noop; [vm_compute; reflexivity|reflexivity].
Defined.

(** ** The revoke gateway *)


Section RevokeProperties.

Variable R : Remote.
Context {D : Type}.



End RevokeProperties.



(** ** What the callbacks send, and in which order *)

Section Emits.

Context {D : Type}.
Implicit Types P Q : request -> Prop.

Lemma emits_ret {A} P (a : A) : emits P (ret a : M D A).
Proof. intros d log. exists []. now rewrite app_nil_r. Qed.

Lemma emits_fail {A} P e : emits P (fail e : M D A).
Proof. intros d log. exists []. now rewrite app_nil_r. Qed.

Lemma emits_panic {A} P : emits P (panic : M D A).
Proof. intros d log. exists []. now rewrite app_nil_r. Qed.

Lemma emits_get P : emits P (get : M D D).
Proof. intros d log. exists []. now rewrite app_nil_r. Qed.

Lemma emits_modify P f : emits P (modify f : M D unit).
Proof. intros d log. exists []. now rewrite app_nil_r. Qed.

Lemma emits_check P o : emits P (check o : M D unit).
Proof. destruct o; [apply emits_fail|apply emits_ret]. Qed.

Lemma emits_check_wrap P msg o : emits P (check_wrap msg o : M D unit).
Proof. destruct o; [apply emits_fail|apply emits_ret]. Qed.

Lemma emits_send {A} P (answer : list request -> request -> A) r :
  P r -> emits P (send answer r : M D A).
Proof. intros Hr d log. exists [r]. split; [reflexivity|]. now repeat constructor. Qed.

Lemma emits_bind {A B} P (m : M D A) (k : A -> M D B) :
  emits P m -> (forall a, emits P (k a)) -> emits P (bind m k).
Proof.
  intros Hm Hk d log. destruct (Hm d log) as (e1 & Hlog & He1).
  unfold bind, log_of in *.
  destruct (m d log) as [[[a| |] d'] log']; simpl in Hlog; subst log'.
  - destruct (Hk a d' (log ++ e1)) as (e2 & Hlog2 & He2).
    exists (e1 ++ e2). rewrite app_assoc. split; [exact Hlog2|].
    apply Forall_app. now split.
  - now exists e1.
  - now exists e1.
Qed.

Lemma emits_for_each {A} P (xs : list A) (f : A -> M D unit) :
  (forall a, emits P (f a)) -> emits P (for_each xs f).
Proof.
  intros Hf. induction xs as [|a rest IH]; simpl.
  - apply emits_ret.
  - apply emits_bind; [apply Hf|intros _; exact IH].
Qed.

Lemma two_phase_first {A} P Q (m : M D A) : emits P m -> two_phase P Q m.
Proof.
  intros Hm d log. destruct (Hm d log) as (e & Hlog & He).
  exists e, []. rewrite app_nil_r. repeat split; [exact Hlog|exact He|constructor].
Qed.

Lemma two_phase_second {A} P Q (m : M D A) : emits Q m -> two_phase P Q m.
Proof.
  intros Hm d log. destruct (Hm d log) as (e & Hlog & He).
  exists [], e. repeat split; [exact Hlog|constructor|exact He].
Qed.

Lemma two_phase_bind_first {A B} P Q (m : M D A) (k : A -> M D B) :
  emits P m -> (forall a, two_phase P Q (k a)) -> two_phase P Q (bind m k).
Proof.
  intros Hm Hk d log. destruct (Hm d log) as (e & Hlog & He).
  unfold bind, log_of in *.
  destruct (m d log) as [[[a| |] d'] log']; simpl in Hlog; subst log'.
  - destruct (Hk a d' (log ++ e)) as (e1 & e2 & Hlog2 & He1 & He2).
    exists (e ++ e1), e2. unfold log_of in Hlog2.
    rewrite Hlog2, <- !app_assoc. repeat split; [|exact He2].
    apply Forall_app. now split.
  - exists e, []. rewrite app_nil_r. repeat split; [exact He|constructor].
  - exists e, []. rewrite app_nil_r. repeat split; [exact He|constructor].
Qed.

Lemma two_phase_bind_second {A B} P Q (m : M D A) (k : A -> M D B) :
  two_phase P Q m -> (forall a, emits Q (k a)) -> two_phase P Q (bind m k).
Proof.
  intros Hm Hk d log. destruct (Hm d log) as (e1 & e2 & Hlog & He1 & He2).
  unfold bind, log_of in *.
  destruct (m d log) as [[[a| |] d'] log']; simpl in Hlog; subst log'.
  - destruct (Hk a d' (log ++ e1 ++ e2)) as (e3 & Hlog3 & He3).
    exists e1, (e2 ++ e3). unfold log_of in Hlog3.
    rewrite Hlog3, <- !app_assoc. repeat split; [exact He1|].
    apply Forall_app. now split.
  - now exists e1, e2.
  - now exists e1, e2.
Qed.

End Emits.

(** A first run without [B] followed by a second without [A] sends every
    [A] before any [B]. *)
Lemma issued_before_app (A B : request -> bool) (e1 e2 : list request) :
  Forall (fun r => B r = false) e1 ->
  Forall (fun r => A r = false) e2 ->
  issued_before A B (e1 ++ e2).
Proof.
  intros H1 H2 i j a b Hi Hj Ha Hb.
  destruct (decide (i < length e1)) as [Hlt|Hge].
  - destruct (decide (j < length e1)) as [Hj1|Hj2]; [|lia].
    rewrite lookup_app_l in Hj by exact Hj1.
    pose proof (Forall_lookup_1 _ _ _ _ H1 Hj) as Hb'. simpl in Hb'.
    congruence.
  - rewrite lookup_app_r in Hi by lia.
    pose proof (Forall_lookup_1 _ _ _ _ H2 Hi) as Ha'. simpl in Ha'.
    congruence.
Qed.

(** ** Target resolution *)

Lemma resolution_without_branch d privileges allPrivileges resourceID :
  populated_branches d = 0 ->
  configureDatabaseRoleGrantPrivilegeOptions d privileges allPrivileges
    resourceID
  = Err (OtherError "invalid grant options").
Proof.
  unfold populated_branches, configureDatabaseRoleGrantPrivilegeOptions.
  destruct (on_database d); [simpl; lia|].
  destruct (on_schema d); [|simpl; lia].
  destruct (on_schema_object d); [reflexivity|simpl; lia].
Qed.

Lemma configure_in_ok b rid :
  object_type_plural b <> None ->
  exists i rid', configure_in b rid = Ok (i, rid').
Proof.
  unfold configure_in. destruct (object_type_plural b); [|congruence].
  intros _. eauto.
Qed.

Lemma configure_object_ok m rid :
  match nonempty (object_name m), nonempty (object_type m) with
  | Some _, None => false
  | _, _ => true
  end = true ->
  exists object rid', configure_object m rid = Ok (object, rid').
Proof.
  unfold configure_object.
  destruct (nonempty (object_name m)), (nonempty (object_type m));
    try discriminate; eauto.
Qed.

Lemma configure_in_block_ok block mark rid :
  match first_block block with
  | Some b => match object_type_plural b with Some _ => true
                                         | None => false end
  | None => true
  end = true ->
  exists i rid', configure_in_block block mark rid = Ok (i, rid').
Proof.
  unfold configure_in_block.
  destruct (first_block block) as [b|]; [|eauto].
  intros Hb.
  destruct (configure_in_ok b (mark rid)) as (i & rid' & ->);
    [destruct (object_type_plural b); congruence|].
  simpl. eauto.
Qed.

(** With a branch populated, resolution returns a target, and only one: the
    database if [on_database] is set, else the schema of the first
    [on_schema] block, else the schema object of the first
    [on_schema_object] block. *)
Lemma resolution_with_branch d privileges allPrivileges resourceID :
  1 <= populated_branches d ->
  (on_database d = false -> on_schema d = [] ->
   forall m rest, on_schema_object d = m :: rest -> object_block_ok m = true) ->
  exists privilegesToGrant on resourceID',
    configureDatabaseRoleGrantPrivilegeOptions d privileges allPrivileges
      resourceID
    = Ok (privilegesToGrant, on, resourceID') /\
    targets on = 1 /\
    (on_database d = true -> sdk.On_Database on <> None) /\
    (on_database d = false -> on_schema d <> [] -> sdk.On_Schema on <> None) /\
    (on_database d = false -> on_schema d = [] ->
     sdk.On_SchemaObject on <> None).
Proof.
  unfold populated_branches, configureDatabaseRoleGrantPrivilegeOptions.
  intros Hpop Hok.
  destruct (on_database d).
  { do 3 eexists. split; [reflexivity|]. simpl. repeat split; congruence. }
  destruct (on_schema d) as [|onSchema ?].
  2:{ do 3 eexists. split; [reflexivity|]. simpl. repeat split; congruence. }
  destruct (on_schema_object d) as [|m rest]; [simpl in Hpop; lia|].
  specialize (Hok eq_refl eq_refl m rest eq_refl).
  unfold object_block_ok in Hok.
  apply andb_true_iff in Hok as [Hok Hfuture].
  apply andb_true_iff in Hok as [Hname Hall].
  destruct (configure_object_ok m (set_OnSchemaObject resourceID true))
    as (object & rid1 & ->); [exact Hname|].
  destruct (configure_in_block_ok (all m) (fun rid => set_All rid true) rid1)
    as (onAll & rid2 & Eall); [exact Hall|].
  destruct (configure_in_block_ok (future m)
              (fun rid => set_Future rid true) rid2)
    as (onFuture & rid3 & Efuture); [exact Hfuture|].
  cbn [and_then]. rewrite Eall. cbn [and_then]. rewrite Efuture.
  do 3 eexists. split; [reflexivity|]. simpl. repeat split; congruence.
Qed.

Section CallbackLogs.

Variable R : Remote.
Variable ObjectTypeDatabase ObjectTypeSchema : sdk.ObjectType.
Variable Singular : string -> sdk.ObjectType.

Local Abbreviation Read :=
  (ReadGrantPrivilegesToDatabaseRole R ObjectTypeDatabase ObjectTypeSchema
     Singular).
Local Abbreviation Update :=
  (UpdateGrantPrivilegesToDatabaseRole R ObjectTypeDatabase ObjectTypeSchema
     Singular).

Lemma configure_emits P d privileges allPrivileges resourceID :
  emits P (configure d privileges allPrivileges resourceID).
Proof.
  unfold configure.
  destruct (configureDatabaseRoleGrantPrivilegeOptions _ _ _ _);
    [apply emits_ret|apply emits_fail|apply emits_panic].
Qed.

(** [Read] sends at most a [Show]. *)
Lemma Read_emits (P : request -> Prop) :
  (forall opts, P (ShowGrants opts)) -> emits P Read.
Proof.
  intros HP. unfold ReadGrantPrivilegesToDatabaseRole.
  apply emits_bind; [apply emits_get|]. intros d.
  destruct (NewGrantPrivilegesToDatabaseRoleID (Id d)) as [id|];
    [|apply emits_panic].
  destruct (AllPrivileges id); [apply emits_ret|].
  match goal with
  | |- context [match ?t with Some _ => _ | None => _ end] =>
      destruct t as [[grantOn opts]|]
  end; [|apply emits_ret].
  unfold readDatabaseRoleGrantPrivileges.
  apply emits_bind; [apply emits_send, HP|]. intros [err|grants].
  - apply emits_fail.
  - apply emits_bind; [apply emits_get|]. intros d'. apply emits_modify.
Qed.

(** [Update] sends its grant, if any, then its revoke, if any, then what
    [Read] sends. *)
Lemma Update_two_phase :
  two_phase (fun r => is_revoke r = false) (fun r => is_grant r = false)
    Update.
Proof.
  unfold UpdateGrantPrivilegesToDatabaseRole.
  apply two_phase_bind_first; [apply emits_get|]. intros d.
  apply two_phase_bind_second; [|intros _; now apply Read_emits].
  destruct (negb (Set_Equal (privileges_state d) (privileges d)));
    [|apply two_phase_first, emits_ret].
  apply two_phase_bind_first.
  { destruct (Nat.ltb 0 (length (addPrivileges_of _ _))); [|apply emits_ret].
    apply emits_bind; [apply configure_emits|]. intros [[pg on] rid].
    apply emits_bind; [now apply emits_send|]. intros err.
    apply emits_check_wrap. }
  intros _. apply two_phase_second.
  apply emits_bind.
  { destruct (Nat.ltb 0 (length (removePrivileges_of _ _))); [|apply emits_ret].
    apply emits_bind; [apply configure_emits|]. intros [[pr on] rid].
    apply emits_bind; [now apply emits_send|]. intros err.
    apply emits_check_wrap. }
  intros _.
  destruct (NewGrantPrivilegesToDatabaseRoleID (Id d));
    [apply emits_modify|apply emits_panic].
Qed.

(** Without a populated branch [Update] sends neither a grant nor a
    revoke. *)
Lemma Update_without_branch d :
  populated_branches d = 0 ->
  forall log, exists ext,
    log_of (Update d log) = log ++ ext /\
    Forall (fun r => is_grant r = false /\ is_revoke r = false) ext.
Proof.
  intros Hpop.
  assert (Hconf : forall ps,
            configure d ps false zeroID
            = fail (Wrapped configure_error
                      (OtherError "invalid grant options"))).
  { intros ps. unfold configure.
    now rewrite resolution_without_branch. }
  intros log.
  unfold UpdateGrantPrivilegesToDatabaseRole, get. unfold bind at 1.
  set (rest := bind _ _).
  assert (Hrest : emits (fun r => is_grant r = false /\ is_revoke r = false)
                    rest).
  { unfold rest. apply emits_bind; [|intros _; now apply Read_emits].
    destruct (negb (Set_Equal (privileges_state d) (privileges d)));
      [|apply emits_ret].
    apply emits_bind.
    { destruct (Nat.ltb 0 (length (addPrivileges_of _ _))); [|apply emits_ret].
      rewrite Hconf. unfold bind, fail. intros d1 log1.
      exists []. unfold log_of. simpl. now rewrite app_nil_r. }
    intros _. apply emits_bind.
    { destruct (Nat.ltb 0 (length (removePrivileges_of _ _)));
        [|apply emits_ret].
      rewrite Hconf. unfold bind, fail. intros d1 log1.
      exists []. unfold log_of. simpl. now rewrite app_nil_r. }
    intros _.
    destruct (NewGrantPrivilegesToDatabaseRoleID (Id d));
      [apply emits_modify|apply emits_panic]. }
  apply Hrest.
Qed.

End CallbackLogs.

(** C9 (as the claim has it, refuted): a configuration that populates two
    top-level branches, [on_database] and [on_schema], is not rejected by
    target resolution, which returns the database target. *)
Lemma C9_two_branches_resolve :
  populated_branches two_branches_config = 2 /\
  ~ (populated_branches two_branches_config <> 1 ->
     exists e,
       configureDatabaseRoleGrantPrivilegeOptions two_branches_config
         ["USAGE"] false zeroID = Err e) /\
  exists privilegesToGrant on resourceID,
    configureDatabaseRoleGrantPrivilegeOptions two_branches_config
      ["USAGE"] false zeroID
    = Ok (privilegesToGrant, on, resourceID) /\
    sdk.On_Database on <> None /\ sdk.On_Schema on = None.
Proof.
  split; [reflexivity|]. split.
  - intros H. destruct H as [e He]; [discriminate|]. discriminate He.
  - do 3 eexists. split; [reflexivity|]. split; [discriminate|reflexivity].
Qed.

(** C9 (amended): target resolution fails, with [invalid grant options],
    when no top-level branch is populated, and then [Create] and [Delete]
    return that error with nothing sent and [Update] sends neither a grant
    nor a revoke; when at least one branch is populated (a populated
    [on_schema_object] block being as the schema requires) it returns
    exactly one target: the database if [on_database] is set, else the
    schema if [on_schema] is populated, else the schema object.  Two or more
    populated branches are not rejected by target resolution. *)
Theorem C9_target_resolution
    R ObjectTypeDatabase ObjectTypeSchema Singular d privileges
    allPrivileges resourceID :
  (populated_branches d = 0 ->
   configureDatabaseRoleGrantPrivilegeOptions d privileges allPrivileges
     resourceID
   = Err (OtherError "invalid grant options") /\
   (forall log,
      CreateGrantPrivilegesToDatabaseRole R ObjectTypeDatabase
        ObjectTypeSchema Singular d log
      = (Err (Wrapped configure_error (OtherError "invalid grant options")),
         d, log)) /\
   (forall log,
      DeleteGrantPrivilegesToDatabaseRole R d log
      = (Err (Wrapped configure_error (OtherError "invalid grant options")),
         d, log)) /\
   (forall log, exists ext,
      log_of (UpdateGrantPrivilegesToDatabaseRole R ObjectTypeDatabase
                ObjectTypeSchema Singular d log) = log ++ ext /\
      Forall (fun r => is_grant r = false /\ is_revoke r = false) ext)) /\
  (1 <= populated_branches d ->
   (on_database d = false -> on_schema d = [] ->
    forall m rest, on_schema_object d = m :: rest ->
                   object_block_ok m = true) ->
   exists privilegesToGrant on resourceID',
     configureDatabaseRoleGrantPrivilegeOptions d privileges allPrivileges
       resourceID
     = Ok (privilegesToGrant, on, resourceID') /\
     targets on = 1 /\
     (on_database d = true -> sdk.On_Database on <> None) /\
     (on_database d = false -> on_schema d <> [] ->
      sdk.On_Schema on <> None) /\
     (on_database d = false -> on_schema d = [] ->
      sdk.On_SchemaObject on <> None)).
Proof.
  split.
  - intros Hpop. split; [now apply resolution_without_branch|].
    split; [|split].
    + intros log.
      unfold CreateGrantPrivilegesToDatabaseRole, bind, get, configure.
      simpl. now rewrite resolution_without_branch.
    + intros log.
      unfold DeleteGrantPrivilegesToDatabaseRole, bind, get, configure.
      simpl. now rewrite resolution_without_branch.
    + now apply Update_without_branch.
  - apply resolution_with_branch.
Qed.

(** No branch: [Create] fails before anything is sent.  Two branches: the
    database is the one target. *)
Lemma C9_target_resolution_witness :
  CreateGrantPrivilegesToDatabaseRole quiet_remote "DATABASE" "SCHEMA"
    (fun plural => plural) no_branch_config []
  = (Err (Wrapped configure_error (OtherError "invalid grant options")),
     no_branch_config, []) /\
  exists privilegesToGrant on resourceID',
    configureDatabaseRoleGrantPrivilegeOptions two_branches_config ["USAGE"]
      false zeroID
    = Ok (privilegesToGrant, on, resourceID') /\
    targets on = 1.
Proof.
  split.
  - apply (proj1 (C9_target_resolution quiet_remote "DATABASE" "SCHEMA"
                    (fun plural => plural) no_branch_config ["USAGE"] false
                    zeroID)).
    reflexivity.
  - destruct (proj2 (C9_target_resolution quiet_remote "DATABASE" "SCHEMA"
                       (fun plural => plural) two_branches_config ["USAGE"]
                       false zeroID))
      as (p & on & rid & Hok & Htargets & _).
    + vm_compute. lia.
    + intros Hdb. discriminate Hdb.
    + exists p, on, rid. split; [exact Hok|exact Htargets].
Defined.

(** ** The order of grants and revokes in an update *)

Lemma Set_Equal_add_nil old new :
  Set_Equal old new = true -> addPrivileges_of old new = [].
Proof.
  unfold Set_Equal. intros [_ H]%andb_true_iff.
  rewrite addPrivileges_filter.
  induction new as [|p rest IH]; [reflexivity|].
  simpl in *. apply andb_true_iff in H as [Hp Hrest].
  rewrite Hp. simpl. now apply IH.
Qed.

Section UpdateOrder.

Variable R : Remote.

Lemma grantDatabaseRoleToRole_emits {D} database role1 role2 :
  emits (fun r => is_revoke r = false)
    (RoleGrants.grantDatabaseRoleToRole R database role1 role2 : M D unit).
Proof.
  unfold RoleGrants.grantDatabaseRoleToRole.
  apply emits_bind; [now apply emits_send|]. intros err. apply emits_check.
Qed.

Lemma grantDatabaseRoleToUser_emits {D} database role1 user :
  emits (fun r => is_revoke r = false)
    (RoleGrants.grantDatabaseRoleToUser R database role1 user : M D unit).
Proof.
  unfold RoleGrants.grantDatabaseRoleToUser.
  apply emits_bind; [now apply emits_send|]. intros err. apply emits_check.
Qed.

Lemma revokeDatabaseRoleFromRole_emits {D} database role1 role2 :
  emits (fun r => is_grant r = false)
    (RoleGrants.revokeDatabaseRoleFromRole R database role1 role2 : M D unit).
Proof.
  unfold RoleGrants.revokeDatabaseRoleFromRole.
  apply emits_bind; [now apply emits_send|]. intros [[n| | |]|];
    try apply emits_check.
  destruct (Z.eqb n 2003); [|apply emits_check].
  apply emits_bind; [now apply emits_send|]. intros names.
  destruct (negb _); [apply emits_ret|apply emits_check].
Qed.

Lemma revokeDatabaseRoleFromUser_emits {D} database role1 user :
  emits (fun r => is_grant r = false)
    (RoleGrants.revokeDatabaseRoleFromUser R database role1 user : M D unit).
Proof.
  unfold RoleGrants.revokeDatabaseRoleFromUser.
  apply emits_bind; [now apply emits_send|]. intros [[n| | |]|];
    try apply emits_check.
  destruct (Z.eqb n 2003); [|apply emits_check].
  apply emits_bind; [now apply emits_send|]. intros names.
  destruct (negb _); [apply emits_ret|apply emits_check].
Qed.

(** The closure [x] revokes, then grants. *)
Lemma x_two_phase databaseName roleName d resource grant revoke :
  (forall a b c, emits (fun r => is_grant r = false) (revoke a b c)) ->
  (forall a b c, emits (fun r => is_revoke r = false) (grant a b c)) ->
  two_phase (fun r => is_grant r = false) (fun r => is_revoke r = false)
    (RoleGrants.x databaseName roleName d resource grant revoke).
Proof.
  intros Hrevoke Hgrant. unfold RoleGrants.x.
  destruct (RoleGrants.GetChange d resource) as [os ns].
  apply two_phase_bind_first.
  - apply emits_for_each. intros user. apply Hrevoke.
  - intros _. apply two_phase_second, emits_for_each.
    intros user. apply Hgrant.
Qed.

End UpdateOrder.

Lemma two_phase_issued_before {D A} (X Y : request -> bool) (m : M D A) :
  two_phase (fun r => Y r = false) (fun r => X r = false) m ->
  forall d log, exists ext,
    log_of (m d log) = log ++ ext /\ issued_before X Y ext.
Proof.
  intros Hm d log. destruct (Hm d log) as (e1 & e2 & Hlog & H1 & H2).
  exists (e1 ++ e2). split; [exact Hlog|]. now apply issued_before_app.
Qed.

(** C3 (as the claim has it, refuted): the update of a privilege grant that
    replaces [MONITOR] by [USAGE] computes the add set [USAGE] and the
    remove set [MONITOR] and sends the grant first, the revoke second. *)
Lemma C3_update_grants_first :
  addPrivileges_of ["MONITOR"] ["USAGE"] = ["USAGE"] /\
  removePrivileges_of ["MONITOR"] ["USAGE"] = ["MONITOR"] /\
  (exists grant revoke show,
     log_of (UpdateGrantPrivilegesToDatabaseRole quiet_remote "DATABASE"
               "SCHEMA" (fun plural => plural) replace_privilege_data [])
     = [grant; revoke; show] /\
     is_grant grant = true /\ is_revoke revoke = true) /\
  ~ (addPrivileges_of ["MONITOR"] ["USAGE"] <> [] ->
     removePrivileges_of ["MONITOR"] ["USAGE"] <> [] ->
     issued_before is_revoke is_grant
       (log_of (UpdateGrantPrivilegesToDatabaseRole quiet_remote "DATABASE"
                  "SCHEMA" (fun plural => plural) replace_privilege_data []))).
Proof.
  split; [reflexivity|]. split; [reflexivity|]. split.
  - do 3 eexists. split; [vm_compute; reflexivity|]. split; reflexivity.
  - intros H.
    specialize (H ltac:(discriminate) ltac:(discriminate)).
    generalize (H 1 0). vm_compute. intros H10.
    specialize (H10 _ _ eq_refl eq_refl eq_refl eq_refl).
    inversion H10.
Qed.

Section PrivilegeUpdateOrder.

Variable R : Remote.
Variable ObjectTypeDatabase ObjectTypeSchema : sdk.ObjectType.
Variable Singular : string -> sdk.ObjectType.

(** When both sets are non-empty, the target resolves and the remote system
    accepts the grant, the update opens with the grant of the add set
    followed by the revoke of the remove set. *)
Lemma Update_grant_then_revoke d log pg on rid pr on' rid' :
  let add := addPrivileges_of (privileges_state d) (privileges d) in
  let remove := removePrivileges_of (privileges_state d) (privileges d) in
  let roleID := sdk.NewDatabaseObjectIdentifier (database_name d)
                  (role_name d) in
  add <> [] -> remove <> [] ->
  configureDatabaseRoleGrantPrivilegeOptions d add false zeroID
  = Ok (pg, on, rid) ->
  configureDatabaseRoleGrantPrivilegeOptions d remove false zeroID
  = Ok (pr, on', rid') ->
  exec_error R log (GrantPrivilegesToDatabaseRole pg on roleID None) = None ->
  exists rest,
    log_of (UpdateGrantPrivilegesToDatabaseRole R ObjectTypeDatabase
              ObjectTypeSchema Singular d log)
    = log ++ [GrantPrivilegesToDatabaseRole pg on roleID None;
              RevokePrivilegesFromDatabaseRole pr on' roleID] ++ rest.
Proof.
  intros add remove roleID Hadd Hremove Hcadd Hcremove Hexec.
  assert (Hchange : Set_Equal (privileges_state d) (privileges d) = false).
  { destruct (Set_Equal _ _) eqn:E; [|reflexivity].
    apply Set_Equal_add_nil in E. contradiction. }
  assert (Ha : Nat.ltb 0 (length add) = true)
    by (destruct add; [contradiction|reflexivity]).
  assert (Hr : Nat.ltb 0 (length remove) = true)
    by (destruct remove; [contradiction|reflexivity]).
  set (tail :=
         ReadGrantPrivilegesToDatabaseRole R ObjectTypeDatabase
           ObjectTypeSchema Singular).
  assert (Htail : emits (fun _ => True) tail)
    by (apply Read_emits; intros; exact I).
  subst add remove roleID.
  unfold UpdateGrantPrivilegesToDatabaseRole, get.
  fold tail.
  unfold bind at 1. rewrite Hchange. cbn [negb]. rewrite Ha, Hr.
  unfold configure. rewrite Hcadd, Hcremove.
  unfold bind, send, ret, check_wrap. rewrite Hexec.
  unfold ret. cbv beta iota.
  match goal with
  | |- context [exec_error R ?l ?v] => destruct (exec_error R l v) as [e|]
  end.
  { exists []. unfold log_of, fail. simpl. now rewrite <- app_assoc. }
  destruct (NewGrantPrivilegesToDatabaseRoleID (Id d)) as [id|].
  2:{ exists []. unfold log_of, panic. simpl. now rewrite <- app_assoc. }
  unfold modify.
  match goal with
  | |- context [tail ?d' ?l'] =>
      destruct (Htail d' l') as (ext & Hlog & _);
      unfold log_of in Hlog |- *; destruct (tail d' l') as [[r d''] l''];
      simpl in Hlog |- *
  end.
  exists ext. destruct r; simpl; subst l''; now rewrite <- !app_assoc.
Qed.

End PrivilegeUpdateOrder.

(** C3 (amended): in the update of a privilege grant no revoke is sent
    before a grant, and when both the add set and the remove set are
    non-empty (the target resolving, the grant accepted) the grant of the add
    set is sent first and the revoke of the remove set second; in the update
    of the role grants, for the attribute [users] and for the attribute
    [roles] taken each on its own, every revoke is sent before any grant. *)
Theorem C3_update_order R ObjectTypeDatabase ObjectTypeSchema Singular :
  (forall d log, exists ext,
     log_of (UpdateGrantPrivilegesToDatabaseRole R ObjectTypeDatabase
               ObjectTypeSchema Singular d log) = log ++ ext /\
     issued_before is_grant is_revoke ext) /\
  (forall d log pg on rid pr on' rid',
     let add := addPrivileges_of (privileges_state d) (privileges d) in
     let remove := removePrivileges_of (privileges_state d) (privileges d) in
     let roleID := sdk.NewDatabaseObjectIdentifier (database_name d)
                     (role_name d) in
     add <> [] -> remove <> [] ->
     configureDatabaseRoleGrantPrivilegeOptions d add false zeroID
     = Ok (pg, on, rid) ->
     configureDatabaseRoleGrantPrivilegeOptions d remove false zeroID
     = Ok (pr, on', rid') ->
     exec_error R log (GrantPrivilegesToDatabaseRole pg on roleID None)
     = None ->
     exists rest,
       log_of (UpdateGrantPrivilegesToDatabaseRole R ObjectTypeDatabase
                 ObjectTypeSchema Singular d log)
       = log ++ [GrantPrivilegesToDatabaseRole pg on roleID None;
                 RevokePrivilegesFromDatabaseRole pr on' roleID] ++ rest) /\
  (forall databaseName roleName d d0 log, exists ext,
     log_of (RoleGrants.x databaseName roleName d RoleGrants.res_users
               (RoleGrants.grantDatabaseRoleToUser R)
               (RoleGrants.revokeDatabaseRoleFromUser R) d0 log)
     = log ++ ext /\
     issued_before is_revoke is_grant ext) /\
  (forall databaseName roleName d d0 log, exists ext,
     log_of (RoleGrants.x databaseName roleName d RoleGrants.res_roles
               (RoleGrants.grantDatabaseRoleToRole R)
               (RoleGrants.revokeDatabaseRoleFromRole R) d0 log)
     = log ++ ext /\
     issued_before is_revoke is_grant ext).
Proof.
  split; [|split; [|split]].
  - apply two_phase_issued_before, Update_two_phase.
  - intros. now apply Update_grant_then_revoke with (rid := rid) (rid' := rid').
  - intros databaseName roleName d.
    apply two_phase_issued_before, x_two_phase.
    + intros. apply revokeDatabaseRoleFromUser_emits.
    + intros. apply grantDatabaseRoleToUser_emits.
  - intros databaseName roleName d.
    apply two_phase_issued_before, x_two_phase.
    + intros. apply revokeDatabaseRoleFromRole_emits.
    + intros. apply grantDatabaseRoleToRole_emits.
Qed.

(** The update that replaces [MONITOR] by [USAGE] sends the grant of
    [USAGE], then the revoke of [MONITOR]; the update of the role grants
    that replaces user [U1] by [U2] revokes from [U1], then grants to
    [U2]. *)
Lemma C3_update_order_witness :
  (exists rest,
     log_of (UpdateGrantPrivilegesToDatabaseRole quiet_remote "DATABASE"
               "SCHEMA" (fun plural => plural) replace_privilege_data [])
     = [GrantPrivilegesToDatabaseRole
          (setDatabaseRolePrivilegeOptions ["USAGE"] false true false false)
          {| sdk.On_Database :=
               Some (sdk.NewAccountObjectIdentifierFromFullyQualifiedName "");
             sdk.On_Schema := None; sdk.On_SchemaObject := None |}
          (sdk.NewDatabaseObjectIdentifier "DB1" "R1") None;
        RevokePrivilegesFromDatabaseRole
          (setDatabaseRolePrivilegeOptions ["MONITOR"] false true false false)
          {| sdk.On_Database :=
               Some (sdk.NewAccountObjectIdentifierFromFullyQualifiedName "");
             sdk.On_Schema := None; sdk.On_SchemaObject := None |}
          (sdk.NewDatabaseObjectIdentifier "DB1" "R1")] ++ rest) /\
  log_of (RoleGrants.x "DB1" "R1" replace_user_data RoleGrants.res_users
            (RoleGrants.grantDatabaseRoleToUser quiet_remote)
            (RoleGrants.revokeDatabaseRoleFromUser quiet_remote)
            replace_user_data [])
  = [Exec (snowflake.Revoke
             (snowflake.User (snowflake.DatabaseRoleGrant "DB1" "R1") "U1"));
     Exec (snowflake.Grant
             (snowflake.User (snowflake.DatabaseRoleGrant "DB1" "R1") "U2"))].
Proof.
  split; [|reflexivity].
  apply (proj1 (proj2 (C3_update_order quiet_remote "DATABASE" "SCHEMA"
                         (fun plural => plural)))
           replace_privilege_data [] _ _
           (set_OnDatabase zeroID true) _ _ (set_OnDatabase zeroID true)).
  - vm_compute. discriminate.
  - vm_compute. discriminate.
  - reflexivity.
  - reflexivity.
  - reflexivity.
Defined.

(** * Further properties of the code *)

(** ** The identifier codec, continued *)

(** The segments of a split hold no separator. *)
Lemma Split_segments_free s sep :
  Forall (fun e => strings.Count e sep = 0) (strings.Split s sep).
Proof.
  induction s as [|c rest IH]; simpl; [repeat constructor|].
  destruct (Ascii.eqb c sep) eqn:E; [now constructor|].
  destruct (strings.Split rest sep) as [|seg segs]; [repeat constructor; simpl; now rewrite E|].
  inversion IH as [|? ? Hseg Hsegs]; subst.
  constructor; [simpl; now rewrite E|exact Hsegs].
Qed.

(** Splitting on one byte keeps the segments free of another byte the
    string is free of. *)
Lemma Split_keeps_free s sep c :
  strings.Count s c = 0 ->
  Forall (fun e => strings.Count e c = 0) (strings.Split s sep).
Proof.
  induction s as [|a rest IH]; simpl; [repeat constructor|].
  intros H.
  assert (Ha : Ascii.eqb a c = false /\ strings.Count rest c = 0)
    by (destruct (Ascii.eqb a c); [discriminate|now split]).
  destruct Ha as [Ha Hrest]. specialize (IH Hrest).
  destruct (Ascii.eqb a sep); [now constructor|].
  destruct (strings.Split rest sep) as [|seg segs];
    [repeat constructor; simpl; now rewrite Ha|].
  inversion IH as [|? ? Hseg Hsegs]; subst.
  constructor; [simpl; now rewrite Ha|exact Hsegs].
Qed.

Lemma decoded_privileges_valid segment :
  pipe_free segment ->
  Forall (fun p => pipe_free p /\ strings.Count p "," = 0)
    (decoded_privileges segment) /\
  decoded_privileges segment <> [EmptyString].
Proof.
  intros Hfree. unfold decoded_privileges.
  destruct (String.eqb_spec segment "") as [->|Hne];
    [split; [constructor|discriminate]|].
  split.
  - apply Forall_and. split.
    + now apply Split_keeps_free.
    + apply Split_segments_free.
  - intros H. now apply Split_single_empty in H.
Qed.

(** Whatever string it was read from, a decoded identifier is valid. *)
Lemma decoded_valid s id :
  NewGrantPrivilegesToDatabaseRoleID s = Some id -> valid_id id.
Proof.
  unfold NewGrantPrivilegesToDatabaseRoleID. intros H.
  pose proof (Split_segments_free s "|") as Hfree.
  rewrite Forall_lookup in Hfree.
  repeat match type of H with
         | mbind _ (?l !! ?i) = Some _ =>
             let E := fresh "E" in
             destruct (l !! i) eqn:E; cbn [mbind option_bind] in H;
             [apply Hfree in E|discriminate]
         end.
  rewrite decode_privileges_segment in H.
  injection H as <-.
  match goal with
  | Hp : strings.Count ?p "|" = 0 |- context [decoded_privileges ?p] =>
      destruct (decoded_privileges_valid p Hp) as [Hps Hblank]
  end.
  split; simpl; assumption.
Qed.

Lemma valid_set_Privileges id ps :
  valid_id id ->
  Forall (fun p => pipe_free p /\ strings.Count p "," = 0) ps ->
  ps <> [EmptyString] ->
  valid_id (set_Privileges id ps).
Proof. intros [] Hps Hblank. split; simpl; assumption. Qed.

(** The join of [n] segments holds at least [n - 1] separators. *)
Lemma Count_Join_ge (elems : list string) sep :
  length elems - 1
  <= strings.Count (strings.Join elems (String sep "")) sep.
Proof.
  induction elems as [|e rest IH]; [simpl; lia|].
  destruct rest as [|e' rest']; [simpl; lia|].
  change (strings.Join (e :: e' :: rest') (String sep ""))
    with (e +:+ String sep "" +:+ strings.Join (e' :: rest') (String sep "")).
  rewrite !Count_app. simpl strings.Count at 2. rewrite Ascii.eqb_refl.
  simpl in *. lia.
Qed.

(** X1: a valid identifier decodes from its string with every field but
    [InDatabase] unchanged, and unchanged altogether when its [InDatabase]
    is false. *)
Theorem X1_round_trip_of_valid_identifiers x :
  valid_id x ->
  NewGrantPrivilegesToDatabaseRoleID (ID_String x)
  = Some (set_InDatabase x false) /\
  (InDatabase x = false ->
   NewGrantPrivilegesToDatabaseRoleID (ID_String x) = Some x).
Proof.
  intros Hv. split; [now apply decode_encode|].
  now apply decode_encode_without_InDatabase.
Qed.

Lemma X1_round_trip_of_valid_identifiers_witness :
  NewGrantPrivilegesToDatabaseRoleID (ID_String on_database_id)
  = Some on_database_id.
Proof.
  refine (proj2 (X1_round_trip_of_valid_identifiers on_database_id _) _).
  - split; try reflexivity; try discriminate. repeat constructor.
  - reflexivity.
Defined.

(** X2: the decoder never panics on a string [String()] wrote, whatever the
    fields hold, delimiters included. *)
Theorem X2_encoded_identifier_always_decodes
    (v : GrantPrivilegesToDatabaseRoleID) :
  is_Some (NewGrantPrivilegesToDatabaseRoleID (ID_String v)).
Proof.
  apply decoder_returns_iff_15_segments.
  rewrite Split_length, ID_String_segments.
  match goal with
  | |- context [strings.Join ?l "|"] =>
      pose proof (Count_Join_ge l "|"%char) as H
  end.
  simpl length in H. lia.
Qed.

(** X3: an identifier that was decoded from any string survives the round
    trip as it is, and so does the identifier [Update] writes back, the
    decoded one with its privileges replaced by privileges that are free
    of the two delimiters and are not the single empty privilege. *)
Theorem X3_decoded_identifier_is_stable s id :
  NewGrantPrivilegesToDatabaseRoleID s = Some id ->
  NewGrantPrivilegesToDatabaseRoleID (ID_String id) = Some id /\
  (forall ps,
     Forall (fun p => pipe_free p /\ strings.Count p "," = 0) ps ->
     ps <> [EmptyString] ->
     NewGrantPrivilegesToDatabaseRoleID (ID_String (set_Privileges id ps))
     = Some (set_Privileges id ps)).
Proof.
  intros Hs.
  pose proof (decoded_valid _ _ Hs) as Hv.
  pose proof (decoded_InDatabase _ _ Hs) as Hd.
  split.
  - now apply decode_encode_without_InDatabase.
  - intros ps Hps Hblank. apply decode_encode_without_InDatabase.
    + now apply valid_set_Privileges.
    + exact Hd.
Qed.

(** An identifier with a sixteenth segment decodes, and what it decodes to
    is stable though its string is not the input. *)
Lemma X3_decoded_identifier_is_stable_witness :
  exists id,
    NewGrantPrivilegesToDatabaseRoleID
      "R1|DB1|USAGE|false|false|true|false|false|false|false||||false||true"
    = Some id /\
    NewGrantPrivilegesToDatabaseRoleID (ID_String id) = Some id /\
    NewGrantPrivilegesToDatabaseRoleID
      (ID_String (set_Privileges id ["MONITOR"; "USAGE"]))
    = Some (set_Privileges id ["MONITOR"; "USAGE"]).
Proof.
  eexists. split; [vm_compute; reflexivity|].
  match goal with
  | |- NewGrantPrivilegesToDatabaseRoleID (ID_String ?id) = _ /\ _ =>
      destruct (X3_decoded_identifier_is_stable
                  "R1|DB1|USAGE|false|false|true|false|false|false|false||||false||true"
                  id) as [H1 H2]; [vm_compute; reflexivity|]
  end.
  split; [exact H1|]. apply H2; [|discriminate].
  repeat constructor.
Defined.

(** ** Target resolution, continued *)

Lemma fold_append_all {A} (l acc : list A) :
  fold_left (fun acc a => acc ++ [a]) l acc = acc ++ l.
Proof.
  revert acc. induction l as [|a rest IH]; intros acc; simpl.
  - now rewrite app_nil_r.
  - rewrite IH. now rewrite <- app_assoc.
Qed.

(** [setDatabaseRolePrivilegeOptions] as [configure...] calls it, with one
    of the three flags set. *)
Lemma setDatabaseRolePrivilegeOptions_routes privileges allPrivileges
    onDatabase onSchema onSchemaObject :
  onDatabase || onSchema || onSchemaObject = true ->
  exists g,
    setDatabaseRolePrivilegeOptions privileges allPrivileges onDatabase
      onSchema onSchemaObject = Some g /\
    (allPrivileges = true ->
     sdk.AllPrivileges g = Some true /\ sdk.DatabasePrivileges g = [] /\
     sdk.SchemaPrivileges g = [] /\ sdk.SchemaObjectPrivileges g = []) /\
    (allPrivileges = false ->
     sdk.AllPrivileges g = None /\
     sdk.DatabasePrivileges g = (if onDatabase then privileges else []) /\
     sdk.SchemaPrivileges g
     = (if negb onDatabase && onSchema then privileges else []) /\
     sdk.SchemaObjectPrivileges g
     = (if negb onDatabase && negb onSchema then privileges else [])).
Proof.
  unfold setDatabaseRolePrivilegeOptions. rewrite fold_append_all. simpl.
  destruct allPrivileges, onDatabase, onSchema, onSchemaObject;
    try discriminate; intros _; eexists; (split; [reflexivity|]);
    split; intros H; try discriminate H; simpl; repeat split.
Qed.

Lemma configure_in_frame b rid i rid' :
  configure_in b rid = Ok (i, rid') ->
  same_grant rid' rid /\ same_flags rid' rid.
Proof.
  unfold configure_in. destruct (object_type_plural b); [|discriminate].
  intros H. injection H as _ <-.
  destruct (is_set (in_database b)), (nonempty (in_schema b));
    repeat split.
Qed.

Lemma configure_in_block_frame block mark rid i rid' :
  (forall r, same_grant (mark r) r /\ same_flags (mark r) r) ->
  configure_in_block block mark rid = Ok (i, rid') ->
  same_grant rid' rid /\ same_flags rid' rid.
Proof.
  intros Hmark. unfold configure_in_block.
  destruct (first_block block) as [b|].
  - destruct (configure_in b (mark rid)) as [[i0 r0]| |] eqn:E;
      simpl; try discriminate.
    intros H. injection H as _ <-.
    apply configure_in_frame in E as [[? (? & ? & ? & ?)] (? & ? & ?)].
    destruct (Hmark rid) as [[? (? & ? & ? & ?)] (? & ? & ?)].
    repeat split; congruence.
  - intros H. injection H as _ <-. repeat split.
Qed.

Lemma configure_object_frame m rid object rid' :
  configure_object m rid = Ok (object, rid') ->
  same_grant rid' rid /\ same_flags rid' rid.
Proof.
  unfold configure_object.
  destruct (nonempty (object_name m)), (nonempty (object_type m));
    try discriminate; intros H; injection H as _ <-; repeat split.
Qed.

(** What target resolution does to the identifier behind its pointer. *)
Lemma resolution_frame d privileges allPrivileges rid pg on rid' :
  configureDatabaseRoleGrantPrivilegeOptions d privileges allPrivileges rid
  = Ok (pg, on, rid') ->
  same_grant rid' rid /\
  OnDatabase rid' = OnDatabase rid || is_some (sdk.On_Database on) /\
  OnSchema rid' = OnSchema rid || is_some (sdk.On_Schema on) /\
  OnSchemaObject rid' = OnSchemaObject rid || is_some (sdk.On_SchemaObject on).
Proof.
  unfold configureDatabaseRoleGrantPrivilegeOptions.
  destruct (on_database d).
  { intros H. injection H as _ <- <-. simpl.
    rewrite !orb_false_r, orb_true_r. repeat split. }
  destruct (on_schema d) as [|onSchema ?].
  2:{ intros H. injection H as _ <- <-. simpl.
      rewrite !orb_false_r, orb_true_r.
      destruct (nonempty (schema_name onSchema)),
        (is_set (all_schemas onSchema)), (is_set (future_schemas onSchema));
        repeat split. }
  destruct (on_schema_object d) as [|m rest]; [discriminate|].
  destruct (configure_object m (set_OnSchemaObject rid true))
    as [[object rid1]| |] eqn:E1; simpl; try discriminate.
  destruct (configure_in_block (all m) (fun r => set_All r true) rid1)
    as [[onAll rid2]| |] eqn:E2; simpl; try discriminate.
  destruct (configure_in_block (future m) (fun r => set_Future r true) rid2)
    as [[onFuture rid3]| |] eqn:E3; simpl; try discriminate.
  intros H. injection H as _ <- <-. simpl.
  apply configure_object_frame in E1 as [[? (? & ? & ? & ?)] (? & ? & ?)].
  apply configure_in_block_frame in E2 as [[? (? & ? & ? & ?)] (? & ? & ?)];
    [|intros r; repeat split].
  apply configure_in_block_frame in E3 as [[? (? & ? & ? & ?)] (? & ? & ?)];
    [|intros r; repeat split].
  simpl in *. rewrite !orb_false_r, orb_true_r.
  repeat split; congruence.
Qed.

(** Whatever resolution returns points to a single target. *)
Lemma resolution_single_target d privileges allPrivileges rid pg on rid' :
  configureDatabaseRoleGrantPrivilegeOptions d privileges allPrivileges rid
  = Ok (pg, on, rid') ->
  targets on = 1 /\
  pg = setDatabaseRolePrivilegeOptions privileges allPrivileges
         (is_some (sdk.On_Database on)) (is_some (sdk.On_Schema on))
         (is_some (sdk.On_SchemaObject on)).
Proof.
  unfold configureDatabaseRoleGrantPrivilegeOptions.
  destruct (on_database d).
  { intros H. injection H as <- <- _. split; reflexivity. }
  destruct (on_schema d) as [|onSchema ?].
  2:{ intros H. injection H as <- <- _. split; reflexivity. }
  destruct (on_schema_object d) as [|m rest]; [discriminate|].
  destruct (configure_object m (set_OnSchemaObject rid true))
    as [[object rid1]| |]; simpl; try discriminate.
  destruct (configure_in_block (all m) (fun r => set_All r true) rid1)
    as [[onAll rid2]| |]; simpl; try discriminate.
  destruct (configure_in_block (future m) (fun r => set_Future r true) rid2)
    as [[onFuture rid3]| |]; simpl; try discriminate.
  intros H. injection H as <- <- _. split; reflexivity.
Qed.

(** X4: when target resolution succeeds the privileges it returns are never
    the nil pointer and fit the one target it returns: with
    [all_privileges] they are the all-privileges marker and no list; without
    it the given privileges, in their order, fill the database list for a
    database target, the schema list for a schema target, the
    schema-object list for a schema-object target, and the two other lists
    are empty. *)
Theorem X4_privileges_fit_the_target d privileges allPrivileges rid pg on
    rid' :
  configureDatabaseRoleGrantPrivilegeOptions d privileges allPrivileges rid
  = Ok (pg, on, rid') ->
  exists g,
    pg = Some g /\ targets on = 1 /\
    (allPrivileges = true ->
     sdk.AllPrivileges g = Some true /\ sdk.DatabasePrivileges g = [] /\
     sdk.SchemaPrivileges g = [] /\ sdk.SchemaObjectPrivileges g = []) /\
    (allPrivileges = false ->
     sdk.AllPrivileges g = None /\
     sdk.DatabasePrivileges g
     = (if is_some (sdk.On_Database on) then privileges else []) /\
     sdk.SchemaPrivileges g
     = (if is_some (sdk.On_Schema on) then privileges else []) /\
     sdk.SchemaObjectPrivileges g
     = (if is_some (sdk.On_SchemaObject on) then privileges else [])).
Proof.
  intros H. apply resolution_single_target in H as [Htargets ->].
  unfold targets in Htargets.
  destruct (setDatabaseRolePrivilegeOptions_routes privileges allPrivileges
              (is_some (sdk.On_Database on)) (is_some (sdk.On_Schema on))
              (is_some (sdk.On_SchemaObject on)))
    as (g & Hg & Hall & Hlists).
  { destruct (sdk.On_Database on), (sdk.On_Schema on),
      (sdk.On_SchemaObject on); simpl in *; try reflexivity; lia. }
  exists g. split; [exact Hg|]. split; [exact Htargets|].
  split; [exact Hall|]. intros Hno. specialize (Hlists Hno).
  destruct (sdk.On_Database on), (sdk.On_Schema on),
    (sdk.On_SchemaObject on); simpl in *; try lia; exact Hlists.
Qed.

(** Two branches populated: the database wins and gets the privileges. *)
Lemma X4_privileges_fit_the_target_witness :
  exists g on rid',
    configureDatabaseRoleGrantPrivilegeOptions two_branches_config
      ["USAGE"; "MONITOR"] false zeroID = Ok (Some g, on, rid') /\
    sdk.DatabasePrivileges g = ["USAGE"; "MONITOR"] /\
    sdk.SchemaPrivileges g = [].
Proof.
  destruct (X4_privileges_fit_the_target two_branches_config
              ["USAGE"; "MONITOR"] false zeroID _ _ _ eq_refl)
    as (g & Hg & _ & _ & Hlists).
  specialize (Hlists eq_refl). destruct Hlists as (_ & Hdb & Hschema & _).
  exists g. do 2 eexists. split; [|split; [exact Hdb|exact Hschema]].
  injection Hg as <-. reflexivity.
Defined.

(** X5: target resolution leaves the role name, the database name, the
    privileges and the two options of the identifier as they were, and
    raises in it the flag of the target it returns and no other top-level
    flag. *)
Theorem X5_resolution_marks_the_identifier d privileges allPrivileges rid pg
    on rid' :
  configureDatabaseRoleGrantPrivilegeOptions d privileges allPrivileges rid
  = Ok (pg, on, rid') ->
  RoleName rid' = RoleName rid /\ DatabaseName rid' = DatabaseName rid /\
  Privileges rid' = Privileges rid /\
  AllPrivileges rid' = AllPrivileges rid /\
  WithGrantOption rid' = WithGrantOption rid /\
  OnDatabase rid' = OnDatabase rid || is_some (sdk.On_Database on) /\
  OnSchema rid' = OnSchema rid || is_some (sdk.On_Schema on) /\
  OnSchemaObject rid' = OnSchemaObject rid || is_some (sdk.On_SchemaObject on).
Proof.
  intros H. apply resolution_frame in H as [(? & ? & ? & ? & ?) (? & ? & ?)].
  repeat split; assumption.
Qed.

Lemma X5_resolution_marks_the_identifier_witness :
  exists pg on rid',
    configureDatabaseRoleGrantPrivilegeOptions all_schemas_config ["USAGE"]
      false (set_DatabaseName zeroID "DB1") = Ok (pg, on, rid') /\
    DatabaseName rid' = "DB1" /\ OnSchema rid' = true /\
    OnDatabase rid' = false.
Proof.
  do 3 eexists. split; [reflexivity|].
  pose proof (X5_resolution_marks_the_identifier all_schemas_config
                ["USAGE"] false (set_DatabaseName zeroID "DB1") _ _ _
                eq_refl) as (_ & Hdb & _ & _ & _ & Hondb & Hons & _).
  split; [exact Hdb|]. split; [exact Hons|exact Hondb].
Defined.

(** ** The callbacks of the privilege grant, continued *)

Lemma Set_Equal_spec (a b : list string) :
  Set_Equal a b = true <-> (forall p, p ∈ a <-> p ∈ b).
Proof.
  unfold Set_Equal. rewrite andb_true_iff, !forallb_forall.
  split.
  - intros [Hab Hba] p. rewrite <- !Contains_elem_of. split; intros Hp.
    + apply Hab. now apply list_elem_of_In, Contains_elem_of.
    + apply Hba. now apply list_elem_of_In, Contains_elem_of.
  - intros H. split; intros p Hp%list_elem_of_In;
      apply Contains_elem_of; now apply H.
Qed.

Section PrivilegeCallbacks.

Variable R : Remote.
Variable ObjectTypeDatabase ObjectTypeSchema : sdk.ObjectType.
Variable Singular : string -> sdk.ObjectType.

Local Abbreviation Read :=
  (ReadGrantPrivilegesToDatabaseRole R ObjectTypeDatabase ObjectTypeSchema
     Singular).
Local Abbreviation Update :=
  (UpdateGrantPrivilegesToDatabaseRole R ObjectTypeDatabase ObjectTypeSchema
     Singular).
Local Abbreviation Create :=
  (CreateGrantPrivilegesToDatabaseRole R ObjectTypeDatabase ObjectTypeSchema
     Singular).

(** What [Read] does, case by case. *)
Lemma Read_cases d log :
  Read d log = (Panic, d, log) \/
  Read d log = (Ok tt, d, log) \/
  exists id grantOn opts,
    NewGrantPrivilegesToDatabaseRoleID (Id d) = Some id /\
    Read d log = readDatabaseRoleGrantPrivileges R grantOn id opts d log.
Proof.
  unfold ReadGrantPrivilegesToDatabaseRole, bind, get. simpl.
  destruct (NewGrantPrivilegesToDatabaseRoleID (Id d)) as [id|];
    [|now left].
  destruct (AllPrivileges id); [right; now left|].
  match goal with
  | |- context [match ?t with Some _ => _ | None => _ end] =>
      destruct t as [[grantOn opts]|]
  end; [|right; now left].
  right. right. now exists id, grantOn, opts.
Qed.

Lemma Read_effects d log :
  Id (data_of (Read d log)) = Id d /\
  (result_of (Read d log) <> Ok tt -> data_of (Read d log) = d) /\
  exists ext,
    log_of (Read d log) = log ++ ext /\
    (ext = [] \/ exists opts, ext = [ShowGrants opts]).
Proof.
  destruct (Read_cases d log) as [->|[->|(id & grantOn & opts & _ & ->)]].
  - repeat split. exists []. rewrite app_nil_r. split; [reflexivity|now left].
  - repeat split. exists []. rewrite app_nil_r. split; [reflexivity|now left].
  - rewrite readDatabaseRoleGrantPrivileges_run.
    destruct (shown_grants R log (ShowGrants opts)) as [err|grants].
    + repeat split. exists [ShowGrants opts]. split; [reflexivity|].
      right. now exists opts.
    + split; [reflexivity|]. split; [intros H; now contradiction H|].
      exists [ShowGrants opts]. split; [reflexivity|].
      right. now exists opts.
Qed.

End PrivilegeCallbacks.

(** X6: [Read] never changes the identifier, leaves the whole resource data
    untouched whenever it does not return nil, and sends nothing to the
    remote system but at most one [Show] of grants. *)
Theorem X6_read_effects R ObjectTypeDatabase ObjectTypeSchema Singular d log :
  let run := ReadGrantPrivilegesToDatabaseRole R ObjectTypeDatabase
               ObjectTypeSchema Singular d log in
  Id (data_of run) = Id d /\
  (result_of run <> Ok tt -> data_of run = d) /\
  exists ext,
    log_of run = log ++ ext /\
    (ext = [] \/ exists opts, ext = [ShowGrants opts]).
Proof. apply Read_effects. Qed.

(** The [Show] fails: [Read] returns the error wrapped and the data are as
    before. *)
Lemma X6_read_effects_witness :
  let R := {| exec_error := fun _ _ => None;
              listed_names := fun _ _ => [];
              shown_grants := fun _ _ => inl (OtherError "timeout");
              shown_roles := fun _ _ => Scanned [] None;
              shown_role_grants := fun _ _ => inr [] |} in
  let d := on_database_data (ID_String on_database_id) in
  result_of (ReadGrantPrivilegesToDatabaseRole R "DATABASE" "SCHEMA"
               (fun plural => plural) d [])
  = Err (Wrapped "error retrieving grants for database role"
           (OtherError "timeout")) /\
  data_of (ReadGrantPrivilegesToDatabaseRole R "DATABASE" "SCHEMA"
             (fun plural => plural) d []) = d.
Proof.
  intros R d. split; [reflexivity|].
  apply (proj1 (proj2 (X6_read_effects R "DATABASE" "SCHEMA"
                         (fun plural => plural) d []))).
  discriminate.
Defined.

(** X7: for an identifier that is not all-privileges and has the [All]
    flag under [OnSchema] or under [OnSchemaObject] (a grant on all schemas
    or on all objects), [Read] returns nil without a request and without a
    change to the resource data. *)
Theorem X7_read_on_all_is_noop
    R ObjectTypeDatabase ObjectTypeSchema Singular d log id :
  NewGrantPrivilegesToDatabaseRoleID (Id d) = Some id ->
  All id = true ->
  OnSchema id = true \/ OnSchemaObject id = true ->
  ReadGrantPrivilegesToDatabaseRole R ObjectTypeDatabase ObjectTypeSchema
    Singular d log
  = (Ok tt, d, log).
Proof.
  intros Hid Hall Hon.
  unfold ReadGrantPrivilegesToDatabaseRole, bind, get. simpl.
  rewrite Hid. destruct (AllPrivileges id); [reflexivity|].
  unfold read_on_database, read_on_schema, read_on_schema_object.
  rewrite Hall.
  destruct (OnDatabase id), (OnSchema id) eqn:Es, (OnSchemaObject id) eqn:Eo;
    simpl; try reflexivity; destruct Hon; discriminate.
Qed.

Lemma X7_read_on_all_is_noop_witness :
  let d := on_database_data (ID_String all_schemas_id) in
  ReadGrantPrivilegesToDatabaseRole (remote_showing [database_row "USAGE"])
    "DATABASE" "SCHEMA" (fun plural => plural) d []
  = (Ok tt, d, []).
Proof.
  intros d.
  apply (X7_read_on_all_is_noop _ _ _ _ d [] (set_InDatabase all_schemas_id false)).
  - vm_compute. reflexivity.
  - reflexivity.
  - left. reflexivity.
Defined.

(** X8: for a future grant on schema objects (not all-privileges, not on a
    schema, without the [All] flag) [Read] asks for the future grants in the
    database of the identifier and compares the rows with the singular of
    the plural object type, whether the identifier says [InSchema] or not:
    the schema of the identifier plays no part in the query. *)
Theorem X8_read_future_objects_queries_the_database
    R ObjectTypeDatabase ObjectTypeSchema Singular d log id :
  NewGrantPrivilegesToDatabaseRoleID (Id d) = Some id ->
  AllPrivileges id = false -> OnSchema id = false ->
  OnSchemaObject id = true -> All id = false -> Future id = true ->
  ReadGrantPrivilegesToDatabaseRole R ObjectTypeDatabase ObjectTypeSchema
    Singular d log
  = readDatabaseRoleGrantPrivileges R (Singular (ObjectTypePlural id)) id
      {| sdk.SG_Future := Some true; sdk.SG_On := None;
         sdk.SG_In :=
           Some {| sdk.In_Schema := None;
                   sdk.In_Database :=
                     Some (sdk.NewAccountObjectIdentifierFromFullyQualifiedName
                             (DatabaseName id)) |} |}
      d log.
Proof.
  intros Hid Hall Hs Ho Ha Hf.
  unfold ReadGrantPrivilegesToDatabaseRole, bind, get. simpl.
  rewrite Hid, Hall.
  unfold read_on_database, read_on_schema, read_on_schema_object.
  rewrite Hs, Ho, Ha, Hf.
  destruct (OnDatabase id); reflexivity.
Qed.

(** The identifier says [InSchema] with schema [S1]; the request is for the
    future grants in database [DB1]. *)
Lemma X8_read_future_objects_queries_the_database_witness :
  log_of (ReadGrantPrivilegesToDatabaseRole quiet_remote "DATABASE" "SCHEMA"
            (fun plural => plural) future_tables_data [])
  = [ShowGrants
       {| sdk.SG_Future := Some true; sdk.SG_On := None;
          sdk.SG_In :=
            Some {| sdk.In_Schema := None;
                    sdk.In_Database :=
                      Some (sdk.NewAccountObjectIdentifierFromFullyQualifiedName
                              "DB1") |} |}].
Proof.
  rewrite (X8_read_future_objects_queries_the_database quiet_remote
             "DATABASE" "SCHEMA" (fun plural => plural) future_tables_data
             [] future_tables_id);
    [reflexivity|vm_compute; reflexivity|reflexivity..].
Defined.

Section PrivilegeLifecycle.

Variable R : Remote.
Variable ObjectTypeDatabase ObjectTypeSchema : sdk.ObjectType.
Variable Singular : string -> sdk.ObjectType.

Local Abbreviation Read :=
  (ReadGrantPrivilegesToDatabaseRole R ObjectTypeDatabase ObjectTypeSchema
     Singular).
Local Abbreviation Update :=
  (UpdateGrantPrivilegesToDatabaseRole R ObjectTypeDatabase ObjectTypeSchema
     Singular).
Local Abbreviation Create :=
  (CreateGrantPrivilegesToDatabaseRole R ObjectTypeDatabase ObjectTypeSchema
     Singular).

(** [Create] once the target is resolved: the grant is sent; refused, its
    error comes back wrapped with the data untouched; accepted, the
    identifier is written and [Read] runs on it. *)
Lemma Create_run d log pg on rid' :
  configureDatabaseRoleGrantPrivilegeOptions d (privileges d)
    (all_privileges d)
    (set_DatabaseName
       (set_AllPrivileges (set_Privileges zeroID (privileges d))
          (all_privileges d)) (database_name d))
  = Ok (pg, on, rid') ->
  let G := GrantPrivilegesToDatabaseRole pg on
             (sdk.NewDatabaseObjectIdentifier (database_name d)
                (role_name d))
             (Some {| sdk.WithGrantOption := Some (with_grant_option d) |}) in
  let id := set_RoleName (set_WithGrantOption rid' (with_grant_option d))
              (role_name d) in
  Create d log
  = match exec_error R log G with
    | Some e =>
        (Err (Wrapped "error granting privileges to database role" e), d,
         log ++ [G])
    | None => Read (SetId (ID_String id) d) (log ++ [G])
    end.
Proof.
  intros Hconf G id.
  unfold CreateGrantPrivilegesToDatabaseRole, get. unfold bind at 1.
  unfold configure. rewrite Hconf. unfold bind at 1. unfold ret at 1.
  unfold bind at 1. unfold send. fold G.
  destruct (exec_error R log G) as [e|]; reflexivity.
Qed.

(** [Delete] once the target is resolved. *)
Lemma Delete_run d log pr on rid' :
  configureDatabaseRoleGrantPrivilegeOptions d (privileges d)
    (all_privileges d) zeroID
  = Ok (pr, on, rid') ->
  let V := RevokePrivilegesFromDatabaseRole pr on
             (sdk.NewDatabaseObjectIdentifier (database_name d)
                (role_name d)) in
  DeleteGrantPrivilegesToDatabaseRole R d log
  = match exec_error R log V with
    | Some e =>
        (Err (Wrapped "error revoking privileges from database role" e), d,
         log ++ [V])
    | None => (Ok tt, SetId "" d, log ++ [V])
    end.
Proof.
  intros Hconf V.
  unfold DeleteGrantPrivilegesToDatabaseRole, get. unfold bind at 1.
  unfold configure. rewrite Hconf. unfold bind at 1. unfold ret at 1.
  unfold bind at 1. unfold send. fold V.
  destruct (exec_error R log V) as [e|]; reflexivity.
Qed.

End PrivilegeLifecycle.

(** X9: [Create], once its target is resolved, sends the grant with the
    configured grant option.  If the remote system refuses it, [Create]
    returns that error wrapped and the resource data, identifier included,
    are untouched.  If it is accepted, the identifier written is the string
    of an identity whose role name, database name, privileges,
    all-privileges flag and grant option are the configured ones, and
    whatever follows is what [Read] sends. *)
Theorem X9_create_outcomes
    R ObjectTypeDatabase ObjectTypeSchema Singular d log pg on rid' :
  configureDatabaseRoleGrantPrivilegeOptions d (privileges d)
    (all_privileges d)
    (set_DatabaseName
       (set_AllPrivileges (set_Privileges zeroID (privileges d))
          (all_privileges d)) (database_name d))
  = Ok (pg, on, rid') ->
  let G := GrantPrivilegesToDatabaseRole pg on
             (sdk.NewDatabaseObjectIdentifier (database_name d)
                (role_name d))
             (Some {| sdk.WithGrantOption := Some (with_grant_option d) |}) in
  let run := CreateGrantPrivilegesToDatabaseRole R ObjectTypeDatabase
               ObjectTypeSchema Singular d log in
  (forall e, exec_error R log G = Some e ->
     run = (Err (Wrapped "error granting privileges to database role" e), d,
            log ++ [G])) /\
  (exec_error R log G = None ->
   exists id,
     Id (data_of run) = ID_String id /\
     RoleName id = role_name d /\ DatabaseName id = database_name d /\
     Privileges id = privileges d /\
     AllPrivileges id = all_privileges d /\
     WithGrantOption id = with_grant_option d /\
     exists ext, log_of run = log ++ G :: ext /\
                 (ext = [] \/ exists opts, ext = [ShowGrants opts])).
Proof.
  intros Hconf G run. unfold run.
  rewrite (Create_run R ObjectTypeDatabase ObjectTypeSchema Singular d log
             pg on rid' Hconf).
  fold G. split.
  - intros e ->. reflexivity.
  - intros ->.
    apply resolution_frame in Hconf
      as [(Hrole & Hdb & Hps & Hall & _) _].
    set (id := set_RoleName (set_WithGrantOption rid' (with_grant_option d))
                 (role_name d)).
    destruct (Read_effects R ObjectTypeDatabase ObjectTypeSchema Singular
                (SetId (ID_String id) d) (log ++ [G]))
      as (HId & _ & ext & Hlog & Hext).
    exists id. split; [exact HId|].
    repeat (split; [first [reflexivity|assumption]|]).
    exists ext. split; [|exact Hext].
    rewrite Hlog. now rewrite <- app_assoc.
Qed.

(** The grant on schema [S1] is refused: nothing is written.  It is
    accepted: the identifier names role [R1] and privilege [USAGE]. *)
Lemma X9_create_outcomes_witness :
  CreateGrantPrivilegesToDatabaseRole (refusing_remote (OtherError "denied"))
    "DATABASE" "SCHEMA" (fun plural => plural) on_schema_config []
  = (Err (Wrapped "error granting privileges to database role"
            (OtherError "denied")),
     on_schema_config,
     [GrantPrivilegesToDatabaseRole
        (setDatabaseRolePrivilegeOptions ["USAGE"] false false true false)
        {| sdk.On_Database := None;
           sdk.On_Schema :=
             Some {| sdk.Schema :=
                       Some (sdk.NewDatabaseObjectIdentifier "DB1" "S1");
                     sdk.AllSchemasInDatabase := None;
                     sdk.FutureSchemasInDatabase := None |};
           sdk.On_SchemaObject := None |}
        (sdk.NewDatabaseObjectIdentifier "DB1" "R1")
        (Some {| sdk.WithGrantOption := Some false |})]) /\
  exists id,
    Id (data_of (CreateGrantPrivilegesToDatabaseRole quiet_remote "DATABASE"
                   "SCHEMA" (fun plural => plural) on_schema_config []))
    = ID_String id /\
    RoleName id = "R1" /\ Privileges id = ["USAGE"].
Proof.
  split.
  - apply (proj1 (X9_create_outcomes (refusing_remote (OtherError "denied"))
                    "DATABASE" "SCHEMA" (fun plural => plural)
                    on_schema_config [] _ _ _ eq_refl)).
    reflexivity.
  - destruct (proj2 (X9_create_outcomes quiet_remote "DATABASE" "SCHEMA"
                       (fun plural => plural) on_schema_config [] _ _ _
                       eq_refl) eq_refl)
      as (id & HId & Hrole & _ & Hps & _).
    exists id. split; [exact HId|]. split; [exact Hrole|exact Hps].
Defined.

(** X10: [Delete], once its target is resolved, sends one revoke.  Accepted,
    the identifier is cleared and nil returned; refused, the error comes
    back wrapped and the resource data keep their identifier. *)
Theorem X10_delete_outcomes R d log pr on rid' :
  configureDatabaseRoleGrantPrivilegeOptions d (privileges d)
    (all_privileges d) zeroID
  = Ok (pr, on, rid') ->
  let V := RevokePrivilegesFromDatabaseRole pr on
             (sdk.NewDatabaseObjectIdentifier (database_name d)
                (role_name d)) in
  (exec_error R log V = None ->
   DeleteGrantPrivilegesToDatabaseRole R d log
   = (Ok tt, SetId "" d, log ++ [V])) /\
  (forall e, exec_error R log V = Some e ->
   DeleteGrantPrivilegesToDatabaseRole R d log
   = (Err (Wrapped "error revoking privileges from database role" e), d,
      log ++ [V])).
Proof.
  intros Hconf V. rewrite (Delete_run R d log pr on rid' Hconf). fold V.
  split; [intros ->; reflexivity|intros e ->; reflexivity].
Qed.

Lemma X10_delete_outcomes_witness :
  Id (data_of (DeleteGrantPrivilegesToDatabaseRole quiet_remote
                 (on_database_data (ID_String on_database_id)) [])) = "" /\
  data_of (DeleteGrantPrivilegesToDatabaseRole
             (refusing_remote (OtherError "denied"))
             (on_database_data (ID_String on_database_id)) [])
  = on_database_data (ID_String on_database_id).
Proof.
  split.
  - rewrite (proj1 (X10_delete_outcomes quiet_remote
                      (on_database_data (ID_String on_database_id)) []
                      _ _ _ eq_refl) eq_refl).
    reflexivity.
  - rewrite (proj2 (X10_delete_outcomes
                      (refusing_remote (OtherError "denied"))
                      (on_database_data (ID_String on_database_id)) []
                      _ _ _ eq_refl) (OtherError "denied") eq_refl).
    reflexivity.
Defined.

(** X11: for a configuration with [on_database] set, the grant that [Create]
    sends is on the database named by [database_name], while the revoke
    that [Delete] sends is on the account object identifier of the empty
    name: [Delete] resolves its target against a zero-valued identifier,
    whose database name is empty. *)
Theorem X11_delete_targets_the_empty_database_name
    R ObjectTypeDatabase ObjectTypeSchema Singular d log :
  on_database d = true ->
  (exists pg opts ext,
     log_of (CreateGrantPrivilegesToDatabaseRole R ObjectTypeDatabase
               ObjectTypeSchema Singular d log)
     = log ++
       GrantPrivilegesToDatabaseRole pg
         {| sdk.On_Database :=
              Some (sdk.NewAccountObjectIdentifierFromFullyQualifiedName
                      (database_name d));
            sdk.On_Schema := None; sdk.On_SchemaObject := None |}
         (sdk.NewDatabaseObjectIdentifier (database_name d) (role_name d))
         opts :: ext) /\
  (exists pr,
     log_of (DeleteGrantPrivilegesToDatabaseRole R d log)
     = log ++
       [RevokePrivilegesFromDatabaseRole pr
          {| sdk.On_Database :=
               Some (sdk.NewAccountObjectIdentifierFromFullyQualifiedName "");
             sdk.On_Schema := None; sdk.On_SchemaObject := None |}
          (sdk.NewDatabaseObjectIdentifier (database_name d)
             (role_name d))]).
Proof.
  intros Hdb. split.
  - assert (Hconf : exists pg rid',
              configureDatabaseRoleGrantPrivilegeOptions d (privileges d)
                (all_privileges d)
                (set_DatabaseName
                   (set_AllPrivileges (set_Privileges zeroID (privileges d))
                      (all_privileges d)) (database_name d))
              = Ok (pg,
                    {| sdk.On_Database :=
                         Some (sdk.NewAccountObjectIdentifierFromFullyQualifiedName
                                 (database_name d));
                       sdk.On_Schema := None; sdk.On_SchemaObject := None |},
                    rid')).
    { unfold configureDatabaseRoleGrantPrivilegeOptions. rewrite Hdb.
      do 2 eexists. reflexivity. }
    destruct Hconf as (pg & rid' & Hconf).
    rewrite (Create_run R ObjectTypeDatabase ObjectTypeSchema Singular d log
               _ _ _ Hconf).
    match goal with
    | |- context [exec_error R log ?G] =>
        destruct (exec_error R log G) as [e|]
    end.
    + do 2 eexists. exists []. reflexivity.
    + match goal with
      | |- context [ReadGrantPrivilegesToDatabaseRole _ _ _ _ ?d1 ?l1] =>
          destruct (Read_effects R ObjectTypeDatabase ObjectTypeSchema
                      Singular d1 l1) as (_ & _ & ext & Hlog & _)
      end.
      do 2 eexists. exists ext. rewrite Hlog. now rewrite <- app_assoc.
  - assert (Hconf : exists pr rid',
              configureDatabaseRoleGrantPrivilegeOptions d (privileges d)
                (all_privileges d) zeroID
              = Ok (pr,
                    {| sdk.On_Database :=
                         Some (sdk.NewAccountObjectIdentifierFromFullyQualifiedName
                                 "");
                       sdk.On_Schema := None; sdk.On_SchemaObject := None |},
                    rid')).
    { unfold configureDatabaseRoleGrantPrivilegeOptions. rewrite Hdb.
      do 2 eexists. reflexivity. }
    destruct Hconf as (pr & rid' & Hconf).
    rewrite (Delete_run R d log _ _ _ Hconf). exists pr.
    match goal with
    | |- context [exec_error R log ?V] =>
        destruct (exec_error R log V) as [e|]
    end; reflexivity.
Qed.

Lemma X11_delete_targets_the_empty_database_name_witness :
  exists pr,
    log_of (DeleteGrantPrivilegesToDatabaseRole quiet_remote
              (on_database_data (ID_String on_database_id)) [])
    = [RevokePrivilegesFromDatabaseRole pr
         {| sdk.On_Database :=
              Some (sdk.NewAccountObjectIdentifierFromFullyQualifiedName "");
            sdk.On_Schema := None; sdk.On_SchemaObject := None |}
         (sdk.NewDatabaseObjectIdentifier "DB1" "R1")].
Proof.
  exact (proj2 (X11_delete_targets_the_empty_database_name quiet_remote
                  "DATABASE" "SCHEMA" (fun plural => plural)
                  (on_database_data (ID_String on_database_id)) []
                  eq_refl)).
Defined.

(** X12: when the old and the new value of [privileges] hold the same
    privileges, in whatever order, [Update] is [Read]: no grant, no revoke,
    and the identifier is not rewritten. *)
Theorem X12_update_without_change_is_read
    R ObjectTypeDatabase ObjectTypeSchema Singular d log :
  (forall p, p ∈ privileges_state d <-> p ∈ privileges d) ->
  UpdateGrantPrivilegesToDatabaseRole R ObjectTypeDatabase ObjectTypeSchema
    Singular d log
  = ReadGrantPrivilegesToDatabaseRole R ObjectTypeDatabase ObjectTypeSchema
      Singular d log.
Proof.
  intros Hsame. apply Set_Equal_spec in Hsame.
  unfold UpdateGrantPrivilegesToDatabaseRole, get. unfold bind at 1.
  rewrite Hsame. reflexivity.
Qed.

Lemma X12_update_without_change_is_read_witness :
  let d := {| Id := ID_String on_database_id; role_name := "R1";
              database_name := "DB1";
              privileges_state := ["MONITOR"; "USAGE"];
              privileges := ["USAGE"; "MONITOR"];
              all_privileges := false; with_grant_option := false;
              on_database := true; on_schema := [];
              on_schema_object := [] |} in
  log_of (UpdateGrantPrivilegesToDatabaseRole quiet_remote "DATABASE"
            "SCHEMA" (fun plural => plural) d [])
  = log_of (ReadGrantPrivilegesToDatabaseRole quiet_remote "DATABASE"
              "SCHEMA" (fun plural => plural) d []).
Proof.
  intros d. rewrite X12_update_without_change_is_read; [reflexivity|].
  intros p. subst d. simpl. rewrite !list_elem_of_In. simpl. tauto.
Defined.

Section PrivilegeUpdate.

Variable R : Remote.
Variable ObjectTypeDatabase ObjectTypeSchema : sdk.ObjectType.
Variable Singular : string -> sdk.ObjectType.

(** One of the two steps of [Update], a grant or a revoke of a non-empty
    set, when the target resolves and the remote system accepts: it returns
    nil and leaves the data alone. *)
Lemma Update_step_accepted d (ps : list string)
    (request_of : option sdk.DatabaseRoleGrantPrivileges ->
                  sdk.DatabaseRoleGrantOn -> request) msg d0 log0 :
  (forall log r, exec_error R log r = None) ->
  on_database d = true \/ on_schema d <> [] ->
  exists log1,
    (if Nat.ltb 0 (length ps) then
       let* (privilegesToGrant, on, _) := configure d ps false zeroID in
       let* err := send (exec_error R) (request_of privilegesToGrant on) in
       check_wrap msg err
     else ret tt) d0 log0
    = (Ok tt, d0, log1).
Proof.
  intros Hexec Hbranch.
  destruct (Nat.ltb 0 (length ps)); [|now exists log0].
  destruct (resolution_with_branch d ps false zeroID)
    as (pg & on & rid' & Hconf & _).
  { unfold populated_branches.
    destruct Hbranch as [->|Hs]; [simpl; lia|].
    destruct (on_database d), (on_schema d); simpl; try lia.
    contradiction. }
  { intros Hdb Hs. destruct Hbranch; congruence. }
  unfold configure. rewrite Hconf. unfold bind, ret, send.
  rewrite Hexec. eexists. reflexivity.
Qed.

Lemma Update_writes_identifier d log id :
  NewGrantPrivilegesToDatabaseRoleID (Id d) = Some id ->
  Set_Equal (privileges_state d) (privileges d) = false ->
  (forall log r, exec_error R log r = None) ->
  on_database d = true \/ on_schema d <> [] ->
  Id (data_of (UpdateGrantPrivilegesToDatabaseRole R ObjectTypeDatabase
                 ObjectTypeSchema Singular d log))
  = ID_String (set_Privileges id (privileges d)).
Proof.
  intros Hid Hchange Hexec Hbranch.
  unfold UpdateGrantPrivilegesToDatabaseRole, get. unfold bind at 1.
  rewrite Hchange. cbn [negb].
  unfold bind at 1. unfold bind at 1.
  match goal with
  | |- context [(if Nat.ltb 0 (length ?ps) then _ else ret tt) d log] =>
      destruct (Update_step_accepted d ps
                  (fun pg on =>
                     GrantPrivilegesToDatabaseRole pg on
                       (sdk.NewDatabaseObjectIdentifier (database_name d)
                          (role_name d)) None)
                  "error granting privileges to database role" d log
                  Hexec Hbranch) as (log1 & ->)
  end.
  unfold bind at 1.
  match goal with
  | |- context [(if Nat.ltb 0 (length ?ps) then _ else ret tt) d log1] =>
      destruct (Update_step_accepted d ps
                  (fun pg on =>
                     RevokePrivilegesFromDatabaseRole pg on
                       (sdk.NewDatabaseObjectIdentifier (database_name d)
                          (role_name d)))
                  "error revoking privileges from database role" d log1
                  Hexec Hbranch) as (log2 & ->)
  end.
  rewrite Hid. unfold modify.
  match goal with
  | |- context [ReadGrantPrivilegesToDatabaseRole _ _ _ _ ?d1 ?l1] =>
      destruct (Read_effects R ObjectTypeDatabase ObjectTypeSchema
                  Singular d1 l1) as (HId & _)
  end.
  exact HId.
Qed.

End PrivilegeUpdate.

(** X13: an [Update] that changes the privileges of a grant on a database
    or on a schema, with a remote system that accepts every grant and
    revoke, rewrites the identifier as the stored identity with the new
    privileges in place of the old; when the new privileges hold no
    delimiter and are not the single empty privilege, the next decoding
    gives exactly that identity. *)
Theorem X13_update_rewrites_the_identifier
    R ObjectTypeDatabase ObjectTypeSchema Singular d log id :
  NewGrantPrivilegesToDatabaseRoleID (Id d) = Some id ->
  ~ (forall p, p ∈ privileges_state d <-> p ∈ privileges d) ->
  (forall log r, exec_error R log r = None) ->
  on_database d = true \/ on_schema d <> [] ->
  let d' := data_of (UpdateGrantPrivilegesToDatabaseRole R
                       ObjectTypeDatabase ObjectTypeSchema Singular d log) in
  Id d' = ID_String (set_Privileges id (privileges d)) /\
  (Forall (fun p => pipe_free p /\ strings.Count p "," = 0) (privileges d) ->
   privileges d <> [EmptyString] ->
   NewGrantPrivilegesToDatabaseRoleID (Id d')
   = Some (set_Privileges id (privileges d))).
Proof.
  intros Hid Hchange Hexec Hbranch d'.
  assert (Hne : Set_Equal (privileges_state d) (privileges d) = false).
  { destruct (Set_Equal _ _) eqn:E; [|reflexivity].
    exfalso. apply Hchange. exact (proj1 (Set_Equal_spec _ _) E). }
  assert (HId : Id d' = ID_String (set_Privileges id (privileges d)))
    by now apply Update_writes_identifier.
  split; [exact HId|].
  intros Hps Hblank. rewrite HId.
  apply decode_encode_without_InDatabase.
  - apply valid_set_Privileges; [now apply (decoded_valid (Id d))|assumption..].
  - simpl. now apply (decoded_InDatabase (Id d)).
Qed.

(** [MONITOR] is replaced by [USAGE]: the identifier then stores [USAGE]. *)
Lemma X13_update_rewrites_the_identifier_witness :
  NewGrantPrivilegesToDatabaseRoleID
    (Id (data_of (UpdateGrantPrivilegesToDatabaseRole quiet_remote
                    "DATABASE" "SCHEMA" (fun plural => plural)
                    replace_privilege_data [])))
  = Some (set_Privileges on_database_id ["USAGE"]).
Proof.
  refine (proj2 (X13_update_rewrites_the_identifier quiet_remote "DATABASE"
                   "SCHEMA" (fun plural => plural) replace_privilege_data []
                   (set_Privileges on_database_id ["MONITOR"])
                   _ _ _ _) _ _).
  - vm_compute. reflexivity.
  - intros H. specialize (H "USAGE"). simpl in H.
    rewrite !list_elem_of_In in H. simpl in H.
    destruct (proj2 H (or_introl eq_refl)) as [E|[]]. discriminate E.
  - reflexivity.
  - left. reflexivity.
  - repeat constructor.
  - discriminate.
Defined.

(** ** The role grants, continued *)

Section KeepsData.

Context {D : Type}.

Lemma keeps_data_ret {A} (a : A) : keeps_data (ret a : M D A).
Proof. intros d log. reflexivity. Qed.

Lemma keeps_data_fail {A} e : keeps_data (fail e : M D A).
Proof. intros d log. reflexivity. Qed.

Lemma keeps_data_check o : keeps_data (check o : M D unit).
Proof. destruct o; [apply keeps_data_fail|apply keeps_data_ret]. Qed.

Lemma keeps_data_send {A} (answer : list request -> request -> A) r :
  keeps_data (send answer r : M D A).
Proof. intros d log. reflexivity. Qed.

Lemma keeps_data_bind {A B} (m : M D A) (k : A -> M D B) :
  keeps_data m -> (forall a, keeps_data (k a)) -> keeps_data (bind m k).
Proof.
  intros Hm Hk d log. specialize (Hm d log).
  unfold bind, data_of in *.
  destruct (m d log) as [[[a| |] d'] log']; simpl in Hm; subst d';
    [apply Hk|reflexivity..].
Qed.

Lemma keeps_data_for_each {A} (xs : list A) (f : A -> M D unit) :
  (forall a, keeps_data (f a)) -> keeps_data (for_each xs f).
Proof.
  intros Hf. induction xs as [|a rest IH]; simpl.
  - apply keeps_data_ret.
  - apply keeps_data_bind; [apply Hf|intros _; exact IH].
Qed.

Variable R : Remote.

Lemma grantDatabaseRoleToRole_keeps database role1 role2 :
  keeps_data
    (RoleGrants.grantDatabaseRoleToRole R database role1 role2 : M D unit).
Proof.
  unfold RoleGrants.grantDatabaseRoleToRole.
  apply keeps_data_bind; [apply keeps_data_send|intros; apply keeps_data_check].
Qed.

Lemma grantDatabaseRoleToUser_keeps database role1 user :
  keeps_data
    (RoleGrants.grantDatabaseRoleToUser R database role1 user : M D unit).
Proof.
  unfold RoleGrants.grantDatabaseRoleToUser.
  apply keeps_data_bind; [apply keeps_data_send|intros; apply keeps_data_check].
Qed.

Lemma revokeDatabaseRoleFromRole_keeps database role1 role2 :
  keeps_data
    (RoleGrants.revokeDatabaseRoleFromRole R database role1 role2
     : M D unit).
Proof.
  unfold RoleGrants.revokeDatabaseRoleFromRole.
  apply keeps_data_bind; [apply keeps_data_send|].
  intros [[n| | |]|]; try apply keeps_data_check.
  destruct (Z.eqb n 2003); [|apply keeps_data_check].
  apply keeps_data_bind; [apply keeps_data_send|]. intros names.
  destruct (negb _); [apply keeps_data_ret|apply keeps_data_check].
Qed.

Lemma revokeDatabaseRoleFromUser_keeps database role1 user :
  keeps_data
    (RoleGrants.revokeDatabaseRoleFromUser R database role1 user
     : M D unit).
Proof.
  unfold RoleGrants.revokeDatabaseRoleFromUser.
  apply keeps_data_bind; [apply keeps_data_send|].
  intros [[n| | |]|]; try apply keeps_data_check.
  destruct (Z.eqb n 2003); [|apply keeps_data_check].
  apply keeps_data_bind; [apply keeps_data_send|]. intros names.
  destruct (negb _); [apply keeps_data_ret|apply keeps_data_check].
Qed.

(** The requests of a revoke: the statement, and the listing only after
    error 2003. *)
Lemma revokeDatabaseRoleFromRole_log database role1 role2 (d : D) log :
  let stmt := revoke_from_role database role1 role2 in
  log_of (RoleGrants.revokeDatabaseRoleFromRole R database role1 role2
            d log)
  = log ++ stmt ::
      match exec_error R log stmt with
      | Some e => if grantee_not_found e then [ListRoles role2] else []
      | None => []
      end.
Proof.
  unfold RoleGrants.revokeDatabaseRoleFromRole, revoke_from_role, bind,
    send, log_of. cbv zeta.
  destruct (exec_error R log _) as [[n| | |]|]; try reflexivity.
  simpl. destruct (Z.eqb n 2003); [|reflexivity].
  destruct (negb _); simpl; now rewrite <- app_assoc.
Qed.

Lemma revokeDatabaseRoleFromUser_log database role1 user (d : D) log :
  let stmt := revoke_from_user database role1 user in
  log_of (RoleGrants.revokeDatabaseRoleFromUser R database role1 user
            d log)
  = log ++ stmt ::
      match exec_error R log stmt with
      | Some e => if grantee_not_found e then [ListUsers user] else []
      | None => []
      end.
Proof.
  unfold RoleGrants.revokeDatabaseRoleFromUser, revoke_from_user, bind,
    send, log_of. cbv zeta.
  destruct (exec_error R log _) as [[n| | |]|]; try reflexivity.
  simpl. destruct (Z.eqb n 2003); [|reflexivity].
  destruct (negb _); simpl; now rewrite <- app_assoc.
Qed.

End KeepsData.

(** X14: a revoke of a database role from a role or a user sends its
    [REVOKE] statement and nothing more, except after error 2003, when one
    listing of the grantee follows; it never touches the resource data. *)
Theorem X14_revoke_requests R (D : Type) database role1 grantee (d : D) log :
  let from_role := RoleGrants.revokeDatabaseRoleFromRole R database role1
                     grantee d log in
  let from_user := RoleGrants.revokeDatabaseRoleFromUser R database role1
                     grantee d log in
  data_of from_role = d /\ data_of from_user = d /\
  log_of from_role
  = log ++ revoke_from_role database role1 grantee ::
      match exec_error R log (revoke_from_role database role1 grantee) with
      | Some e => if grantee_not_found e then [ListRoles grantee] else []
      | None => []
      end /\
  log_of from_user
  = log ++ revoke_from_user database role1 grantee ::
      match exec_error R log (revoke_from_user database role1 grantee) with
      | Some e => if grantee_not_found e then [ListUsers grantee] else []
      | None => []
      end.
Proof.
  split; [apply revokeDatabaseRoleFromRole_keeps|].
  split; [apply revokeDatabaseRoleFromUser_keeps|].
  split; [apply revokeDatabaseRoleFromRole_log
         |apply revokeDatabaseRoleFromUser_log].
Qed.

Lemma fold_left_invariant {A B} (P : B -> Prop) (f : B -> A -> B)
    (l : list A) (b : B) :
  P b -> (forall b a, a ∈ l -> P b -> P (f b a)) -> P (fold_left f l b).
Proof.
  revert b. induction l as [|a rest IH]; intros b Hb Hf; simpl;
    [exact Hb|].
  apply IH.
  - apply Hf; [constructor|exact Hb].
  - intros b' a' Ha'. apply Hf. now constructor.
Qed.

Lemma for_each_accepted {D A} (f : A -> M D unit) (req : A -> request)
    (xs : list A) d log :
  (forall a d log, f a d log = (Ok tt, d, log ++ [req a])) ->
  for_each xs f d log = (Ok tt, d, log ++ map req xs).
Proof.
  intros Hf. revert log. induction xs as [|a rest IH]; intros log; simpl.
  - unfold ret. now rewrite app_nil_r.
  - unfold bind. rewrite Hf, IH. now rewrite <- app_assoc.
Qed.

Section RoleGrantRuns.

Variable R : Remote.
Hypothesis accepts : forall log r, exec_error R log r = None.
Context {D : Type}.

Lemma grantDatabaseRoleToRole_accepted database role1 role2 (d : D) log :
  RoleGrants.grantDatabaseRoleToRole R database role1 role2 d log
  = (Ok tt, d, log ++ [grant_to_role database role1 role2]).
Proof.
  unfold RoleGrants.grantDatabaseRoleToRole, bind, send, grant_to_role.
  cbv zeta. now rewrite accepts.
Qed.

Lemma grantDatabaseRoleToUser_accepted database role1 user (d : D) log :
  RoleGrants.grantDatabaseRoleToUser R database role1 user d log
  = (Ok tt, d, log ++ [grant_to_user database role1 user]).
Proof.
  unfold RoleGrants.grantDatabaseRoleToUser, bind, send, grant_to_user.
  cbv zeta. now rewrite accepts.
Qed.

Lemma revokeDatabaseRoleFromRole_accepted database role1 role2 (d : D) log :
  RoleGrants.revokeDatabaseRoleFromRole R database role1 role2 d log
  = (Ok tt, d, log ++ [revoke_from_role database role1 role2]).
Proof.
  unfold RoleGrants.revokeDatabaseRoleFromRole, bind, send, revoke_from_role.
  cbv zeta. now rewrite accepts.
Qed.

Lemma revokeDatabaseRoleFromUser_accepted database role1 user (d : D) log :
  RoleGrants.revokeDatabaseRoleFromUser R database role1 user d log
  = (Ok tt, d, log ++ [revoke_from_user database role1 user]).
Proof.
  unfold RoleGrants.revokeDatabaseRoleFromUser, bind, send, revoke_from_user.
  cbv zeta. now rewrite accepts.
Qed.

End RoleGrantRuns.

Section RoleGrantRead.

Variable R : Remote.

(** [Show] sends its query, returns, and keeps the data. *)
Lemma Show_run databaseName roleName d log :
  exists o err,
    RoleGrants.Show R databaseName roleName d log
    = (Ok (o, err), d,
       log ++ [Query ("SHOW DATABASE ROLES IN DATABASE " +:+ snowflake.quote
                      +:+ databaseName +:+ snowflake.quote)]) /\
    (forall r, o = Some r ->
               NS_String (DR_Name r) = databaseName +:+ "." +:+ roleName) /\
    (forall e, err = Some e -> Is_ErrNoRows e = true -> o <> None).
Proof.
  unfold RoleGrants.Show, bind, send. cbv zeta.
  destruct (shown_roles R log _) as [e|rows qerr].
  - destruct (Is_ErrNoRows e) eqn:E.
    + do 2 eexists. split; [reflexivity|]. split; [discriminate|discriminate].
    + do 2 eexists. split; [reflexivity|]. split; [discriminate|].
      intros e' H. injection H as <-. simpl. congruence.
  - destruct (find _ rows) as [r|] eqn:Efind.
    + do 2 eexists. split; [reflexivity|]. split; [|discriminate].
      intros r' H. injection H as <-.
      apply find_some in Efind as [_ Hname]. now apply String.eqb_eq.
    + do 2 eexists. split; [reflexivity|]. split; discriminate.
Qed.

Lemma readGrantsForDatabaseRole_run databaseName roleName d log :
  let stmt := Query ("SHOW GRANTS OF DATABASE ROLE " +:+ snowflake.quote
                     +:+ databaseName +:+ "." +:+ roleName
                     +:+ snowflake.quote) in
  (exists err, RoleGrants.readGrantsForDatabaseRole R databaseName roleName
                 d log = (Err err, d, log ++ [stmt])) \/
  (exists grants, RoleGrants.readGrantsForDatabaseRole R databaseName
                    roleName d log = (Ok grants, d, log ++ [stmt])).
Proof.
  unfold RoleGrants.readGrantsForDatabaseRole, bind, send. cbv zeta.
  destruct (shown_role_grants R log _) as [err|grants].
  - left. now exists err.
  - right. eexists. reflexivity.
Qed.

Lemma SetId_same g (d : RoleGrants.ResourceData) :
  RoleGrants.Id d = g -> RoleGrants.SetId g d = d.
Proof. intros <-. now destruct d. Qed.

(** [ReadDatabaseRoleGrants], case by case: the identifier is cleared
    after the first query; or the second query fails; or the roles and
    users found are written, and the identifier with them. *)
Lemma ReadDatabaseRoleGrants_cases d log :
  let q1 := Query ("SHOW DATABASE ROLES IN DATABASE " +:+ snowflake.quote
                   +:+ RoleGrants.database_name d +:+ snowflake.quote) in
  let q2 := Query ("SHOW GRANTS OF DATABASE ROLE " +:+ snowflake.quote
                   +:+ RoleGrants.database_name d +:+ "."
                   +:+ RoleGrants.role_name d +:+ snowflake.quote) in
  RoleGrants.ReadDatabaseRoleGrants R d log
  = (Ok tt, RoleGrants.SetId "" d, log ++ [q1]) \/
  (exists e,
     RoleGrants.ReadDatabaseRoleGrants R d log
     = (Err e, d, log ++ [q1; q2])) \/
  (exists roles users,
     RoleGrants.ReadDatabaseRoleGrants R d log
     = (Ok tt,
        RoleGrants.SetId
          (helpers.EncodeSnowflakeID
             [helpers.AString (RoleGrants.database_name d);
              helpers.AString (RoleGrants.role_name d);
              helpers.AStrings roles; helpers.AStrings users])
          (RoleGrants.Set_users users (RoleGrants.Set_roles roles d)),
        log ++ [q1; q2]) /\
     roles ⊆ RoleGrants.roles d /\ users ⊆ RoleGrants.users d).
Proof.
  intros q1 q2.
  destruct (RoleGrants.ReadDatabaseRoleGrants R d log) as [[r d'] log']
    eqn:E.
  unfold RoleGrants.ReadDatabaseRoleGrants, get in E.
  unfold bind at 1 in E. unfold bind at 1 in E.
  destruct (Show_run (RoleGrants.database_name d) (RoleGrants.role_name d)
              d log) as (o & err & Hshow & _).
  rewrite Hshow in E. cbv beta iota in E. fold q1 in E.
  destruct (match err with Some e => Is_ErrNoRows e | None => false end).
  { left. unfold modify in E. now rewrite <- E. }
  right. unfold bind at 1 in E.
  destruct (readGrantsForDatabaseRole_run (RoleGrants.database_name d)
              (RoleGrants.role_name d) d (log ++ [q1]))
    as [(e & Hread)|(grants & Hread)]; rewrite Hread in E; fold q2 in E.
  { left. exists e. rewrite <- E, <- app_assoc. reflexivity. }
  right. cbv beta iota in E.
  match type of E with
  | context [fold_left ?f grants ([], [])] =>
      assert (Hinv : fst (fold_left f grants ([], []))
                     ⊆ RoleGrants.roles d /\
                     snd (fold_left f grants ([], []))
                     ⊆ RoleGrants.users d);
      [|destruct (fold_left f grants ([], [])) as [roles users]]
  end.
  { apply (fold_left_invariant
             (fun acc => fst acc ⊆ RoleGrants.roles d /\
                         snd acc ⊆ RoleGrants.users d)).
    - split; intros p Hp; inversion Hp.
    - intros [roles users] grant _ [Hroles Husers]. simpl in *.
      destruct (String.eqb (NS_String (GrantedTo grant)) "ROLE");
        [|destruct (String.eqb (NS_String (GrantedTo grant)) "USER")];
        simpl; (split; [|try assumption]); try assumption.
      + apply (fold_left_invariant (fun acc => acc ⊆ RoleGrants.roles d));
          [exact Hroles|].
        intros acc tfRole Hin Hacc.
        destruct (String.eqb_spec tfRole
                    (NS_String (DRG_GranteeName grant))) as [<-|_];
          [|exact Hacc].
        intros p [Hp|Hp]%elem_of_app; [now apply Hacc|].
        apply list_elem_of_singleton in Hp as ->. exact Hin.
      + apply (fold_left_invariant (fun acc => acc ⊆ RoleGrants.users d));
          [exact Husers|].
        intros acc tfUser Hin Hacc.
        destruct (String.eqb_spec tfUser
                    (NS_String (DRG_GranteeName grant))) as [<-|_];
          [|exact Hacc].
        intros p [Hp|Hp]%elem_of_app; [now apply Hacc|].
        apply list_elem_of_singleton in Hp as ->. exact Hin. }
  destruct Hinv as [Hroles Husers]. simpl in Hroles, Husers.
  exists roles, users. split; [|split; assumption].
  rewrite <- E. unfold bind, modify, ret. simpl.
  rewrite <- app_assoc. simpl.
  destruct (String.eqb_spec
              (helpers.EncodeSnowflakeID
                 [helpers.AString (RoleGrants.database_name d);
                  helpers.AString (RoleGrants.role_name d);
                  helpers.AStrings roles; helpers.AStrings users])
              (RoleGrants.Id d)) as [Heq|Hne]; simpl.
  - rewrite SetId_same; [reflexivity|]. simpl. now rewrite Heq.
  - reflexivity.
Qed.

End RoleGrantRead.



(** The rows of the test that ignores unknown grants: two roles and two
    users are read, the two other grantees are not. *)
Example role_grants_read_ignores_unknown :
  let d' := data_of (RoleGrants.ReadDatabaseRoleGrants
                       (remote_showing_role_grants unhandled_rows)
                       good_name_data []) in
  RoleGrants.roles d' = ["role1"; "role2"] /\
  RoleGrants.users d' = ["user1"; "user2"] /\
  RoleGrants.Id d' = "db_name|good_name|role1,role2|user1,user2".
Proof. repeat split. Qed.

Section RoleGrantLifecycle.

Variable R : Remote.

Lemma DeleteDatabaseRoleGrants_data d log :
  let run := RoleGrants.DeleteDatabaseRoleGrants R d log in
  (result_of run = Ok tt /\ data_of run = RoleGrants.SetId "" d) \/
  (result_of run <> Ok tt /\ data_of run = d).
Proof.
  cbv zeta.
  destruct (RoleGrants.DeleteDatabaseRoleGrants R d log) as [[r0 d0] log0]
    eqn:E.
  unfold RoleGrants.DeleteDatabaseRoleGrants, get in E.
  unfold bind at 1 in E. unfold bind at 1 in E. cbv beta iota in E.
  unfold result_of, data_of. simpl.
  match type of E with
  | context [for_each ?xs ?f d log] =>
      pose proof (keeps_data_for_each xs f
                    (fun a => revokeDatabaseRoleFromRole_keeps R _ _ a)
                    d log) as Hkeep;
      unfold data_of in Hkeep;
      destruct (for_each xs f d log) as [[r d'] log']
  end.
  simpl in Hkeep. subst d'.
  destruct r as [[]| |];
    [|injection E as <- <- _; right; split; [discriminate|reflexivity]..].
  unfold bind at 1 in E.
  match type of E with
  | context [for_each ?xs ?f d log'] =>
      pose proof (keeps_data_for_each xs f
                    (fun a => revokeDatabaseRoleFromUser_keeps R _ _ a)
                    d log') as Hkeep;
      unfold data_of in Hkeep;
      destruct (for_each xs f d log') as [[r d'] log'']
  end.
  simpl in Hkeep. subst d'.
  destruct r as [[]| |]; unfold modify in E; injection E as <- <- _.
  - left. split; reflexivity.
  - right. split; [discriminate|reflexivity].
  - right. split; [discriminate|reflexivity].
Qed.

Lemma DeleteDatabaseRoleGrants_emits :
  emits (fun r => is_grant r = false) (RoleGrants.DeleteDatabaseRoleGrants R).
Proof.
  unfold RoleGrants.DeleteDatabaseRoleGrants.
  apply emits_bind; [apply emits_get|]. intros d.
  apply emits_bind; [apply emits_for_each; intros;
                     apply revokeDatabaseRoleFromRole_emits|].
  intros _.
  apply emits_bind; [apply emits_for_each; intros;
                     apply revokeDatabaseRoleFromUser_emits|].
  intros _. apply emits_modify.
Qed.

Lemma DeleteDatabaseRoleGrants_accepted d log :
  (forall log r, exec_error R log r = None) ->
  RoleGrants.DeleteDatabaseRoleGrants R d log
  = (Ok tt, RoleGrants.SetId "" d,
     log ++ map (revoke_from_role (RoleGrants.database_name d)
                   (RoleGrants.role_name d)) (RoleGrants.roles d)
         ++ map (revoke_from_user (RoleGrants.database_name d)
                   (RoleGrants.role_name d)) (RoleGrants.users d)).
Proof.
  intros Hacc. unfold RoleGrants.DeleteDatabaseRoleGrants, get.
  unfold bind at 1. unfold bind at 1.
  rewrite (for_each_accepted _
             (revoke_from_role (RoleGrants.database_name d)
                (RoleGrants.role_name d)))
    by (intros; now apply revokeDatabaseRoleFromRole_accepted).
  unfold bind at 1.
  rewrite (for_each_accepted _
             (revoke_from_user (RoleGrants.database_name d)
                (RoleGrants.role_name d)))
    by (intros; now apply revokeDatabaseRoleFromUser_accepted).
  unfold modify. now rewrite <- app_assoc.
Qed.

End RoleGrantLifecycle.

(** X16: [DeleteDatabaseRoleGrants] clears the identifier exactly when it
    returns nil, and otherwise leaves the resource data as they were; it
    never sends a grant; and when the remote system accepts every statement
    it sends one revoke per configured role, then one per configured user,
    and nothing else. *)
Theorem X16_role_grants_delete R d log :
  let run := RoleGrants.DeleteDatabaseRoleGrants R d log in
  ((result_of run = Ok tt /\ data_of run = RoleGrants.SetId "" d) \/
   (result_of run <> Ok tt /\ data_of run = d)) /\
  (exists ext,
     log_of run = log ++ ext /\ Forall (fun r => is_grant r = false) ext) /\
  ((forall log r, exec_error R log r = None) ->
   run = (Ok tt, RoleGrants.SetId "" d,
          log ++ map (revoke_from_role (RoleGrants.database_name d)
                        (RoleGrants.role_name d)) (RoleGrants.roles d)
              ++ map (revoke_from_user (RoleGrants.database_name d)
                        (RoleGrants.role_name d)) (RoleGrants.users d))).
Proof.
  intros run. split; [apply DeleteDatabaseRoleGrants_data|].
  split; [apply DeleteDatabaseRoleGrants_emits|].
  apply DeleteDatabaseRoleGrants_accepted.
Qed.

(** Roles [A] and [B], then user [U1]. *)
Lemma X16_role_grants_delete_witness :
  log_of (RoleGrants.DeleteDatabaseRoleGrants quiet_remote role_grants_data
            [])
  = [revoke_from_role "DB1" "R1" "A"; revoke_from_role "DB1" "R1" "B";
     revoke_from_user "DB1" "R1" "U1"].
Proof.
  rewrite (proj2 (proj2 (X16_role_grants_delete quiet_remote
                           role_grants_data []))); reflexivity.
Defined.

Section RoleGrantCreate.

Variable R : Remote.

Lemma ReadDatabaseRoleGrants_emits (P : request -> Prop) :
  (forall q, P (Query q)) -> emits P (RoleGrants.ReadDatabaseRoleGrants R).
Proof.
  intros HP d log.
  destruct (ReadDatabaseRoleGrants_cases R d log)
    as [->|[(e & ->)|(roles & users & -> & _)]];
    eexists; (split; [reflexivity|]); repeat constructor; apply HP.
Qed.

Lemma ReadDatabaseRoleGrants_failure d log :
  result_of (RoleGrants.ReadDatabaseRoleGrants R d log) <> Ok tt ->
  data_of (RoleGrants.ReadDatabaseRoleGrants R d log) = d.
Proof.
  destruct (ReadDatabaseRoleGrants_cases R d log)
    as [->|[(e & ->)|(roles & users & -> & _)]];
    unfold result_of, data_of; simpl; intros H;
    [now contradiction H|reflexivity|now contradiction H].
Qed.

Lemma CreateDatabaseRoleGrants_empty d log :
  RoleGrants.roles d = [] -> RoleGrants.users d = [] ->
  CreateDatabaseRoleGrants R d log
  = (Err (OtherError "no users or roles specified for database role grants"),
     d, log).
Proof.
  intros Hr Hu. unfold CreateDatabaseRoleGrants, get. unfold bind at 1.
  now rewrite Hr, Hu.
Qed.

Lemma CreateDatabaseRoleGrants_failure d log :
  RoleGrants.roles d <> [] \/ RoleGrants.users d <> [] ->
  result_of (CreateDatabaseRoleGrants R d log) <> Ok tt ->
  data_of (CreateDatabaseRoleGrants R d log)
  = RoleGrants.SetId
      (role_grants_id d (RoleGrants.roles d) (RoleGrants.users d)) d.
Proof.
  intros Hne.
  destruct (CreateDatabaseRoleGrants R d log) as [[r0 d0] log0] eqn:E.
  unfold result_of, data_of. simpl. intros Hr0.
  unfold CreateDatabaseRoleGrants, get in E. unfold bind at 1 in E.
  assert (Hguard : Nat.eqb (length (RoleGrants.roles d)) 0
                   && Nat.eqb (length (RoleGrants.users d)) 0 = false).
  { destruct (RoleGrants.roles d), (RoleGrants.users d); try reflexivity.
    destruct Hne; contradiction. }
  rewrite Hguard in E. unfold bind at 1 in E. unfold modify at 1 in E.
  fold (role_grants_id d (RoleGrants.roles d) (RoleGrants.users d)) in E.
  set (d1 := RoleGrants.SetId _ d) in *.
  unfold bind at 1 in E.
  match type of E with
  | context [for_each ?xs ?f d1 log] =>
      pose proof (keeps_data_for_each xs f
                    (fun a => grantDatabaseRoleToRole_keeps R _ _ a)
                    d1 log) as Hkeep;
      unfold data_of in Hkeep;
      destruct (for_each xs f d1 log) as [[r d'] log']
  end.
  simpl in Hkeep. subst d'.
  destruct r as [[]| |]; [|now injection E as _ <- _..].
  unfold bind at 1 in E.
  match type of E with
  | context [for_each ?xs ?f d1 log'] =>
      pose proof (keeps_data_for_each xs f
                    (fun a => grantDatabaseRoleToUser_keeps R _ _ a)
                    d1 log') as Hkeep;
      unfold data_of in Hkeep;
      destruct (for_each xs f d1 log') as [[r d'] log'']
  end.
  simpl in Hkeep. subst d'.
  destruct r as [[]| |]; [|now injection E as _ <- _..].
  pose proof (ReadDatabaseRoleGrants_failure d1 log'') as Hread.
  rewrite E in Hread. unfold result_of, data_of in Hread. simpl in Hread.
  now apply Hread.
Qed.

Lemma CreateDatabaseRoleGrants_emits :
  emits (fun r => is_revoke r = false) (CreateDatabaseRoleGrants R).
Proof.
  unfold CreateDatabaseRoleGrants.
  apply emits_bind; [apply emits_get|]. intros d.
  destruct (_ && _); [apply emits_fail|].
  apply emits_bind; [apply emits_modify|]. intros _.
  apply emits_bind; [apply emits_for_each; intros;
                     apply grantDatabaseRoleToRole_emits|].
  intros _.
  apply emits_bind; [apply emits_for_each; intros;
                     apply grantDatabaseRoleToUser_emits|].
  intros _. now apply ReadDatabaseRoleGrants_emits.
Qed.

Lemma CreateDatabaseRoleGrants_accepted d log :
  (forall log r, exec_error R log r = None) ->
  RoleGrants.roles d <> [] \/ RoleGrants.users d <> [] ->
  exists ext,
    log_of (CreateDatabaseRoleGrants R d log)
    = log ++ map (grant_to_role (RoleGrants.database_name d)
                    (RoleGrants.role_name d)) (RoleGrants.roles d)
          ++ map (grant_to_user (RoleGrants.database_name d)
                    (RoleGrants.role_name d)) (RoleGrants.users d)
          ++ ext /\
    Forall (fun r => exists q, r = Query q) ext.
Proof.
  intros Hacc Hne.
  unfold CreateDatabaseRoleGrants, get. unfold bind at 1.
  assert (Hguard : Nat.eqb (length (RoleGrants.roles d)) 0
                   && Nat.eqb (length (RoleGrants.users d)) 0 = false).
  { destruct (RoleGrants.roles d), (RoleGrants.users d); try reflexivity.
    destruct Hne; contradiction. }
  rewrite Hguard. unfold bind at 1. unfold modify at 1.
  unfold bind at 1.
  rewrite (for_each_accepted _
             (grant_to_role (RoleGrants.database_name d)
                (RoleGrants.role_name d)))
    by (intros; now apply grantDatabaseRoleToRole_accepted).
  unfold bind at 1.
  rewrite (for_each_accepted _
             (grant_to_user (RoleGrants.database_name d)
                (RoleGrants.role_name d)))
    by (intros; now apply grantDatabaseRoleToUser_accepted).
  match goal with
  | |- context [RoleGrants.ReadDatabaseRoleGrants R ?d1 ?l1] =>
      destruct (ReadDatabaseRoleGrants_emits
                  (fun r => exists q, r = Query q)
                  (fun q => ex_intro _ q eq_refl) d1 l1)
        as (ext & -> & Hext)
  end.
  exists ext. split; [|exact Hext]. now rewrite <- !app_assoc.
Qed.

End RoleGrantCreate.

(** X17: [CreateDatabaseRoleGrants] with neither roles nor users returns an
    error with nothing sent and nothing written.  Otherwise the identifier
    is written before the first grant, so that whenever [Create] does not
    return nil the resource data are the configured ones with the
    identifier already set.  It never sends a revoke, and a remote system
    that accepts every statement receives one grant per role, then one per
    user, then only queries. *)
Theorem X17_role_grants_create R d log :
  let run := CreateDatabaseRoleGrants R d log in
  (RoleGrants.roles d = [] -> RoleGrants.users d = [] ->
   run = (Err (OtherError
                 "no users or roles specified for database role grants"),
          d, log)) /\
  (RoleGrants.roles d <> [] \/ RoleGrants.users d <> [] ->
   result_of run <> Ok tt ->
   data_of run
   = RoleGrants.SetId
       (role_grants_id d (RoleGrants.roles d) (RoleGrants.users d)) d) /\
  (exists ext,
     log_of run = log ++ ext /\ Forall (fun r => is_revoke r = false) ext) /\
  ((forall log r, exec_error R log r = None) ->
   RoleGrants.roles d <> [] \/ RoleGrants.users d <> [] ->
   exists ext,
     log_of run
     = log ++ map (grant_to_role (RoleGrants.database_name d)
                     (RoleGrants.role_name d)) (RoleGrants.roles d)
           ++ map (grant_to_user (RoleGrants.database_name d)
                     (RoleGrants.role_name d)) (RoleGrants.users d)
           ++ ext /\
     Forall (fun r => exists q, r = Query q) ext).
Proof.
  intros run. split; [apply CreateDatabaseRoleGrants_empty|].
  split; [apply CreateDatabaseRoleGrants_failure|].
  split; [apply CreateDatabaseRoleGrants_emits|].
  apply CreateDatabaseRoleGrants_accepted.
Qed.

(** Every grant is refused: [Create] fails at the grant to role [A], and the
    identifier is set all the same. *)
Lemma X17_role_grants_create_witness :
  result_of (CreateDatabaseRoleGrants (refusing_remote (OtherError "denied"))
               role_grants_data [])
  = Err (OtherError "denied") /\
  RoleGrants.Id
    (data_of (CreateDatabaseRoleGrants
                (refusing_remote (OtherError "denied")) role_grants_data []))
  = "DB1|R1|A,B|U1".
Proof.
  split; [reflexivity|].
  rewrite (proj1 (proj2 (X17_role_grants_create
                           (refusing_remote (OtherError "denied"))
                           role_grants_data []))).
  - reflexivity.
  - left. discriminate.
  - discriminate.
Defined.

Lemma elem_of_Difference (s other : list string) (e : string) :
  e ∈ RoleGrants.Difference s other <-> e ∈ s /\ e ∉ other.
Proof.
  unfold RoleGrants.Difference.
  rewrite elem_of_List_filter, negb_true_iff. now rewrite Contains_false.
Qed.

Section RoleGrantUpdate.

Variable R : Remote.
Hypothesis accepts : forall log r, exec_error R log r = None.

Lemma x_users_accepted d d0 log :
  RoleGrants.x (RoleGrants.database_name d) (RoleGrants.role_name d) d
    RoleGrants.res_users (RoleGrants.grantDatabaseRoleToUser R)
    (RoleGrants.revokeDatabaseRoleFromUser R) d0 log
  = (Ok tt, d0,
     log ++ map (revoke_from_user (RoleGrants.database_name d)
                   (RoleGrants.role_name d))
              (RoleGrants.Difference (RoleGrants.users_state d)
                 (RoleGrants.users d))
         ++ map (grant_to_user (RoleGrants.database_name d)
                   (RoleGrants.role_name d))
              (RoleGrants.Difference (RoleGrants.users d)
                 (RoleGrants.users_state d))).
Proof.
  unfold RoleGrants.x, RoleGrants.GetChange. cbv beta iota zeta.
  unfold bind.
  rewrite (for_each_accepted _
             (revoke_from_user (RoleGrants.database_name d)
                (RoleGrants.role_name d)))
    by (intros; now apply revokeDatabaseRoleFromUser_accepted).
  rewrite (for_each_accepted _
             (grant_to_user (RoleGrants.database_name d)
                (RoleGrants.role_name d)))
    by (intros; now apply grantDatabaseRoleToUser_accepted).
  now rewrite <- app_assoc.
Qed.

Lemma x_roles_accepted d d0 log :
  RoleGrants.x (RoleGrants.database_name d) (RoleGrants.role_name d) d
    RoleGrants.res_roles (RoleGrants.grantDatabaseRoleToRole R)
    (RoleGrants.revokeDatabaseRoleFromRole R) d0 log
  = (Ok tt, d0,
     log ++ map (revoke_from_role (RoleGrants.database_name d)
                   (RoleGrants.role_name d))
              (RoleGrants.Difference (RoleGrants.roles_state d)
                 (RoleGrants.roles d))
         ++ map (grant_to_role (RoleGrants.database_name d)
                   (RoleGrants.role_name d))
              (RoleGrants.Difference (RoleGrants.roles d)
                 (RoleGrants.roles_state d))).
Proof.
  unfold RoleGrants.x, RoleGrants.GetChange. cbv beta iota zeta.
  unfold bind.
  rewrite (for_each_accepted _
             (revoke_from_role (RoleGrants.database_name d)
                (RoleGrants.role_name d)))
    by (intros; now apply revokeDatabaseRoleFromRole_accepted).
  rewrite (for_each_accepted _
             (grant_to_role (RoleGrants.database_name d)
                (RoleGrants.role_name d)))
    by (intros; now apply grantDatabaseRoleToRole_accepted).
  now rewrite <- app_assoc.
Qed.

Lemma UpdateDatabaseRoleGrants_accepted d log :
  exists ext,
    log_of (RoleGrants.UpdateDatabaseRoleGrants R d log)
    = log
      ++ map (revoke_from_user (RoleGrants.database_name d)
                (RoleGrants.role_name d))
           (RoleGrants.Difference (RoleGrants.users_state d)
              (RoleGrants.users d))
      ++ map (grant_to_user (RoleGrants.database_name d)
                (RoleGrants.role_name d))
           (RoleGrants.Difference (RoleGrants.users d)
              (RoleGrants.users_state d))
      ++ map (revoke_from_role (RoleGrants.database_name d)
                (RoleGrants.role_name d))
           (RoleGrants.Difference (RoleGrants.roles_state d)
              (RoleGrants.roles d))
      ++ map (grant_to_role (RoleGrants.database_name d)
                (RoleGrants.role_name d))
           (RoleGrants.Difference (RoleGrants.roles d)
              (RoleGrants.roles_state d))
      ++ ext /\
    Forall (fun r => exists q, r = Query q) ext.
Proof.
  unfold RoleGrants.UpdateDatabaseRoleGrants, get. unfold bind at 1.
  unfold bind at 1. rewrite x_users_accepted.
  unfold bind at 1. rewrite x_roles_accepted.
  match goal with
  | |- context [RoleGrants.ReadDatabaseRoleGrants R ?d1 ?l1] =>
      destruct (ReadDatabaseRoleGrants_emits R
                  (fun r => exists q, r = Query q)
                  (fun q => ex_intro _ q eq_refl) d1 l1)
        as (ext & -> & Hext)
  end.
  exists ext. split; [|exact Hext]. now rewrite <- !app_assoc.
Qed.

End RoleGrantUpdate.

(** X18: with a remote system that accepts every statement,
    [UpdateDatabaseRoleGrants] sends, in this order, a revoke for every user
    of the old value that the new one lacks, a grant for every user of the
    new value that the old one lacks, then the same for the roles, then only
    queries; a grantee in both values gets no statement. *)
Theorem X18_role_grants_update R d log :
  (forall log r, exec_error R log r = None) ->
  (exists ext,
     log_of (RoleGrants.UpdateDatabaseRoleGrants R d log)
     = log
       ++ map (revoke_from_user (RoleGrants.database_name d)
                 (RoleGrants.role_name d))
            (RoleGrants.Difference (RoleGrants.users_state d)
               (RoleGrants.users d))
       ++ map (grant_to_user (RoleGrants.database_name d)
                 (RoleGrants.role_name d))
            (RoleGrants.Difference (RoleGrants.users d)
               (RoleGrants.users_state d))
       ++ map (revoke_from_role (RoleGrants.database_name d)
                 (RoleGrants.role_name d))
            (RoleGrants.Difference (RoleGrants.roles_state d)
               (RoleGrants.roles d))
       ++ map (grant_to_role (RoleGrants.database_name d)
                 (RoleGrants.role_name d))
            (RoleGrants.Difference (RoleGrants.roles d)
               (RoleGrants.roles_state d))
       ++ ext /\
     Forall (fun r => exists q, r = Query q) ext) /\
  (forall (s other : list string) (e : string),
     e ∈ RoleGrants.Difference s other <-> e ∈ s /\ e ∉ other).
Proof.
  intros Hacc. split; [now apply UpdateDatabaseRoleGrants_accepted|].
  apply elem_of_Difference.
Qed.

Lemma X18_role_grants_update_witness :
  exists ext,
    log_of (RoleGrants.UpdateDatabaseRoleGrants quiet_remote
              mixed_update_data [])
    = [revoke_from_user "DB1" "R1" "U2"; grant_to_user "DB1" "R1" "U3";
       revoke_from_role "DB1" "R1" "A"] ++ ext /\
    Forall (fun r => exists q, r = Query q) ext.
Proof.
  destruct (proj1 (X18_role_grants_update quiet_remote mixed_update_data []
                     (fun _ _ => eq_refl)))
    as (ext & Hlog & Hext).
  exists ext. split; [exact Hlog|exact Hext].
Defined.

(** ** Unquoting of grantee names *)

Lemma TrimSuffix_app (s : string) (c : ascii) :
  TrimSuffix (s +:+ String c "") c = s.
Proof.
  induction s as [|a rest IH]; simpl; [now rewrite Ascii.eqb_refl|].
  rewrite IH. destruct (rest +:+ String c "") eqn:E; [|reflexivity].
  destruct rest; discriminate.
Qed.

Lemma unquote_quoted (name : string) :
  TrimSuffix (TrimPrefix (quoted name) (Ascii.ascii_of_nat 34))
    (Ascii.ascii_of_nat 34)
  = name.
Proof.
  unfold quoted, snowflake.quote.
  change (String (Ascii.ascii_of_nat 34) "" +:+ name
          +:+ String (Ascii.ascii_of_nat 34) "")
    with (String (Ascii.ascii_of_nat 34)
            (name +:+ String (Ascii.ascii_of_nat 34) "")).
  unfold TrimPrefix. rewrite Ascii.eqb_refl. apply TrimSuffix_app.
Qed.

(** X19: [readGrantsForDatabaseRole] returns the rows shown, as many and in
    their order, each with its grantee kind as shown; the name of a grantee
    that is shown between double quotes is returned without them, and the
    name of a row whose grantee column is null is returned as it is. *)
Theorem X19_grantee_names_are_unquoted R databaseName roleName d log rows :
  shown_role_grants R log
    (Query ("SHOW GRANTS OF DATABASE ROLE " +:+ snowflake.quote
            +:+ databaseName +:+ "." +:+ roleName +:+ snowflake.quote))
  = inr rows ->
  exists rows',
    result_of (RoleGrants.readGrantsForDatabaseRole R databaseName roleName
                 d log) = Ok rows' /\
    length rows' = length rows /\
    forall i g, rows !! i = Some g ->
      exists g',
        rows' !! i = Some g' /\ GrantedTo g' = GrantedTo g /\
        (forall name,
           NS_Valid (DRG_GranteeName g) = true ->
           NS_String (DRG_GranteeName g) = quoted name ->
           NS_String (DRG_GranteeName g') = name) /\
        (NS_Valid (DRG_GranteeName g) = false -> g' = g).
Proof.
  intros Hrows.
  unfold RoleGrants.readGrantsForDatabaseRole, bind, send, result_of.
  cbv zeta. rewrite Hrows. simpl. eexists. split; [reflexivity|].
  split; [apply length_map|].
  intros i g Hi. rewrite list_lookup_fmap, Hi. simpl.
  eexists. split; [reflexivity|].
  destruct (NS_Valid (DRG_GranteeName g)); simpl.
  - split; [reflexivity|]. split; [|discriminate].
    intros name _ ->. apply unquote_quoted.
  - split; [reflexivity|]. split; [discriminate|reflexivity].
Qed.

(** A grant shown to the quoted role [role1] is read as a grant to the
    configured role [role1]. *)
Lemma X19_grantee_names_are_unquoted_witness :
  let rows := [{| Role := {| NS_String := "db_name.good_name";
                             NS_Valid := true |};
                  GrantedTo := {| NS_String := "ROLE"; NS_Valid := true |};
                  DRG_GranteeName := {| NS_String := quoted "role1";
                                        NS_Valid := true |};
                  Grantedby := {| NS_String := ""; NS_Valid := true |} |}] in
  exists g',
    result_of (RoleGrants.readGrantsForDatabaseRole
                 (remote_showing_role_grants rows) "db_name" "good_name"
                 good_name_data []) = Ok [g'] /\
    NS_String (DRG_GranteeName g') = "role1" /\
    RoleGrants.roles
      (data_of (RoleGrants.ReadDatabaseRoleGrants
                  (remote_showing_role_grants rows) good_name_data []))
    = ["role1"].
Proof.
  intros rows.
  destruct (X19_grantee_names_are_unquoted
              (remote_showing_role_grants rows) "db_name" "good_name"
              good_name_data [] rows eq_refl)
    as (rows' & Hres & Hlen & Hrow).
  destruct rows' as [|g' [|? ?]]; try discriminate Hlen.
  exists g'. split; [exact Hres|].
  destruct (Hrow 0 _ eq_refl) as (g'' & Hg & _ & Hname & _).
  injection Hg as <-.
  split; [now apply Hname|reflexivity].
Defined.

(** ** The importers *)

Section RoleGrantImport.

Variable StringListToList : string -> list string.

Lemma ImportDatabaseRoleGrants_run d log :
  ImportDatabaseRoleGrants StringListToList d log
  = match strings.Split (RoleGrants.Id d) "|" with
    | [p0; p1; p2] =>
        (Ok tt,
         RoleGrants.Set_users (StringListToList p2)
           (RoleGrants.Set_roles (StringListToList p1)
              (Set_RG_role_name p0 (Set_RG_database_name p0 d))),
         log)
    | _ =>
        (Err (OtherError
                ("invalid ID specified for role grants, expected "
                 +:+ "{database_name}|{role_name}|{roles}|{users}, got "
                 +:+ RoleGrants.Id d)),
         d, log)
    end.
Proof.
  unfold ImportDatabaseRoleGrants, get. unfold bind at 1.
  destruct (strings.Split (RoleGrants.Id d) "|")
    as [|p0 [|p1 [|p2 [|p3 rest]]]]; reflexivity.
Qed.

End RoleGrantImport.

(** X20: the importer of the role grants accepts exactly the identifiers
    that hold two pipes, sends nothing, and on success sets [role_name] to
    the first segment, the one it sets [database_name] to.  Every
    identifier that [CreateDatabaseRoleGrants] and [ReadDatabaseRoleGrants]
    write holds at least three pipes, and is refused. *)
Theorem X20_role_grants_import StringListToList d log :
  let run := ImportDatabaseRoleGrants StringListToList d log in
  log_of run = log /\
  (result_of run = Ok tt <-> strings.Count (RoleGrants.Id d) "|" = 2) /\
  (result_of run <> Ok tt -> data_of run = d) /\
  (result_of run = Ok tt ->
   RoleGrants.role_name (data_of run)
   = RoleGrants.database_name (data_of run) /\
   strings.Split (RoleGrants.Id d) "|" !! 0
   = Some (RoleGrants.database_name (data_of run))) /\
  (forall roles users,
     RoleGrants.Id d = role_grants_id d roles users ->
     result_of run <> Ok tt).
Proof.
  intros run. unfold run. rewrite ImportDatabaseRoleGrants_run.
  pose proof (Split_length (RoleGrants.Id d) "|") as Hlen.
  assert (Hcount : forall roles users,
            RoleGrants.Id d = role_grants_id d roles users ->
            3 <= strings.Count (RoleGrants.Id d) "|").
  { intros roles users ->. unfold role_grants_id, helpers.EncodeSnowflakeID.
    match goal with
    | |- context [strings.Join ?l helpers.IDDelimiter] =>
        pose proof (Count_Join_ge l "|"%char) as H
    end.
    simpl length in H. exact H. }
  destruct (strings.Split (RoleGrants.Id d) "|")
    as [|p0 [|p1 [|p2 [|p3 rest]]]];
    unfold result_of, data_of, log_of; simpl in *;
    (split; [reflexivity|]);
    (split; [split; [intros H; first [discriminate H|lia]
                    |intros H; first [reflexivity|lia]]|]);
    (split; [intros H; first [reflexivity|now contradiction H]|]);
    (split; [intros H; first [discriminate H|now split]|]);
    intros roles users Hid; specialize (Hcount roles users Hid);
    first [discriminate|lia].
Qed.

(** The identifier of a resource read by [ReadDatabaseRoleGrants] is
    refused; one of three segments is accepted and names the role after the
    database. *)
Lemma X20_role_grants_import_witness :
  result_of (ImportDatabaseRoleGrants (fun s => strings.Split s ",")
               role_grants_data [])
  <> Ok tt /\
  RoleGrants.role_name
    (data_of (ImportDatabaseRoleGrants (fun s => strings.Split s ",")
                (RoleGrants.SetId "DB1|A,B|U1" role_grants_data) []))
  = "DB1".
Proof.
  split.
  - apply (proj2 (proj2 (proj2 (proj2
             (X20_role_grants_import (fun s => strings.Split s ",")
                role_grants_data []))))
             ["A"; "B"] ["U1"]).
    reflexivity.
  - destruct (proj1 (proj2 (proj2 (proj2
               (X20_role_grants_import (fun s => strings.Split s ",")
                  (RoleGrants.SetId "DB1|A,B|U1" role_grants_data) []))))
               eq_refl) as [Hrole _].
    rewrite Hrole. reflexivity.
Defined.

(** A sequence of [d.Set] calls stops at the first refused one with its
    error; it sends nothing and keeps the identifier, and when none is
    refused the data holds every value. *)
Lemma d_Set_sequence Set_error l d log :
  for_each l (d_Set Set_error) d log
  = match first_error Set_error l with
    | Some err =>
        (Err err,
         fold_left (fun d a => assign a d)
           (take_while_accepted Set_error l) d, log)
    | None => (Ok tt, fold_left (fun d a => assign a d) l d, log)
    end.
Proof.
  revert d. induction l as [|a l IH]; intros d; [reflexivity|].
  simpl. unfold bind, d_Set at 1.
  destruct (Set_error a) as [err|]; [reflexivity|].
  unfold modify. apply IH.
Qed.

Lemma ImportGrantPrivilegesToDatabaseRole_run Set_error d log :
  ImportGrantPrivilegesToDatabaseRole Set_error d log
  = match NewGrantPrivilegesToDatabaseRoleID (Id d) with
    | None => (Panic, d, log)
    | Some id => for_each (imported_assignments id) (d_Set Set_error) d log
    end.
Proof.
  unfold ImportGrantPrivilegesToDatabaseRole, get. unfold bind at 1.
  destruct (NewGrantPrivilegesToDatabaseRoleID (Id d)) as [id|];
    [|reflexivity].
  unfold imported_assignments.
  destruct (OnSchema id), (OnSchemaObject id); simpl; unfold bind, d_Set;
    repeat match goal with
           | |- context [Set_error ?a] =>
               destruct (Set_error a); try reflexivity
           end.
Qed.

Lemma assign_Id l d :
  Id (fold_left (fun d a => assign a d) l d) = Id d.
Proof.
  revert d. induction l as [|a l IH]; intros d; [reflexivity|].
  simpl. rewrite IH. now destruct a.
Qed.

Lemma imported_in_database id m b :
  InDatabase id = false ->
  m ∈ imported_on_schema_object id ->
  all m = Some [b] \/ future m = Some [b] ->
  in_database b = Some false /\
  object_type_plural b = Some (ObjectTypePlural id).
Proof.
  intros Hdb Hm Hb. unfold imported_on_schema_object in Hm.
  assert (Hin : b = imported_in id).
  { destruct (negb (String.eqb (ObjectName id) "")), (All id), (Future id);
      simpl in Hm; apply list_elem_of_In in Hm; simpl in Hm;
      decompose [or] Hm; try contradiction; subst m; simpl in Hb;
      destruct Hb as [Hb|Hb]; try discriminate Hb; now injection Hb. }
  subst b. unfold imported_in. simpl. now rewrite Hdb.
Qed.

(** X21: the importer of a privilege grant panics exactly on the
    identifiers of fewer than fourteen pipes, sends no request and keeps
    the identifier.  On an identifier that decodes it hands to [d.Set], in
    this order, the role name, the database name, the privileges, the
    all-privileges flag, the grant option and the on-database flag, then
    the [on_schema] list when [OnSchema] is set and the [on_schema_object]
    list when [OnSchemaObject] is set; it returns the error of the first
    call the schema package refuses, and nil when none is refused, the data
    then holding each value handed over.  Every [all] or [future] block of
    the [on_schema_object] list it hands over carries [in_database] false
    and the plural object type of the identifier, whatever the grant was
    created with. *)
Theorem X21_privilege_grant_import Set_error d log :
  let run := ImportGrantPrivilegesToDatabaseRole Set_error d log in
  log_of run = log /\
  Id (data_of run) = Id d /\
  (result_of run = Panic <-> strings.Count (Id d) "|" < 14) /\
  (forall id,
     NewGrantPrivilegesToDatabaseRoleID (Id d) = Some id ->
     result_of run
     = match first_error Set_error (imported_assignments id) with
       | Some err => Err err
       | None => Ok tt
       end /\
     (result_of run = Ok tt ->
      role_name (data_of run) = RoleName id /\
      database_name (data_of run) = DatabaseName id /\
      privileges (data_of run) = Privileges id /\
      all_privileges (data_of run) = AllPrivileges id /\
      with_grant_option (data_of run) = WithGrantOption id /\
      on_database (data_of run) = OnDatabase id /\
      on_schema (data_of run)
      = (if OnSchema id then imported_on_schema id else on_schema d) /\
      on_schema_object (data_of run)
      = (if OnSchemaObject id then imported_on_schema_object id
         else on_schema_object d)) /\
     (forall m b,
        m ∈ imported_on_schema_object id ->
        all m = Some [b] \/ future m = Some [b] ->
        in_database b = Some false /\
        object_type_plural b = Some (ObjectTypePlural id))).
Proof.
  intros run. unfold run. rewrite ImportGrantPrivilegesToDatabaseRole_run.
  pose proof (decoder_returns_iff_15_segments (Id d)) as Hdec.
  rewrite Split_length in Hdec.
  destruct (NewGrantPrivilegesToDatabaseRoleID (Id d)) as [id0|] eqn:E.
  - rewrite d_Set_sequence.
    assert (Hge : ~ strings.Count (Id d) "|" < 14).
    { intros Hlt. assert (Hs : is_Some (Some id0)) by eauto.
      apply Hdec in Hs. lia. }
    destruct (first_error Set_error (imported_assignments id0)) as [err|]
      eqn:Herr; unfold result_of, data_of, log_of; cbn [fst snd].
    + split; [reflexivity|]. split; [apply assign_Id|].
      split; [split; [discriminate|intros Hlt; contradiction]|].
      intros id Hid. injection Hid as ->.
      rewrite Herr. split; [reflexivity|]. split; [discriminate|].
      intros m b Hm Hb. eapply imported_in_database; eauto.
      now apply (decoded_InDatabase (Id d)).
    + split; [reflexivity|]. split; [apply assign_Id|].
      split; [split; [discriminate|intros Hlt; contradiction]|].
      intros id Hid. injection Hid as ->.
      rewrite Herr. split; [reflexivity|]. split.
      * intros _. unfold imported_assignments.
        destruct (OnSchema id), (OnSchemaObject id); simpl;
          repeat split; reflexivity.
      * intros m b Hm Hb. eapply imported_in_database; eauto.
        now apply (decoded_InDatabase (Id d)).
  - unfold result_of, data_of, log_of; cbn [fst snd].
    split; [reflexivity|]. split; [reflexivity|]. split; [|discriminate].
    split; [intros _|reflexivity].
    destruct (decide (strings.Count (Id d) "|" < 14)) as [Hlt|Hge];
      [exact Hlt|].
    assert (Hs : is_Some (@None GrantPrivilegesToDatabaseRoleID))
      by (apply Hdec; lia).
    destruct Hs as [? Hs]. discriminate Hs.
Qed.

(** The identifier [Create] wrote for a grant on all tables in the
    database: the [all] block handed over says [in_database] false, and the
    data holds it when no call is refused.  The identifier of a grant on
    future tables: a schema package that refuses [in_database] in a
    [future] block makes the importer return its error. *)
Lemma X21_privilege_grant_import_witness :
  let d := on_database_data
             "R1|DB1|SELECT|false|false|false|false|true|true|false|||TABLES|false|" in
  let f := on_database_data
             "R1|DB1|SELECT|false|false|false|false|true|false|true|||TABLES|false|" in
  on_schema_object
    (data_of (ImportGrantPrivilegesToDatabaseRole accepting d []))
  = [{| object_type := None; object_name := None;
        all := Some [{| object_type_plural := Some "TABLES";
                        in_database := Some false; in_schema := None |}];
        future := None |}] /\
  result_of (ImportGrantPrivilegesToDatabaseRole strict_future f [])
  = Err (OtherError "in_database is not an attribute of future").
Proof.
  intros d f. split.
  - destruct (proj2 (proj2 (proj2
               (X21_privilege_grant_import accepting d []))) _ eq_refl)
      as (Hres & Hdata & _).
    destruct (Hdata Hres) as (_ & _ & _ & _ & _ & _ & _ & Hobj).
    rewrite Hobj. reflexivity.
  - destruct (proj2 (proj2 (proj2
               (X21_privilege_grant_import strict_future f []))) _ eq_refl)
      as (Hres & _).
    rewrite Hres. reflexivity.
Defined.

(** ** The lookup of the database role *)

Section RoleLookup.

Variable R : Remote.



End RoleLookup.


